(** * AdafruitCamera: mode-and-gallery control engine of [code.py]

    A shallow embedding of the run-time controller of the MEMENTO camera
    program ([src/code.py]) and proofs about its capture modes, its gallery
    browser and its image-decode pipeline.

    The Python program is a set of functions over module-level globals that
    call into hardware libraries.  It is embedded as follows.

    - The globals and the fields of the [pycam] object the program reads or
      writes are the components of the record [world].
    - Everything the program obtains from outside (sensor frames, the clock,
      the shutter pin, the file system, the codecs, the outcome of a capture)
      is a field of the record [Env], indexed by a logical instant where it
      varies with time.
    - A Python function is a computation of the monad [M]: it takes a world
      and yields a world together with a returned value, a raised exception,
      or [OutOfFuel] for a loop that has not finished within its fuel.
    - Display, storage and sleep calls append an [event] to the world's log.

    [print] calls and the floating-point frame-rate statistics of the GIF
    recorder are diagnostics and are left out; the division by the elapsed
    time they perform is kept, since it can raise.  The display, sleep and
    garbage-collection calls are taken to return normally.  The preview
    renderers behind [handle_camera_modes], the Wi-Fi and battery code and
    the loop of [main] take no part in the statements below and are not
    embedded; the battery percentage shown by the OK button is read from
    the environment. *)

From Stdlib Require Import ZArith List String Ascii Bool Lia.
From Stdlib Require Import Permutation Sorted Orders Mergesort DecimalString.
Import ListNotations.

Open Scope string_scope.
Open Scope Z_scope.

(* ================================================================= *)
(** ** Python values used by the program *)

(** The exception classes that the program's [except] clauses tell apart
    (every one is a subclass of [Exception]). *)
Inductive exn : Type :=
| TypeError | RuntimeError | OSError | AttributeError
| IndexError | ValueError | MemoryError | ZeroDivisionError.

(** What a call into a library hands back: a value or an exception. *)
Inductive outcome (A : Type) : Type :=
| Returns (a : A)
| Raises (e : exn).
Arguments Returns {A} a.
Arguments Raises {A} e.

(** Outcome of running a piece of the program; [OutOfFuel] marks a loop
    that is still running when its fuel is spent. *)
Inductive result (A : Type) : Type :=
| Ok (a : A)
| Raise (e : exn)
| OutOfFuel.
Arguments Ok {A} a.
Arguments Raise {A} e.
Arguments OutOfFuel {A}.

(** The values a capture function hands back to [safe_capture_operation]. *)
Inductive pyval : Type :=
| PyNone
| PyBool (b : bool).

(** [str.lower()] on the ASCII range. *)
Definition lower_ascii (c : ascii) : ascii :=
  let n := nat_of_ascii c in
  if ((65 <=? n) && (n <=? 90))%nat then ascii_of_nat (n + 32) else c.

Fixpoint lower (s : string) : string :=
  match s with
  | EmptyString => EmptyString
  | String c r => String (lower_ascii c) (lower r)
  end.

(** [s.endswith(suffix)]. *)
Definition endswith (s suffix : string) : bool :=
  let n := String.length s in
  let m := String.length suffix in
  if (m <=? n)%nat then String.eqb (substring (n - m) m s) suffix else false.

(** [str(n)] for an integer. *)
Definition str (z : Z) : string := NilZero.string_of_int (Z.to_int z).

(** [l[i]]: a negative index counts from the end, an index out of range
    raises [IndexError]. *)
Definition py_index {A : Type} (l : list A) (i : Z) : outcome A :=
  let n := Z.of_nat (List.length l) in
  let j := if i <? 0 then i + n else i in
  if (0 <=? j) && (j <? n)
  then match nth_error l (Z.to_nat j) with
       | Some x => Returns x
       | None => Raises IndexError
       end
  else Raises IndexError.

(** [list.sort()] on strings: the order is the lexicographic order on
    character codes, which is total, so the sorted list is determined by
    the elements alone. *)
Module StringOrder <: TotalLeBool.
Definition t := string.
Definition leb := String.leb.
Theorem leb_total : forall a1 a2, leb a1 a2 = true \/ leb a2 a1 = true.
Proof. exact String.leb_total. Qed.
End StringOrder.

Module StringSort := Sort StringOrder.

Definition py_sort (l : list string) : list string := StringSort.sort l.

(* ================================================================= *)
(** ** Rasters *)

(** A [displayio.Bitmap]: its size and its pixel values, row by row. *)
Record bitmap : Type := mkBitmap {
  bm_width : Z;
  bm_height : Z;
  bm_pixels : list Z
}.

(** A [displayio.Palette]: its colours. *)
Definition palette : Type := list Z.

(** A [displayio.TileGrid] placed on the display. *)
Record tilegrid : Type := mkTileGrid {
  tg_bitmap : bitmap;
  tg_palette : option palette;
  tg_x : Z;
  tg_y : Z
}.

(* ================================================================= *)
(** ** Buttons *)

(** The debounced button state that [pycam.keys_debounce()] leaves in
    [pycam]. *)
Record buttons : Type := mkButtons {
  up_fell : bool;
  down_fell : bool;
  left_fell : bool;
  right_fell : bool;
  select_fell : bool;
  ok_fell : bool;
  shutter_long_press : bool;
  shutter_short_count : Z
}.

Definition no_buttons : buttons :=
  mkButtons false false false false false false false 0.

(* ================================================================= *)
(** ** Events: what the program does to the display and to storage *)

Inductive event : Type :=
| EvMessage (text : string) (color : Z)     (* pycam.display_message *)
| EvBlit (frame : bitmap)                   (* pycam.blit *)
| EvRefresh                                 (* pycam.display.refresh *)
| EvBrightness (percent : Z)                (* pycam.display.brightness *)
| EvSleep (milliseconds : Z)                (* time.sleep *)
| EvLivePreview                             (* pycam.live_preview_mode *)
| EvTone (frequency : Z)                    (* pycam.tone *)
| EvAutofocus                               (* pycam.autofocus *)
| EvCaptureJpeg                             (* pycam.capture_jpeg is called *)
| EvOpenNextImage (extension : string)      (* pycam.open_next_image *)
| EvGifBegin                                (* gifio.GifWriter(...) entered *)
| EvGifFrame (frame : bitmap) (centiseconds : Z)  (* g.add_frame *)
| EvGifEnd                                  (* the with-block is left *)
| EvFileClose                               (* f.close() *)
| EvLockExposure                            (* set_camera_exposure/gain/wb(saved) *)
| EvAutoExposure                            (* exposure, gain, wb back to auto *)
| EvSelectSetting (name : option string)    (* pycam.select_setting *)
| EvGcCollect.                              (* gc.collect *)

(** Events that create or write a file on the SD card. *)
Definition is_storage_write (e : event) : bool :=
  match e with
  | EvCaptureJpeg | EvOpenNextImage _ | EvGifBegin | EvGifFrame _ _
  | EvGifEnd | EvFileClose => true
  | _ => false
  end.

Definition is_file_close (e : event) : bool :=
  match e with EvFileClose => true | _ => false end.

Definition is_gif_frame (e : event) : bool :=
  match e with EvGifFrame _ _ => true | _ => false end.

(* ================================================================= *)
(** ** The [pycam] object and the program's globals *)

(** The attributes of [pycam] that [code.py] reads or assigns directly. *)
Record PyCamera : Type := mkPyCamera {
  mode_text : string;
  stop_motion_frame : Z;
  timelapse_rate : Z;
  timelapse_submode_label_text : string;
  timelapsestatus_label_text : string;
  mode_label_text : string;
  keys : buttons;
  gallery_group : option (list tilegrid);   (* set with hasattr/delattr *)
  root_group_has_gallery : bool
}.

Record world : Type := mkWorld {
  pycam : PyCamera;
  last_frame : bitmap;
  onionskin : bitmap;
  timelapse_remaining : option Z;
  timelapse_timestamp : option Z;
  last_recorded_time : Z;
  curr_setting : Z;
  jpeg_decoder : bool;                     (* False: the global is None *)
  gallery_mode : bool;
  gallery_images : list string;
  gallery_index : Z;
  gallery_image_buffer : option bitmap;
  gallery_zoom_level : Z;
  instant : nat;                           (* logical time *)
  log : list event                         (* oldest event first *)
}.

(** The world outside the program. *)
Record Env : Type := mkEnv {
  camera_width : Z;
  camera_height : Z;
  display_width : Z;
  display_height : Z;
  timelapse_rates : list Z;
  (* signals, by instant *)
  sensor : nat -> bitmap;
  clock : nat -> Z;                        (* time.time() *)
  monotonic : nat -> Z;                    (* time.monotonic(), in clock ticks *)
  shutter_button_value : nat -> bool;      (* pin level: True when released *)
  debounced_keys : nat -> buttons;
  (* file system, by instant *)
  fs_listdir : nat -> string -> outcome (list string);
  fs_statvfs_bavail : nat -> string -> outcome Z;
  fs_stat_size : nat -> string -> outcome Z;
  (* capture back end *)
  capture_jpeg_outcome : nat -> outcome pyval;
  open_next_image_fault : nat -> option exn;
  add_frame_fault : nat -> option exn;
  (* codecs and allocation *)
  JpegDecoder_fault : option exn;
  jpeg_open : string -> outcome (Z * Z);
  jpeg_decode : string -> Z -> outcome (list Z);
  imageload_load : string -> outcome (bitmap * palette);
  Bitmap_fault : Z -> Z -> option exn;
  (* library properties reached through getattr/setattr *)
  pycam_getattr : string -> PyCamera -> Z;
  pycam_setattr : string -> Z -> PyCamera -> PyCamera;
  get_battery_percent : nat -> Z;
  pycam_initial : PyCamera
}.

(** Field updates. *)
Definition set_pycam (v : PyCamera) (w : world) : world :=
  mkWorld v (last_frame w) (onionskin w) (timelapse_remaining w)
    (timelapse_timestamp w) (last_recorded_time w) (curr_setting w)
    (jpeg_decoder w) (gallery_mode w) (gallery_images w) (gallery_index w)
    (gallery_image_buffer w) (gallery_zoom_level w) (instant w) (log w).
Definition set_last_frame (v : bitmap) (w : world) : world :=
  mkWorld (pycam w) v (onionskin w) (timelapse_remaining w)
    (timelapse_timestamp w) (last_recorded_time w) (curr_setting w)
    (jpeg_decoder w) (gallery_mode w) (gallery_images w) (gallery_index w)
    (gallery_image_buffer w) (gallery_zoom_level w) (instant w) (log w).
Definition set_onionskin (v : bitmap) (w : world) : world :=
  mkWorld (pycam w) (last_frame w) v (timelapse_remaining w)
    (timelapse_timestamp w) (last_recorded_time w) (curr_setting w)
    (jpeg_decoder w) (gallery_mode w) (gallery_images w) (gallery_index w)
    (gallery_image_buffer w) (gallery_zoom_level w) (instant w) (log w).
Definition set_timelapse_remaining (v : option Z) (w : world) : world :=
  mkWorld (pycam w) (last_frame w) (onionskin w) v
    (timelapse_timestamp w) (last_recorded_time w) (curr_setting w)
    (jpeg_decoder w) (gallery_mode w) (gallery_images w) (gallery_index w)
    (gallery_image_buffer w) (gallery_zoom_level w) (instant w) (log w).
Definition set_timelapse_timestamp (v : option Z) (w : world) : world :=
  mkWorld (pycam w) (last_frame w) (onionskin w) (timelapse_remaining w)
    v (last_recorded_time w) (curr_setting w)
    (jpeg_decoder w) (gallery_mode w) (gallery_images w) (gallery_index w)
    (gallery_image_buffer w) (gallery_zoom_level w) (instant w) (log w).
Definition set_last_recorded_time (v : Z) (w : world) : world :=
  mkWorld (pycam w) (last_frame w) (onionskin w) (timelapse_remaining w)
    (timelapse_timestamp w) v (curr_setting w)
    (jpeg_decoder w) (gallery_mode w) (gallery_images w) (gallery_index w)
    (gallery_image_buffer w) (gallery_zoom_level w) (instant w) (log w).
Definition set_curr_setting (v : Z) (w : world) : world :=
  mkWorld (pycam w) (last_frame w) (onionskin w) (timelapse_remaining w)
    (timelapse_timestamp w) (last_recorded_time w) v
    (jpeg_decoder w) (gallery_mode w) (gallery_images w) (gallery_index w)
    (gallery_image_buffer w) (gallery_zoom_level w) (instant w) (log w).
Definition set_jpeg_decoder (v : bool) (w : world) : world :=
  mkWorld (pycam w) (last_frame w) (onionskin w) (timelapse_remaining w)
    (timelapse_timestamp w) (last_recorded_time w) (curr_setting w)
    v (gallery_mode w) (gallery_images w) (gallery_index w)
    (gallery_image_buffer w) (gallery_zoom_level w) (instant w) (log w).
Definition set_gallery_mode (v : bool) (w : world) : world :=
  mkWorld (pycam w) (last_frame w) (onionskin w) (timelapse_remaining w)
    (timelapse_timestamp w) (last_recorded_time w) (curr_setting w)
    (jpeg_decoder w) v (gallery_images w) (gallery_index w)
    (gallery_image_buffer w) (gallery_zoom_level w) (instant w) (log w).
Definition set_gallery_images (v : list string) (w : world) : world :=
  mkWorld (pycam w) (last_frame w) (onionskin w) (timelapse_remaining w)
    (timelapse_timestamp w) (last_recorded_time w) (curr_setting w)
    (jpeg_decoder w) (gallery_mode w) v (gallery_index w)
    (gallery_image_buffer w) (gallery_zoom_level w) (instant w) (log w).
Definition set_gallery_index (v : Z) (w : world) : world :=
  mkWorld (pycam w) (last_frame w) (onionskin w) (timelapse_remaining w)
    (timelapse_timestamp w) (last_recorded_time w) (curr_setting w)
    (jpeg_decoder w) (gallery_mode w) (gallery_images w) v
    (gallery_image_buffer w) (gallery_zoom_level w) (instant w) (log w).
Definition set_gallery_image_buffer (v : option bitmap) (w : world) : world :=
  mkWorld (pycam w) (last_frame w) (onionskin w) (timelapse_remaining w)
    (timelapse_timestamp w) (last_recorded_time w) (curr_setting w)
    (jpeg_decoder w) (gallery_mode w) (gallery_images w) (gallery_index w)
    v (gallery_zoom_level w) (instant w) (log w).
Definition set_gallery_zoom_level (v : Z) (w : world) : world :=
  mkWorld (pycam w) (last_frame w) (onionskin w) (timelapse_remaining w)
    (timelapse_timestamp w) (last_recorded_time w) (curr_setting w)
    (jpeg_decoder w) (gallery_mode w) (gallery_images w) (gallery_index w)
    (gallery_image_buffer w) v (instant w) (log w).
Definition set_instant (v : nat) (w : world) : world :=
  mkWorld (pycam w) (last_frame w) (onionskin w) (timelapse_remaining w)
    (timelapse_timestamp w) (last_recorded_time w) (curr_setting w)
    (jpeg_decoder w) (gallery_mode w) (gallery_images w) (gallery_index w)
    (gallery_image_buffer w) (gallery_zoom_level w) v (log w).
Definition set_log (v : list event) (w : world) : world :=
  mkWorld (pycam w) (last_frame w) (onionskin w) (timelapse_remaining w)
    (timelapse_timestamp w) (last_recorded_time w) (curr_setting w)
    (jpeg_decoder w) (gallery_mode w) (gallery_images w) (gallery_index w)
    (gallery_image_buffer w) (gallery_zoom_level w) (instant w) v.

Definition set_stop_motion_frame (v : Z) (p : PyCamera) : PyCamera :=
  mkPyCamera (mode_text p) v (timelapse_rate p)
    (timelapse_submode_label_text p) (timelapsestatus_label_text p)
    (mode_label_text p) (keys p) (gallery_group p) (root_group_has_gallery p).
Definition set_timelapsestatus_label_text (v : string) (p : PyCamera) : PyCamera :=
  mkPyCamera (mode_text p) (stop_motion_frame p) (timelapse_rate p)
    (timelapse_submode_label_text p) v
    (mode_label_text p) (keys p) (gallery_group p) (root_group_has_gallery p).
Definition set_mode_label_text (v : string) (p : PyCamera) : PyCamera :=
  mkPyCamera (mode_text p) (stop_motion_frame p) (timelapse_rate p)
    (timelapse_submode_label_text p) (timelapsestatus_label_text p)
    v (keys p) (gallery_group p) (root_group_has_gallery p).
Definition set_keys (v : buttons) (p : PyCamera) : PyCamera :=
  mkPyCamera (mode_text p) (stop_motion_frame p) (timelapse_rate p)
    (timelapse_submode_label_text p) (timelapsestatus_label_text p)
    (mode_label_text p) v (gallery_group p) (root_group_has_gallery p).
Definition set_gallery_group (v : option (list tilegrid)) (has : bool)
    (p : PyCamera) : PyCamera :=
  mkPyCamera (mode_text p) (stop_motion_frame p) (timelapse_rate p)
    (timelapse_submode_label_text p) (timelapsestatus_label_text p)
    (mode_label_text p) (keys p) v has.

(* ================================================================= *)
(** ** The monad of Python computations *)

Definition M (A : Type) : Type := world -> result A * world.

Definition ret {A : Type} (a : A) : M A := fun w => (Ok a, w).

Definition raise {A : Type} (e : exn) : M A := fun w => (Raise e, w).

Definition out_of_fuel {A : Type} : M A := fun w => (OutOfFuel, w).

Definition bind {A B : Type} (m : M A) (k : A -> M B) : M B :=
  fun w =>
    match m w with
    | (Ok a, w') => k a w'
    | (Raise e, w') => (Raise e, w')
    | (OutOfFuel, w') => (OutOfFuel, w')
    end.

Declare Scope py_scope.
Delimit Scope py_scope with py.
Notation "x <- m ;; k" := (bind m (fun x => k))
  (at level 61, m at next level, right associativity) : py_scope.
Notation "m ;; k" := (bind m (fun _ => k))
  (at level 61, right associativity) : py_scope.
Notation "' pat <- m ;; k" := (bind m (fun x => match x with pat => k end))
  (at level 61, pat pattern, m at next level, right associativity) : py_scope.
Open Scope py_scope.

(** [try: body  except <classes>: handler].  State changes made by the
    body before it raised are kept, as in Python. *)
Definition try_except {A : Type} (body : M A) (catches : exn -> bool)
    (handler : M A) : M A :=
  fun w =>
    match body w with
    | (Raise e, w') => if catches e then handler w' else (Raise e, w')
    | r => r
    end.

(** [try: body  finally: cleanup], which is what leaving a [with] block
    does. *)
Definition try_finally {A : Type} (body : M A) (cleanup : M unit) : M A :=
  fun w =>
    match body w with
    | (Ok a, w') => (a' <- cleanup ;; ret a) w'
    | (Raise e, w') => (a' <- cleanup ;; raise e) w'
    | (OutOfFuel, w') => (OutOfFuel, w')
    end.

Definition get : M world := fun w => (Ok w, w).

Definition modify (f : world -> world) : M unit := fun w => (Ok tt, f w).

Definition lift {A : Type} (r : outcome A) : M A :=
  match r with
  | Returns a => ret a
  | Raises e => raise e
  end.

Definition when (c : bool) (m : M unit) : M unit := if c then m else ret tt.

(** [for x in l: body x]. *)
Fixpoint for_each {A : Type} (l : list A) (body : A -> M unit) : M unit :=
  match l with
  | [] => ret tt
  | x :: r => body x ;; for_each r body
  end.

(** [range(n)]. *)
Definition range (n : Z) : list Z := map Z.of_nat (seq 0 (Z.to_nat n)).

Definition except_Exception (e : exn) : bool := true.

Definition except_OSError (e : exn) : bool :=
  match e with OSError => true | _ => false end.

Definition except_OSError_AttributeError (e : exn) : bool :=
  match e with OSError | AttributeError => true | _ => false end.

Definition except_TypeError_RuntimeError_OSError (e : exn) : bool :=
  match e with TypeError | RuntimeError | OSError => true | _ => false end.

Definition newline : string := String (ascii_of_nat 10) EmptyString.

(* ================================================================= *)
(** ** The program *)

Section Program.

Variable E : Env.

(** *** Library calls *)

Definition emit (e : event) : M unit :=
  modify (fun w => set_log (log w ++ [e]) w).

(** Operations that wait for the hardware move the logical time on. *)
Definition advance : M unit :=
  modify (fun w => set_instant (S (instant w)) w).

Definition time_time : M Z := fun w => (Ok (clock E (instant w)), w).

Definition time_monotonic : M Z := fun w => (Ok (monotonic E (instant w)), w).

Definition time_sleep (milliseconds : Z) : M unit :=
  emit (EvSleep milliseconds) ;; advance.

Definition os_listdir (path : string) : M (list string) :=
  w <- get ;; lift (fs_listdir E (instant w) path).

(** [os.statvfs(path)[3]], the number of available blocks. *)
Definition os_statvfs_bavail (path : string) : M Z :=
  w <- get ;; lift (fs_statvfs_bavail E (instant w) path).

(** [os.stat(path)[6]], the size in bytes. *)
Definition os_stat_size (path : string) : M Z :=
  w <- get ;; lift (fs_stat_size E (instant w) path).

Definition display_message (text : string) (color : Z) : M unit :=
  emit (EvMessage text color).

Definition blit (frame : bitmap) : M unit := emit (EvBlit frame).

Definition display_refresh : M unit := emit EvRefresh.

Definition live_preview_mode : M unit := emit EvLivePreview.

Definition continuous_capture : M bitmap :=
  w <- get ;; advance ;; ret (sensor E (instant w)).

(** [pycam.capture_into_bitmap(bitmap)] blits one sensor frame into a
    buffer of the sensor's size; the caller stores the result. *)
Definition capture_into_bitmap : M bitmap := continuous_capture.

(** [pycam.capture_jpeg()]. *)
Definition capture_jpeg : M pyval :=
  w <- get ;; emit EvCaptureJpeg ;; advance ;;
  lift (capture_jpeg_outcome E (instant w)).

Definition open_next_image (extension : string) : M unit :=
  w <- get ;;
  match open_next_image_fault E (instant w) with
  | Some e => raise e
  | None => emit (EvOpenNextImage extension)
  end.

Definition add_frame (frame : bitmap) (centiseconds : Z) : M unit :=
  w <- get ;;
  match add_frame_fault E (instant w) with
  | Some e => raise e
  | None => emit (EvGifFrame frame centiseconds)
  end.

(** [with gifio.GifWriter(f, ...) as g: body]. *)
Definition with_GifWriter {A : Type} (body : M A) : M A :=
  emit EvGifBegin ;; try_finally body (emit EvGifEnd).

(** [displayio.Bitmap(width, height, 65535)]: a zeroed raster. *)
Definition displayio_Bitmap (width height : Z) : M bitmap :=
  match Bitmap_fault E width height with
  | Some e => raise e
  | None => ret (mkBitmap width height
                   (repeat 0 (Z.to_nat (width * height))))
  end.

(** [bitmap[x, y] = value]. *)
Definition bitmap_setitem (b : bitmap) (x y value : Z) : outcome bitmap :=
  if (0 <=? x) && (x <? bm_width b) && (0 <=? y) && (y <? bm_height b)
  then Returns (mkBitmap (bm_width b) (bm_height b)
             (firstn (Z.to_nat (y * bm_width b + x)) (bm_pixels b)
              ++ value
              :: skipn (S (Z.to_nat (y * bm_width b + x))) (bm_pixels b)))
  else Raises IndexError.

(** *** Storage availability and the capture wrapper *)

Definition is_sd_card_available : M bool :=
  try_except
    (root_contents <- os_listdir "/" ;;
     if negb (existsb (String.eqb "sd") root_contents) then ret false
     else
       sd_contents <- try_except
                        (l <- os_listdir "/sd" ;; ret (Some l))
                        except_OSError (ret None) ;;
       match sd_contents with
       | None => ret false
       | Some _ =>
           try_except
             (bavail <- os_statvfs_bavail "/sd" ;;
              if 0 <? bavail then ret true else ret false)
             except_OSError_AttributeError
             (try_except
                (os_listdir "/sd" ;; ret true)
                except_OSError (ret false))
       end)
    except_Exception (ret false).

Definition show_capture_status (success preview_only : bool) : M unit :=
  if preview_only then
    display_message "Preview Only" 0xFFFF00 ;; time_sleep 1000
  else if success then
    display_message "Saved!" 0x00FF00
  else
    display_message "Failed" 0xFF0000 ;; time_sleep 500.

Definition safe_capture_operation (capture_func : M pyval) : M pyval :=
  available <- is_sd_card_available ;;
  if negb available then
    show_capture_status true true ;; ret (PyBool false)
  else
    try_except
      (result <- capture_func ;;
       show_capture_status true false ;;
       ret result)
      except_TypeError_RuntimeError_OSError
      (show_capture_status false false ;; ret (PyBool false)).

(** *** Time-lapse mode *)

Definition set_status_label (text : string) : M unit :=
  modify (fun w => set_pycam (set_timelapsestatus_label_text text (pycam w)) w).

Definition handle_timelapse_mode : M unit :=
  w <- get ;;
  match timelapse_remaining w with
  | None => set_status_label "STOP"
  | Some _ =>
      now <- time_time ;;
      timestamp <- match timelapse_timestamp w with
                   | Some t => ret t
                   | None => raise TypeError
                   end ;;
      modify (set_timelapse_remaining (Some (timestamp - now))) ;;
      set_status_label (str (timestamp - now) ++ "s /    ")
  end ;;
  (* the two labels assigned to themselves are only repainted *)
  w <- get ;;
  when (match timelapse_remaining w with None => true | Some _ => false end
        || String.eqb (timelapse_submode_label_text (pycam w)) "HiPwr")
    (frame <- continuous_capture ;; blit frame) ;;
  (if String.eqb (timelapse_submode_label_text (pycam w)) "LowPwr"
      && match timelapse_remaining w with None => false | Some _ => true end
   then emit (EvBrightness 5)
   else emit (EvBrightness 100)) ;;
  display_refresh ;;
  match timelapse_remaining w with
  | Some remaining =>
      when (remaining <=? 0)
        (frame <- continuous_capture ;; blit frame ;;
         display_message "Snap!" 0x0000FF ;;
         safe_capture_operation capture_jpeg ;;
         live_preview_mode ;;
         display_refresh ;;
         frame <- continuous_capture ;; blit frame ;;
         now <- time_time ;;
         w <- get ;;
         rate <- lift (py_index (timelapse_rates E)
                         (timelapse_rate (pycam w))) ;;
         modify (set_timelapse_timestamp (Some (now + rate + 1))))
  | None => ret tt
  end.

(** *** Shutter actions *)

Definition handle_stop_motion_capture : M unit :=
  frame <- capture_into_bitmap ;;
  modify (set_last_frame frame) ;;
  modify (fun w => set_pycam
            (set_stop_motion_frame (stop_motion_frame (pycam w) + 1) (pycam w))
            w) ;;
  display_message "Snap!" 0x0000FF ;;
  safe_capture_operation capture_jpeg ;;
  live_preview_mode.

Definition capture_gameboy_gif : M pyval :=
  open_next_image "gif" ;;
  with_GifWriter (w <- get ;; add_frame (last_frame w) 100) ;;
  ret (PyBool true).

Definition handle_gameboy_capture : M unit :=
  safe_capture_operation capture_gameboy_gif ;; ret tt.

Definition set_mode_label (text : string) : M unit :=
  modify (fun w => set_pycam (set_mode_label_text text (pycam w)) w).

(** The recording loop:
    [while (i < 15) or not pycam.shutter_button.value: ...].
    It returns the frame count and the last monotonic reading. *)
Fixpoint recording_loop (fuel : nat) (i t0 : Z) : M (Z * Z) :=
  w <- get ;;
  if (i <? 15) || negb (shutter_button_value E (instant w)) then
    match fuel with
    | O => out_of_fuel
    | S fuel' =>
        gifframe <- continuous_capture ;;
        add_frame gifframe 12 ;;
        blit gifframe ;;
        t1 <- time_monotonic ;;
        (* ft.append(1 / (t1 - t0)) *)
        (if t1 - t0 =? 0 then raise ZeroDivisionError else ret tt) ;;
        recording_loop fuel' (i + 1) t1
    end
  else ret (i, t0).

Definition capture_animated_gif (fuel : nat) : M pyval :=
  open_next_image "gif" ;;
  set_mode_label "RECORDING" ;;
  display_refresh ;;
  '(i, t00, t1) <- with_GifWriter
                     (t00 <- time_monotonic ;;
                      '(i, t1) <- recording_loop fuel 0 t00 ;;
                      ret (i, t00, t1)) ;;
  set_mode_label "GIF" ;;
  (* print(f"average framerate {i / (t1 - t00)}fps") *)
  (if t1 - t00 =? 0 then raise ZeroDivisionError else ret tt) ;;
  emit EvFileClose ;;
  display_refresh ;;
  ret (PyBool true).

Definition handle_gif_capture (fuel : nat) : M unit :=
  safe_capture_operation (capture_animated_gif fuel) ;; ret tt.

Definition handle_jpeg_capture : M unit :=
  emit (EvTone 1500) ;;
  display_message "Snap!" 0x0000FF ;;
  safe_capture_operation capture_jpeg ;;
  live_preview_mode.

Definition handle_shutter_button (fuel : nat) : M unit :=
  w <- get ;;
  when (shutter_long_press (keys (pycam w))) (emit EvAutofocus ;; advance) ;;
  w <- get ;;
  when (negb (shutter_short_count (keys (pycam w)) =? 0))
    (if String.eqb (mode_text (pycam w)) "STOP" then handle_stop_motion_capture
     else if String.eqb (mode_text (pycam w)) "GBOY" then handle_gameboy_capture
     else if String.eqb (mode_text (pycam w)) "GIF" then handle_gif_capture fuel
     else if String.eqb (mode_text (pycam w)) "JPEG" then handle_jpeg_capture
     else ret tt).

(** *** Gallery: scanning, entering and leaving *)

Definition is_gallery_file (file : string) : bool :=
  let file_lower := lower file in
  endswith file_lower ".jpg"
  || endswith file_lower ".jpeg"
  || endswith file_lower ".gif".

Definition scan_gallery_images : M (list string) :=
  modify (set_gallery_images []) ;;
  available <- is_sd_card_available ;;
  if negb available then ret []
  else
    try_except
      (files <- os_listdir "/sd" ;;
       for_each files
         (fun file =>
            when (is_gallery_file file)
              (modify (fun w =>
                         set_gallery_images (gallery_images w ++ [file]) w))) ;;
       modify (fun w => set_gallery_images (py_sort (gallery_images w)) w) ;;
       w <- get ;;
       ret (gallery_images w))
      except_Exception
      (modify (set_gallery_images []) ;; ret []).

Definition cleanup_gallery_display : M unit :=
  try_except (emit EvGcCollect) except_Exception (ret tt).

(** The double loop that blackens [gallery_image_buffer]:
    [for y in range(height): for x in range(width): buffer[x, y] = 0]. *)
Definition blacken_pixel (x y : Z) : M unit :=
  w <- get ;;
  match gallery_image_buffer w with
  | Some b =>
      b' <- lift (bitmap_setitem b x y 0) ;;
      modify (set_gallery_image_buffer (Some b'))
  | None => raise TypeError
  end.

Definition blacken_gallery_image_buffer : M unit :=
  for_each (range (camera_height E))
    (fun y => for_each (range (camera_width E)) (fun x => blacken_pixel x y)).

Definition exit_gallery_mode : M unit :=
  modify (set_gallery_mode false) ;;
  cleanup_gallery_display ;;
  modify (set_gallery_images []) ;;
  modify (set_gallery_index 0) ;;
  w <- get ;;
  when (match gallery_image_buffer w with Some _ => true | None => false end)
    blacken_gallery_image_buffer ;;
  try_except
    (w <- get ;;
     when (match gallery_group (pycam w) with Some _ => true | None => false end)
       (modify (fun w => set_pycam (set_gallery_group None false (pycam w)) w)) ;;
     live_preview_mode ;;
     display_refresh ;;
     time_sleep 200 ;;
     display_refresh ;;
     time_sleep 100 ;;
     display_refresh ;;
     display_message "Camera Mode" 0x00FF00 ;;
     time_sleep 500)
    except_Exception (ret tt).

(** *** The decode pipeline *)

Definition get_current_scale_factor : M Z :=
  w <- get ;; ret (gallery_zoom_level w).

Definition scale_factors : list Z := [1; 2; 4; 8].

Definition load_jpeg_file (filename : string) : M (option bitmap) :=
  w <- get ;;
  if negb (jpeg_decoder w) then ret None
  else
    try_except
      (let file_path := "/sd/" ++ filename in
       '(original_width, original_height) <- lift (jpeg_open E file_path) ;;
       scale <- get_current_scale_factor ;;
       scale_factor <- lift (py_index scale_factors scale) ;;
       let scaled_width := original_width / scale_factor in
       let scaled_height := original_height / scale_factor in
       jpeg_bitmap <- displayio_Bitmap scaled_width scaled_height ;;
       decoded <- lift (jpeg_decode E file_path scale) ;;
       ret (Some (mkBitmap (bm_width jpeg_bitmap) (bm_height jpeg_bitmap)
                    decoded)))
      except_Exception (ret None).

Definition load_gif_file (filename : string)
    : M (option bitmap * option palette) :=
  try_except
    (let file_path := "/sd/" ++ filename in
     '(bitmap, palette) <- lift (imageload_load E file_path) ;;
     ret (Some bitmap, Some palette))
    except_Exception (ret (None, None)).

Definition load_image_file (filename : string)
    : M (option bitmap * option palette) :=
  try_except
    (let filename_lower := lower filename in
     if endswith filename_lower ".jpg" || endswith filename_lower ".jpeg" then
       bitmap <- load_jpeg_file filename ;;
       ret (bitmap, None)
     else if endswith filename_lower ".gif" then
       load_gif_file filename
     else ret (None, None))
    except_Exception (ret (None, None)).

Definition show_image_info_fallback (filename : string) : M unit :=
  w <- get ;;
  let position :=
    str (gallery_index w + 1) ++ "/"
    ++ str (Z.of_nat (List.length (gallery_images w))) in
  info_text <-
    try_except
      (let file_path := "/sd/" ++ filename in
       file_size <- os_stat_size file_path ;;
       let size_kb := file_size / 1024 in
       let filename_lower := lower filename in
       let format_info :=
         if endswith filename_lower ".jpg" || endswith filename_lower ".jpeg"
         then "JPEG (load failed)"
         else if endswith filename_lower ".gif" then "GIF (load failed)"
         else "Unknown format" in
       ret (position ++ newline ++ filename ++ newline ++ format_info
            ++ newline ++ str size_kb ++ "KB"))
      except_Exception
      (ret (position ++ newline ++ filename ++ newline ++ "Info unavailable")) ;;
  when (match gallery_image_buffer w with None => true | Some _ => false end)
    (b <- displayio_Bitmap (camera_width E) (camera_height E) ;;
     modify (set_gallery_image_buffer (Some b))) ;;
  blacken_gallery_image_buffer ;;
  w <- get ;;
  match gallery_image_buffer w with
  | Some b => blit b
  | None => raise TypeError
  end ;;
  display_refresh ;;
  display_message info_text 0xFFFFFF.

Definition display_current_image : M unit :=
  w <- get ;;
  if match gallery_images w with [] => true | _ => false end
     || (Z.of_nat (List.length (gallery_images w)) <=? gallery_index w)
  then display_message "No Image" 0xFF0000
  else
    current_file <- lift (py_index (gallery_images w) (gallery_index w)) ;;
    '(loaded_bitmap, loaded_palette) <- load_image_file current_file ;;
    match loaded_bitmap with
    | None => show_image_info_fallback current_file
    | Some image =>
        let shader :=
          match loaded_palette with
          | Some (c :: p) => Some (c :: p)      (* paletted: GIF *)
          | _ => None                           (* ColorConverter: JPEG *)
          end in
        let disp_w := display_width E in
        let disp_h := display_height E in
        let img_w := bm_width image in
        let img_h := bm_height image in
        let x := if img_w <=? disp_w then (disp_w - img_w) / 2
                 else (- (img_w - disp_w)) / 2 in
        let y := if img_h <=? disp_h then (disp_h - img_h) / 2
                 else (- (img_h - disp_h)) / 2 in
        let tg := mkTileGrid image shader x y in
        modify (fun w =>
                  set_pycam
                    (set_gallery_group (Some [tg])
                       (match gallery_group (pycam w) with
                        | Some _ => root_group_has_gallery (pycam w)
                        | None => true
                        end)
                       (pycam w))
                    w) ;;
        display_refresh
    end.

Definition enter_gallery_mode : M unit :=
  modify (set_gallery_mode true) ;;
  modify (set_gallery_index 0) ;;
  modify (set_gallery_zoom_level 1) ;;
  images <- scan_gallery_images ;;
  match images with
  | [] =>
      display_message "No Photos" 0xFFFF00 ;;
      time_sleep 1000 ;;
      exit_gallery_mode
  | _ =>
      display_message "Gallery Mode" 0x00FF00 ;;
      time_sleep 500 ;;
      display_current_image
  end.

(** *** Gallery: zoom and navigation *)

Definition gallery_zoom_in : M unit :=
  w <- get ;;
  if 1 <? gallery_zoom_level w then
    modify (set_gallery_zoom_level (gallery_zoom_level w - 1)) ;;
    display_current_image
  else ret tt.

Definition gallery_zoom_out : M unit :=
  w <- get ;;
  if gallery_zoom_level w <? 3 then
    modify (set_gallery_zoom_level (gallery_zoom_level w + 1)) ;;
    display_current_image
  else ret tt.

Definition gallery_navigate (direction : Z) : M unit :=
  w <- get ;;
  match gallery_images w with
  | [] => ret tt
  | _ =>
      try_except (emit EvGcCollect) except_Exception (ret tt) ;;
      modify (fun w => set_gallery_index (gallery_index w + direction) w) ;;
      w <- get ;;
      (if gallery_index w <? 0 then
         modify (set_gallery_index
                   (Z.of_nat (List.length (gallery_images w)) - 1))
       else if Z.of_nat (List.length (gallery_images w)) <=? gallery_index w
       then modify (set_gallery_index 0)
       else ret tt) ;;
      display_current_image
  end.

(** *** Button handling *)

Definition SETTINGS : list (option string) :=
  [None; Some "resolution"; Some "effect"; Some "mode"; Some "led_level";
   Some "led_color"; Some "timelapse_rate"].

Definition len_SETTINGS : Z := Z.of_nat (List.length SETTINGS).

(** [setattr(pycam, key, getattr(pycam, key) + delta)]. *)
Definition bump_attribute (key : string) (delta : Z) : M unit :=
  modify (fun w =>
            set_pycam
              (pycam_setattr E key (pycam_getattr E key (pycam w) + delta)
                 (pycam w))
              w).

Definition is_timelapse_rate (key : option string) : bool :=
  match key with
  | Some k => String.eqb k "timelapse_rate"
  | None => false
  end.

Definition skip_timelapse_rate : M unit :=
  w <- get ;;
  key <- lift (py_index SETTINGS (curr_setting w)) ;;
  when (negb (String.eqb (mode_text (pycam w)) "LAPS") && is_timelapse_rate key)
    (modify (set_curr_setting ((curr_setting w + 1) mod len_SETTINGS))).

Definition select_current_setting : M unit :=
  w <- get ;;
  key <- lift (py_index SETTINGS (curr_setting w)) ;;
  emit (EvSelectSetting key).

Definition handle_navigation_buttons : M unit :=
  w <- get ;;
  when (up_fell (keys (pycam w)))
    (w <- get ;;
     key <- lift (py_index SETTINGS (curr_setting w)) ;;
     match key with
     | Some k => bump_attribute k 1
     | None => ret tt
     end) ;;
  w <- get ;;
  when (down_fell (keys (pycam w)))
    (w <- get ;;
     key <- lift (py_index SETTINGS (curr_setting w)) ;;
     match key with
     | Some k => bump_attribute k (-1)
     | None => ret tt
     end) ;;
  w <- get ;;
  when (right_fell (keys (pycam w)))
    (modify (fun w => set_curr_setting
                        ((curr_setting w + 1) mod len_SETTINGS) w) ;;
     skip_timelapse_rate ;;
     select_current_setting) ;;
  w <- get ;;
  when (left_fell (keys (pycam w)))
    (modify (fun w => set_curr_setting
                        ((curr_setting w - 1 + len_SETTINGS) mod len_SETTINGS)
                        w) ;;
     skip_timelapse_rate ;;
     select_current_setting).

Definition handle_select_button : M unit :=
  w <- get ;;
  if String.eqb (mode_text (pycam w)) "LAPS" then
    bump_attribute "timelapse_submode" 1 ;;
    display_refresh
  else
    modify (fun w => set_gallery_mode (negb (gallery_mode w)) w) ;;
    w <- get ;;
    if gallery_mode w then enter_gallery_mode else exit_gallery_mode.

Definition handle_ok_button : M unit :=
  w <- get ;;
  if String.eqb (mode_text (pycam w)) "LAPS" then
    match timelapse_remaining w with
    | None =>
        remaining <- lift (py_index (timelapse_rates E)
                             (timelapse_rate (pycam w))) ;;
        modify (set_timelapse_remaining (Some remaining)) ;;
        now <- time_time ;;
        modify (set_timelapse_timestamp (Some (now + remaining + 1))) ;;
        emit EvLockExposure
    | Some _ =>
        modify (set_timelapse_remaining None) ;;
        emit EvAutoExposure
    end
  else
    display_message (str (get_battery_percent E (instant w)) ++ "%") 0xFFFFFF.

Definition handle_gallery_buttons : M unit :=
  available <- is_sd_card_available ;;
  if negb available then
    display_message ("SD Card" ++ newline ++ "Removed") 0xFF0000 ;;
    time_sleep 1000 ;;
    exit_gallery_mode
  else
    w <- get ;;
    when (left_fell (keys (pycam w))) (gallery_navigate (-1)) ;;
    w <- get ;;
    when (right_fell (keys (pycam w))) (gallery_navigate 1) ;;
    w <- get ;;
    when (select_fell (keys (pycam w))) handle_select_button ;;
    w <- get ;;
    when (negb (shutter_short_count (keys (pycam w)) =? 0)) exit_gallery_mode ;;
    w <- get ;;
    when (up_fell (keys (pycam w))) gallery_zoom_in ;;
    w <- get ;;
    when (down_fell (keys (pycam w))) gallery_zoom_out.

Definition handle_camera_buttons (fuel : nat) : M unit :=
  handle_shutter_button fuel ;;
  handle_navigation_buttons ;;
  w <- get ;;
  when (select_fell (keys (pycam w))) handle_select_button ;;
  w <- get ;;
  when (ok_fell (keys (pycam w))) handle_ok_button.

Definition keys_debounce : M unit :=
  modify (fun w => set_pycam (set_keys (debounced_keys E (instant w)) (pycam w)) w).

Definition handle_all_buttons (fuel : nat) : M unit :=
  keys_debounce ;;
  w <- get ;;
  if gallery_mode w then handle_gallery_buttons
  else handle_camera_buttons fuel.

(** *** Start-up *)

(** The module-level assignments at import time; the buffers are [None]
    until [init_camera_system] replaces them, which is the first thing
    [main] does with them. *)
Definition module_globals : world :=
  mkWorld (pycam_initial E) (mkBitmap 0 0 []) (mkBitmap 0 0 [])
    None None 0 0 false false [] 0 None 1 O [].

Definition init_camera_system : M unit :=
  modify (set_pycam (pycam_initial E)) ;;
  b <- displayio_Bitmap (camera_width E) (camera_height E) ;;
  modify (set_last_frame b) ;;
  b <- displayio_Bitmap (camera_width E) (camera_height E) ;;
  modify (set_onionskin b) ;;
  b <- displayio_Bitmap (camera_width E) (camera_height E) ;;
  modify (set_gallery_image_buffer (Some b)) ;;
  try_except
    (match JpegDecoder_fault E with
     | Some e => raise e
     | None => modify (set_jpeg_decoder true)
     end)
    except_Exception
    (modify (set_jpeg_decoder false)) ;;
  now <- time_time ;;
  modify (set_last_recorded_time now).

End Program.

(* ================================================================= *)
(** ** Derived notions used in the statements *)

(** What [is_sd_card_available] answers at a given instant. *)
Definition storage_available_at (E : Env) (t : nat) : bool :=
  match fst (is_sd_card_available E (set_instant t (module_globals E))) with
  | Ok b => b
  | _ => false
  end.

(** The fallback buffer exists and covers the sensor's size, as it does
    once [init_camera_system] has run. *)
Definition buffer_ready (E : Env) (w : world) : Prop :=
  exists b, gallery_image_buffer w = Some b
            /\ camera_width E <= bm_width b
            /\ camera_height E <= bm_height b.

(** [bitmap[x, y]] read back. *)
Definition bitmap_getitem (b : bitmap) (x y : Z) : option Z :=
  if (0 <=? x) && (x <? bm_width b) && (0 <=? y) && (y <? bm_height b)
  then nth_error (bm_pixels b) (Z.to_nat (y * bm_width b + x))
  else None.

(** A raster that holds one value for each of its pixels, as
    [displayio.Bitmap] makes it and [bitmap[x, y] = value] keeps it. *)
Definition raster_complete (b : bitmap) : Prop :=
  Z.of_nat (List.length (bm_pixels b)) = bm_width b * bm_height b.

(** Every pixel of the sensor's area reads black. *)
Definition black_over (E : Env) (b : bitmap) : Prop :=
  forall x y,
    0 <= x < camera_width E -> 0 <= y < camera_height E ->
    bitmap_getitem b x y = Some 0.

(** The pixels the double loop has reached after the rows [ys], each over
    the columns [xs], by their position in the raster of width [width]. *)
Definition painted_row (width y : Z) (xs : list Z) (j : nat) : bool :=
  existsb (fun x => Nat.eqb j (Z.to_nat (y * width + x))) xs.

Definition painted (width : Z) (ys xs : list Z) (j : nat) : bool :=
  existsb (fun y => painted_row width y xs j) ys.

(** A name has a supported extension when it ends, letter case aside, in
    ".jpg", ".jpeg" or ".gif". *)
Definition has_supported_extension (file : string) : Prop :=
  exists stem extension,
    file = stem ++ extension
    /\ (lower extension = ".jpg" \/ lower extension = ".jpeg"
        \/ lower extension = ".gif").

(** Two worlds hold the same gallery session, capture mode and button
    state. *)
Definition same_session (w w' : world) : Prop :=
  gallery_mode w' = gallery_mode w
  /\ gallery_images w' = gallery_images w
  /\ gallery_index w' = gallery_index w
  /\ gallery_zoom_level w' = gallery_zoom_level w
  /\ jpeg_decoder w' = jpeg_decoder w
  /\ mode_text (pycam w') = mode_text (pycam w)
  /\ keys (pycam w') = keys (pycam w)
  /\ instant w' = instant w.

(** The events a run has added to the log. *)
Definition emitted (w w' : world) : list event :=
  skipn (List.length (log w)) (log w').


(** What [scan_gallery_images] returns at a given instant. *)
Definition scanned_files (E : Env) (t : nat) : list string :=
  match fst (scan_gallery_images E (set_instant t (module_globals E))) with
  | Ok files => files
  | _ => []
  end.

(** A tick on which Select, and nothing else, was pressed. *)
Definition select_only : buttons :=
  mkButtons false false false false true false false 0.

(** The capture attempted at instant [t] ends in a way the wrapper handles:
    it returns, or raises TypeError, RuntimeError or OSError. *)
Definition capture_handled (E : Env) (t : nat) : Prop :=
  match capture_jpeg_outcome E t with
  | Returns _ => True
  | Raises e => except_TypeError_RuntimeError_OSError e = true
  end.

(** The capture attempted at instant [t] fails: no card, or an exception. *)
Definition capture_fails (E : Env) (t : nat) : Prop :=
  storage_available_at E t = false
  \/ exists e, capture_jpeg_outcome E t = Raises e.

Definition is_failure_report (e : event) : bool :=
  match e with
  | EvMessage text _ => String.eqb text "Failed" || String.eqb text "Preview Only"
  | _ => false
  end.

(** The events of [m] loop iterations that start at instant [t]: each frame
    is appended to the file with a 0.12 s delay and shown. *)
Definition recorded_frames (E : Env) (t : nat) (m : nat) : list event :=
  flat_map (fun k => [EvGifFrame (sensor E k) 12; EvBlit (sensor E k)])
    (seq t m).

(** The same action taken [n] times in a row. *)
Fixpoint repeat_m (n : nat) (m : M unit) : M unit :=
  match n with
  | O => ret tt
  | S k => m ;; repeat_m k m
  end.

(* ================================================================= *)
(** ** A bench set-up

    A small concrete environment on which the statements below are
    exercised: a 2x1 sensor, a card that is either absent or holds the
    given files, every JPEG of native size 640x480. *)

Definition bench_camera (mode : string) : PyCamera :=
  mkPyCamera mode 0 0 "HiPwr" "STOP" mode no_buttons None false.

Definition bench_env (card : bool) (files : list string)
    (shot : outcome pyval) (pin : nat -> bool) (pressed : buttons)
    (decoder : option exn) (mode : string) : Env :=
  mkEnv 2 1 240 240 [5; 10]
    (fun t => mkBitmap 2 1 [Z.of_nat t; 7])
    (fun t => Z.of_nat t)
    (fun t => Z.of_nat t)
    pin
    (fun _ => pressed)
    (fun _ path =>
       if String.eqb path "/" then Returns (if card then ["sd"] else [])
       else if card then Returns files else Raises OSError)
    (fun _ _ => if card then Returns 100 else Raises OSError)
    (fun _ _ => if card then Returns 4096 else Raises OSError)
    (fun _ => shot)
    (fun _ => None)
    (fun _ => None)
    decoder
    (fun _ => Returns (640, 480))
    (fun _ _ => Returns [])
    (fun _ => Raises OSError)
    (fun _ _ => None)
    (fun _ _ => 0)
    (fun _ _ p => p)
    (fun _ => 50)
    (bench_camera mode).

Definition bench_files : list string :=
  ["a.gif"; "B.JPG"; "c.jpeg"; "d.txt"; "e.jpg"].

(** The world right after start-up on the bench. *)
Definition bench_world (E : Env) : world :=
  snd (init_camera_system E (module_globals E)).

(* ================================================================= *)
(** ** Further notions used in the statements *)

(** Ticks on which one direction button, and nothing else, was pressed. *)
Definition right_only : buttons :=
  mkButtons false false false true false false false 0.

Definition left_only : buttons :=
  mkButtons false false true false false false false 0.

(** Where the settings cursor comes to rest after moving to [c]: the
    time-lapse rate (entry 6) is passed over outside time-lapse mode. *)
Definition settle_cursor (mode : string) (c : Z) : Z :=
  if negb (String.eqb mode "LAPS") && (c =? 6) then 0 else c.

(** [w'] differs from [w] by display activity only: the log has grown by
    events that touch no file, and the capture side of the program (frame
    buffers, time-lapse state, settings cursor, decoder) is as it was. *)
Definition display_only (w w' : world) : Prop :=
  (exists evs, log w' = (log w ++ evs)%list
               /\ existsb is_storage_write evs = false)
  /\ last_frame w' = last_frame w
  /\ onionskin w' = onionskin w
  /\ timelapse_remaining w' = timelapse_remaining w
  /\ timelapse_timestamp w' = timelapse_timestamp w
  /\ curr_setting w' = curr_setting w
  /\ jpeg_decoder w' = jpeg_decoder w.

(** A computation that, however it ends, has done display activity only. *)
Definition browses {A : Type} (m : M A) : Prop :=
  forall w, display_only w (snd (m w)).

(** *** The preview renderers

    What the rest of the control loop obtains from outside: the two
    [bitmaptools] operations (each maps the destination raster and its
    sources to the destination's new content, or raises), the edges of the
    card-detect switch, the outcome of mounting the card, and the battery
    pin.  Voltages are the interpreter's floating-point numbers; their type
    and the three computations on them ([(raw / 65535) * 3.3 * 2], the mean
    [sum(l) / len(l)] and [battery_percentage]) are left abstract, so what
    is proved holds for every floating-point arithmetic. *)
Record Periphery : Type := mkPeriphery {
  voltage : Type;
  voltage_of_reading : Z -> voltage;
  mean : list voltage -> voltage;
  battery_percentage : voltage -> Z;
  bitmaptools_alphablend : bitmap -> bitmap -> bitmap -> outcome bitmap;
  bitmaptools_dither : bitmap -> bitmap -> outcome bitmap;
  card_detect_fell : nat -> bool;
  card_detect_rose : nat -> bool;
  mount_sd_card_fault : nat -> option exn;
  battery_pin_value : nat -> Z
}.

Section Preview.

Variable E : Env.
Variable P : Periphery.

Definition handle_stop_motion_mode : M unit :=
  w <- get ;;
  if negb (stop_motion_frame (pycam w) =? 0) then
    new_frame <- continuous_capture E ;;
    w <- get ;;
    blended <- lift (bitmaptools_alphablend P (onionskin w) (last_frame w)
                       new_frame) ;;
    modify (set_onionskin blended) ;;
    blit blended
  else
    frame <- continuous_capture E ;; blit frame.

Definition handle_gameboy_mode : M unit :=
  w <- get ;;
  frame <- continuous_capture E ;;
  dithered <- lift (bitmaptools_dither P (last_frame w) frame) ;;
  modify (set_last_frame dithered) ;;
  blit dithered.

Definition handle_camera_modes : M unit :=
  w <- get ;;
  if String.eqb (mode_text (pycam w)) "STOP" then handle_stop_motion_mode
  else if String.eqb (mode_text (pycam w)) "GBOY" then handle_gameboy_mode
  else if String.eqb (mode_text (pycam w)) "LAPS" then handle_timelapse_mode E
  else (frame <- continuous_capture E ;; blit frame).

End Preview.

(** A bench periphery: voltages in millivolts with a pin that reads
    millivolts, blending keeps the live frame, dithering halves every
    pixel, the card-detect switch is quiet and the card mounts at the first
    attempt. *)
Definition bench_periphery : Periphery :=
  mkPeriphery Z
    (fun raw => raw)
    (fun l => fold_right Z.add 0 l / Z.of_nat (List.length l))
    (fun v => if 4200 <=? v then 100 else if v <? 3200 then 0 else 50)
    (fun _ _ live => Returns live)
    (fun _ live =>
       Returns (mkBitmap (bm_width live) (bm_height live)
                  (map Z.div2 (bm_pixels live))))
    (fun _ => false) (fun _ => false) (fun _ => None) (fun _ => 4028).

(** *** The main loop

    The loop also keeps the battery's voltage history and mounts and
    unmounts the card.  [system] puts the two beside the [world] of the
    handlers; [card_log] lists the calls of [unmount_sd_card] and
    [mount_sd_card], oldest first. *)
Inductive card_event : Type :=
| UnmountCard
| MountCard.

Module Loop.

Section WithPeriphery.

Variable E : Env.
Variable P : Periphery.

Record system : Type := mkSystem {
  core : world;
  card_log : list card_event;
  voltage_history : list (voltage P)
}.

Definition set_core (w : world) (s : system) : system :=
  mkSystem w (card_log s) (voltage_history s).

Definition set_card_log (l : list card_event) (s : system) : system :=
  mkSystem (core s) l (voltage_history s).

Definition set_voltage_history (h : list (voltage P)) (s : system) : system :=
  mkSystem (core s) (card_log s) h.

(** The same monad over the larger state. *)
Definition MS (A : Type) : Type := system -> result A * system.

Definition retS {A : Type} (a : A) : MS A := fun s => (Ok a, s).

Definition raiseS {A : Type} (e : exn) : MS A := fun s => (Raise e, s).

Definition bindS {A B : Type} (m : MS A) (k : A -> MS B) : MS B :=
  fun s =>
    match m s with
    | (Ok a, s') => k a s'
    | (Raise e, s') => (Raise e, s')
    | (OutOfFuel, s') => (OutOfFuel, s')
    end.

Definition getS : MS system := fun s => (Ok s, s).

Definition modifyS (f : system -> system) : MS unit := fun s => (Ok tt, f s).

(** A handler of the camera proper runs on the [core]. *)
Definition liftS {A : Type} (m : M A) : MS A :=
  fun s => let (r, w') := m (core s) in (r, set_core w' s).

Definition whenS (c : bool) (m : MS unit) : MS unit :=
  if c then m else retS tt.

Declare Scope sys_scope.
Delimit Scope sys_scope with sys.
Notation "x <- m ;; k" := (bindS m (fun x => k))
  (at level 61, m at next level, right associativity) : sys_scope.
Notation "m ;; k" := (bindS m (fun _ => k))
  (at level 61, right associativity) : sys_scope.
Local Open Scope sys_scope.

(** **** Battery *)

Definition get_battery_voltage : MS (voltage P) :=
  s <- getS ;;
  let raw_value := battery_pin_value P (instant (core s)) in
  let v := voltage_of_reading P raw_value in
  modifyS (fun s => set_voltage_history (voltage_history s ++ [v]) s) ;;
  s <- getS ;;
  whenS (10 <? Z.of_nat (List.length (voltage_history s)))
    (modifyS (fun s => set_voltage_history (tl (voltage_history s)) s)) ;;
  s <- getS ;;
  retS (mean P (voltage_history s)).

Definition update_battery_status : MS (option (voltage P)) :=
  current_time <- liftS (time_time E) ;;
  s <- getS ;;
  if 10 <=? current_time - last_recorded_time (core s) then
    battery_voltage <- get_battery_voltage ;;
    liftS (modify (set_last_recorded_time current_time)) ;;
    retS (Some battery_voltage)
  else retS None.

(** **** Card insertion and removal *)

(** The [for _ in range(3)] loop around [mount_sd_card]: [true] when left
    by [break], [false] when the range is exhausted and the [else] branch
    is due.  Only [OSError] is retried. *)
Fixpoint mount_with_retries (attempts : nat) : MS bool :=
  match attempts with
  | O => retS false
  | S rest =>
      s <- getS ;;
      modifyS (fun s => set_card_log (card_log s ++ [MountCard]) s) ;;
      match mount_sd_card_fault P (instant (core s)) with
      | None => retS true
      | Some e =>
          if except_OSError e then
            liftS (time_sleep 500) ;; mount_with_retries rest
          else raiseS e
      end
  end.

Definition handle_sd_card_events : MS unit :=
  s <- getS ;;
  whenS (card_detect_fell P (instant (core s)))
    (modifyS (fun s => set_card_log (card_log s ++ [UnmountCard]) s) ;;
     liftS display_refresh) ;;
  s <- getS ;;
  whenS (card_detect_rose P (instant (core s)))
    (liftS (display_message ("Mounting" ++ newline ++ "SD Card") 0xFFFFFF) ;;
     mounted <- mount_with_retries 3 ;;
     whenS (negb mounted)
       (liftS (display_message ("SD Card" ++ newline ++ "Failed!") 0xFF0000) ;;
        liftS (time_sleep 500)) ;;
     liftS display_refresh).

(** **** Buttons, with the battery read-out spelled out

    Outside time-lapse mode the OK button takes a battery sample, which
    lengthens the history; the other handlers do not touch the history and
    run on the [core] as they are. *)
Definition handle_ok_button : MS unit :=
  s <- getS ;;
  if String.eqb (mode_text (pycam (core s))) "LAPS" then
    liftS (handle_ok_button E)
  else
    battery_voltage <- get_battery_voltage ;;
    let battery_percent := battery_percentage P battery_voltage in
    liftS (display_message (str battery_percent ++ "%") 0xFFFFFF).

Definition handle_camera_buttons (fuel : nat) : MS unit :=
  liftS (handle_shutter_button E fuel) ;;
  liftS (handle_navigation_buttons E) ;;
  s <- getS ;;
  whenS (select_fell (keys (pycam (core s)))) (liftS (handle_select_button E)) ;;
  s <- getS ;;
  whenS (ok_fell (keys (pycam (core s)))) handle_ok_button.

Definition handle_all_buttons (fuel : nat) : MS unit :=
  liftS (keys_debounce E) ;;
  s <- getS ;;
  if gallery_mode (core s) then liftS (handle_gallery_buttons E)
  else handle_camera_buttons fuel.

(** **** [main] *)

(** One pass through the body of [while True]. *)
Definition main_iteration (fuel : nat) : MS unit :=
  update_battery_status ;;
  s <- getS ;;
  whenS (negb (gallery_mode (core s))) (liftS (handle_camera_modes E P)) ;;
  handle_all_buttons fuel ;;
  s <- getS ;;
  whenS (negb (gallery_mode (core s))) handle_sd_card_events.

(** The loop never ends by itself; [main_loop] runs its first
    [iterations] passes. *)
Fixpoint main_loop (fuel iterations : nat) : MS unit :=
  match iterations with
  | O => retS tt
  | S rest => main_iteration fuel ;; main_loop fuel rest
  end.

Definition module_state : system := mkSystem (module_globals E) [] [].

Definition main (fuel iterations : nat) : MS unit :=
  liftS (init_camera_system E) ;; main_loop fuel iterations.

End WithPeriphery.

Arguments core {P} s.
Arguments card_log {P} s.
Arguments voltage_history {P} s.
Arguments mkSystem {P} core card_log voltage_history.
Arguments set_core {P} w s.
Arguments set_card_log {P} l s.
Arguments set_voltage_history {P} h s.
Arguments retS {P A} a.
Arguments raiseS {P A} e.
Arguments bindS {P A B} m k.
Arguments getS {P}.
Arguments modifyS {P} f.
Arguments liftS {P A} m.
Arguments whenS {P} c m.

End Loop.

(** A relation between the state before and after that a computation
    maintains whatever its outcome. *)
Definition tracks {P : Periphery} {A : Type}
    (R : Loop.system P -> Loop.system P -> Prop) (m : Loop.MS P A) : Prop :=
  forall s, R s (snd (m s)).

(** The history never holds more than ten readings. *)
Definition history_bounded {P : Periphery} (s : Loop.system P) : Prop :=
  (List.length (Loop.voltage_history s) <= 10)%nat.

Definition keeps_history_bounded {P : Periphery} (s s' : Loop.system P) : Prop :=
  history_bounded s -> history_bounded s'.

(** The handlers' part of the state sees display activity only. *)
Definition core_display_only {P : Periphery} (s s' : Loop.system P) : Prop :=
  display_only (Loop.core s) (Loop.core s')
  /\ gallery_mode (Loop.core s') = gallery_mode (Loop.core s).

(** The state after [sleeps] half-second waits and [attempts] calls of
    [mount_sd_card]. *)
Definition after_mounting {P : Periphery} (sleeps attempts : nat)
    (s : Loop.system P) : Loop.system P :=
  Loop.mkSystem
    (set_log (log (Loop.core s) ++ repeat (EvSleep 500) sleeps)
       (set_instant (sleeps + instant (Loop.core s)) (Loop.core s)))
    (Loop.card_log s ++ repeat MountCard attempts)
    (Loop.voltage_history s).

(* ================================================================= *)
(** ** Basic facts *)

Lemma set_gallery_image_buffer_same (w : world) :
  set_gallery_image_buffer (gallery_image_buffer w) w = w.
Proof. destruct w; reflexivity. Qed.

Lemma In_range (n x : Z) : In x (range n) -> 0 <= x < n.
Proof.
  unfold range. rewrite in_map_iff. intros [k [<- Hk]].
  apply in_seq in Hk. lia.
Qed.

Lemma emitted_app (w w' : world) (evs : list event) :
  log w' = (log w ++ evs)%list -> emitted w w' = evs.
Proof.
  intros H. unfold emitted. rewrite H.
  rewrite skipn_app, skipn_all, Nat.sub_diag. reflexivity.
Qed.

(** Symbolic execution of a computation: unfold the monad, the library
    calls and the record updates, and nothing else. *)
Ltac run :=
  cbv beta iota zeta delta
      [bind ret raise out_of_fuel get modify lift when try_except try_finally
       emit advance time_time time_monotonic time_sleep os_listdir
       os_statvfs_bavail os_stat_size display_message blit display_refresh
       live_preview_mode continuous_capture capture_into_bitmap
       open_next_image add_frame with_GifWriter show_capture_status
       set_status_label set_mode_label
       except_Exception except_OSError except_OSError_AttributeError
       except_TypeError_RuntimeError_OSError];
  cbn [fst snd negb andb orb
       pycam last_frame onionskin timelapse_remaining timelapse_timestamp
       last_recorded_time curr_setting jpeg_decoder gallery_mode
       gallery_images gallery_index gallery_image_buffer gallery_zoom_level
       instant log
       set_pycam set_last_frame set_onionskin set_timelapse_remaining
       set_timelapse_timestamp set_last_recorded_time set_curr_setting
       set_jpeg_decoder set_gallery_mode set_gallery_images set_gallery_index
       set_gallery_image_buffer set_gallery_zoom_level set_instant set_log
       mode_text stop_motion_frame timelapse_rate timelapse_submode_label_text
       timelapsestatus_label_text mode_label_text keys gallery_group
       root_group_has_gallery
       set_stop_motion_frame set_timelapsestatus_label_text
       set_mode_label_text set_keys set_gallery_group
       up_fell down_fell left_fell right_fell select_fell ok_fell
       shutter_long_press shutter_short_count
       module_globals].

(** Normal form of a world built by successive field updates. *)
Ltac world_norm :=
  unfold set_pycam, set_last_frame, set_onionskin, set_timelapse_remaining,
    set_timelapse_timestamp, set_last_recorded_time, set_curr_setting,
    set_jpeg_decoder, set_gallery_mode, set_gallery_images, set_gallery_index,
    set_gallery_image_buffer, set_gallery_zoom_level, set_instant, set_log,
    set_stop_motion_frame, set_timelapsestatus_label_text,
    set_mode_label_text, set_keys, set_gallery_group;
  cbn [pycam last_frame onionskin timelapse_remaining timelapse_timestamp
       last_recorded_time curr_setting jpeg_decoder gallery_mode
       gallery_images gallery_index gallery_image_buffer gallery_zoom_level
       instant log
       mode_text stop_motion_frame timelapse_rate timelapse_submode_label_text
       timelapsestatus_label_text mode_label_text keys gallery_group
       root_group_has_gallery].

(** The availability test reads the file system and changes nothing. *)
Lemma is_sd_card_available_at (E : Env) (w : world) :
  is_sd_card_available E w = (Ok (storage_available_at E (instant w)), w).
Proof.
  unfold storage_available_at, is_sd_card_available. run.
  destruct (fs_listdir E (instant w) "/") as [root|e]; run; [|reflexivity].
  destruct (existsb (String.eqb "sd") root); run; [|reflexivity].
  destruct (fs_listdir E (instant w) "/sd") as [sd|e] eqn:Hsd; run.
  - destruct (fs_statvfs_bavail E (instant w) "/sd") as [n|e]; run.
    + destruct (0 <? n); reflexivity.
    + destruct e; run; rewrite ?Hsd; reflexivity.
  - destruct e; reflexivity.
Qed.

Lemma py_index_in_range {A : Type} (l : list A) (i : Z) :
  0 <= i < Z.of_nat (List.length l) ->
  exists x, py_index l i = Returns x /\ nth_error l (Z.to_nat i) = Some x.
Proof.
  intros Hi. unfold py_index.
  destruct (Z.ltb_spec i 0) as [H|H]; [lia|].
  destruct (Z.leb_spec 0 i) as [H0|H0]; [|lia].
  destruct (Z.ltb_spec i (Z.of_nat (List.length l))) as [H1|H1]; [|lia].
  cbn [andb].
  destruct (nth_error l (Z.to_nat i)) as [x|] eqn:Hn.
  - exists x. split; reflexivity.
  - apply nth_error_None in Hn. lia.
Qed.

(** *** The fallback buffer *)

Lemma blacken_row_ok (y : Z) (xs : list Z) :
  forall (b : bitmap) (w : world),
    gallery_image_buffer w = Some b ->
    0 <= y < bm_height b ->
    (forall x, In x xs -> 0 <= x < bm_width b) ->
    exists b',
      for_each xs (fun x => blacken_pixel x y) w
      = (Ok tt, set_gallery_image_buffer (Some b') w)
      /\ bm_width b' = bm_width b /\ bm_height b' = bm_height b.
Proof.
  induction xs as [|x xs IH]; intros b w Hb Hy Hxs.
  - exists b. rewrite <- Hb, set_gallery_image_buffer_same. auto.
  - cbn [for_each]. unfold blacken_pixel at 1. run. rewrite Hb.
    unfold bitmap_setitem.
    assert (Hx : 0 <= x < bm_width b) by (apply Hxs; left; reflexivity).
    destruct (Z.leb_spec 0 x); [|lia].
    destruct (Z.ltb_spec x (bm_width b)); [|lia].
    destruct (Z.leb_spec 0 y); [|lia].
    destruct (Z.ltb_spec y (bm_height b)); [|lia].
    run.
    match goal with
    | |- context [for_each xs _ (set_gallery_image_buffer (Some ?b1) w)] =>
        destruct (IH b1 (set_gallery_image_buffer (Some b1) w))
          as [b' [Hrun [Hw Hh]]];
        [reflexivity | exact Hy | intros x' Hin; apply Hxs; right; exact Hin | ]
    end.
    rewrite Hrun. exists b'. repeat split; assumption.
Qed.

Lemma blacken_rows_ok (E : Env) (ys : list Z) :
  forall (b : bitmap) (w : world),
    gallery_image_buffer w = Some b ->
    camera_width E <= bm_width b ->
    (forall y, In y ys -> 0 <= y < bm_height b) ->
    exists b',
      for_each ys
        (fun y => for_each (range (camera_width E))
                    (fun x => blacken_pixel x y)) w
      = (Ok tt, set_gallery_image_buffer (Some b') w)
      /\ bm_width b' = bm_width b /\ bm_height b' = bm_height b.
Proof.
  induction ys as [|y ys IH]; intros b w Hb Hw Hys.
  - exists b. rewrite <- Hb, set_gallery_image_buffer_same. auto.
  - cbn [for_each]. run.
    destruct (blacken_row_ok y (range (camera_width E)) b w Hb)
      as [b1 [Hrun [Hw1 Hh1]]].
    { apply Hys. left. reflexivity. }
    { intros x Hx. apply In_range in Hx. lia. }
    rewrite Hrun.
    destruct (IH b1 (set_gallery_image_buffer (Some b1) w))
      as [b' [Hrun' [Hw' Hh']]].
    { reflexivity. }
    { lia. }
    { intros y' Hin. rewrite Hh1. apply Hys. right. exact Hin. }
    rewrite Hrun'. exists b'. repeat split; congruence.
Qed.

Lemma blacken_gallery_image_buffer_ok (E : Env) (w : world) :
  buffer_ready E w ->
  exists b',
    blacken_gallery_image_buffer E w
    = (Ok tt, set_gallery_image_buffer (Some b') w)
    /\ camera_width E <= bm_width b' /\ camera_height E <= bm_height b'.
Proof.
  intros [b [Hb [Hw Hh]]]. unfold blacken_gallery_image_buffer.
  destruct (blacken_rows_ok E (range (camera_height E)) b w Hb Hw)
    as [b' [Hrun [Hw' Hh']]].
  { intros y Hy. apply In_range in Hy. lia. }
  exists b'. rewrite Hrun. repeat split; lia.
Qed.

Lemma nth_error_setitem {A : Type} (l : list A) (v : A) :
  forall i j,
    (i < List.length l)%nat ->
    nth_error (firstn i l ++ v :: skipn (S i) l) j
    = if Nat.eqb j i then Some v else nth_error l j.
Proof.
  induction l as [|a l IH]; intros i j Hi; cbn [List.length] in Hi; [lia|].
  destruct i as [|i].
  - destruct j as [|j]; reflexivity.
  - destruct j as [|j]; [reflexivity|].
    cbn [firstn skipn app nth_error Nat.eqb]. apply IH. lia.
Qed.

Lemma length_setitem {A : Type} (l : list A) (v : A) (i : nat) :
  (i < List.length l)%nat ->
  List.length (firstn i l ++ v :: skipn (S i) l) = List.length l.
Proof.
  intros Hi. rewrite length_app, length_firstn. cbn [List.length].
  rewrite length_skipn. lia.
Qed.

Lemma range_In (n x : Z) : 0 <= x < n -> In x (range n).
Proof.
  intros Hx. unfold range. apply in_map_iff. exists (Z.to_nat x). split.
  - lia.
  - apply in_seq. lia.
Qed.

(** One row of the double loop, pixel by pixel. *)
Lemma blacken_row_pixels (y : Z) (xs : list Z) :
  forall (b : bitmap) (w : world),
    gallery_image_buffer w = Some b ->
    raster_complete b ->
    0 <= y < bm_height b ->
    (forall x, In x xs -> 0 <= x < bm_width b) ->
    exists b',
      for_each xs (fun x => blacken_pixel x y) w
      = (Ok tt, set_gallery_image_buffer (Some b') w)
      /\ bm_width b' = bm_width b /\ bm_height b' = bm_height b
      /\ raster_complete b'
      /\ forall j,
           nth_error (bm_pixels b') j
           = if painted_row (bm_width b) y xs j then Some 0
             else nth_error (bm_pixels b) j.
Proof.
  induction xs as [|x xs IH]; intros b w Hb Hfull Hy Hxs.
  - exists b. rewrite <- Hb, set_gallery_image_buffer_same.
    repeat split; auto.
  - cbn [for_each]. unfold blacken_pixel at 1. run. rewrite Hb.
    unfold bitmap_setitem.
    assert (Hx : 0 <= x < bm_width b) by (apply Hxs; left; reflexivity).
    destruct (Z.leb_spec 0 x); [|lia].
    destruct (Z.ltb_spec x (bm_width b)); [|lia].
    destruct (Z.leb_spec 0 y); [|lia].
    destruct (Z.ltb_spec y (bm_height b)); [|lia].
    run.
    assert (Hidx : (Z.to_nat (y * bm_width b + x)
                    < List.length (bm_pixels b))%nat).
    { unfold raster_complete in Hfull. nia. }
    match goal with
    | |- context [for_each xs _ (set_gallery_image_buffer (Some ?b1) w)] =>
        destruct (IH b1 (set_gallery_image_buffer (Some b1) w))
          as [b' [Hrun [Hw' [Hh' [Hfull' Hpix]]]]];
        [ destruct w; reflexivity
        | unfold raster_complete; cbn [bm_pixels bm_width bm_height];
          rewrite length_setitem by exact Hidx; exact Hfull
        | exact Hy
        | intros x' Hin; apply Hxs; right; exact Hin
        | ]
    end.
    rewrite Hrun. exists b'.
    cbn [bm_width bm_height bm_pixels] in Hw', Hh', Hpix.
    split; [destruct w; reflexivity|].
    split; [exact Hw'|]. split; [exact Hh'|]. split; [exact Hfull'|].
    intros j. rewrite Hpix. unfold painted_row. cbn [existsb].
    rewrite nth_error_setitem by exact Hidx.
    destruct (Nat.eqb j (Z.to_nat (y * bm_width b + x)));
      destruct (existsb _ xs); reflexivity.
Qed.

Lemma blacken_rows_pixels (E : Env) (ys : list Z) :
  forall (b : bitmap) (w : world),
    gallery_image_buffer w = Some b ->
    raster_complete b ->
    camera_width E <= bm_width b ->
    (forall y, In y ys -> 0 <= y < bm_height b) ->
    exists b',
      for_each ys
        (fun y => for_each (range (camera_width E))
                    (fun x => blacken_pixel x y)) w
      = (Ok tt, set_gallery_image_buffer (Some b') w)
      /\ bm_width b' = bm_width b /\ bm_height b' = bm_height b
      /\ raster_complete b'
      /\ forall j,
           nth_error (bm_pixels b') j
           = if painted (bm_width b) ys (range (camera_width E)) j
             then Some 0
             else nth_error (bm_pixels b) j.
Proof.
  induction ys as [|y ys IH]; intros b w Hb Hfull Hw Hys.
  - exists b. rewrite <- Hb, set_gallery_image_buffer_same.
    repeat split; auto.
  - cbn [for_each]. run.
    destruct (blacken_row_pixels y (range (camera_width E)) b w Hb Hfull)
      as [b1 [Hrun [Hw1 [Hh1 [Hfull1 Hpix1]]]]].
    { apply Hys. left. reflexivity. }
    { intros x Hx. apply In_range in Hx. lia. }
    rewrite Hrun.
    destruct (IH b1 (set_gallery_image_buffer (Some b1) w))
      as [b' [Hrun' [Hw' [Hh' [Hfull' Hpix']]]]].
    { destruct w; reflexivity. }
    { exact Hfull1. }
    { lia. }
    { intros y' Hin. rewrite Hh1. apply Hys. right. exact Hin. }
    rewrite Hrun'. exists b'.
    split; [destruct w; reflexivity|].
    split; [congruence|]. split; [congruence|]. split; [exact Hfull'|].
    intros j. rewrite Hpix', Hpix1, Hw1. unfold painted. cbn [existsb].
    destruct (painted_row (bm_width b) y (range (camera_width E)) j);
      destruct (existsb _ ys); reflexivity.
Qed.

(** The whole loop: the buffer keeps its size and every pixel of the
    sensor's area is black afterwards. *)
Lemma blacken_gallery_image_buffer_black (E : Env) (w : world) (b : bitmap) :
  gallery_image_buffer w = Some b ->
  camera_width E <= bm_width b ->
  camera_height E <= bm_height b ->
  raster_complete b ->
  exists b',
    blacken_gallery_image_buffer E w
    = (Ok tt, set_gallery_image_buffer (Some b') w)
    /\ bm_width b' = bm_width b /\ bm_height b' = bm_height b
    /\ black_over E b'.
Proof.
  intros Hb Hw Hh Hfull. unfold blacken_gallery_image_buffer.
  destruct (blacken_rows_pixels E (range (camera_height E)) b w Hb Hfull Hw)
    as [b' [Hrun [Hw' [Hh' [_ Hpix]]]]].
  { intros y Hy. apply In_range in Hy. lia. }
  exists b'. split; [exact Hrun|]. split; [exact Hw'|]. split; [exact Hh'|].
  intros x y Hx Hy. unfold bitmap_getitem. rewrite Hw', Hh'.
  destruct (Z.leb_spec 0 x); [|lia].
  destruct (Z.ltb_spec x (bm_width b)); [|lia].
  destruct (Z.leb_spec 0 y); [|lia].
  destruct (Z.ltb_spec y (bm_height b)); [|lia].
  cbn [andb]. rewrite Hpix.
  replace (painted (bm_width b) (range (camera_height E))
             (range (camera_width E)) (Z.to_nat (y * bm_width b + x)))
    with true; [reflexivity|].
  symmetry. unfold painted. apply existsb_exists. exists y.
  split; [apply range_In; lia|].
  unfold painted_row. apply existsb_exists. exists x.
  split; [apply range_In; lia|]. apply Nat.eqb_refl.
Qed.

(** *** The decode pipeline never raises and never changes the world *)

Lemma load_jpeg_file_pure (E : Env) (filename : string) (w : world) :
  exists r, load_jpeg_file E filename w = (Ok r, w).
Proof.
  unfold load_jpeg_file, get_current_scale_factor, displayio_Bitmap. run.
  destruct (jpeg_decoder w); run; [|eauto].
  destruct (jpeg_open E ("/sd/" ++ filename)) as [[ow oh]|e]; run; [|eauto].
  destruct (py_index scale_factors (gallery_zoom_level w)) as [f|e]; run;
    [|eauto].
  destruct (Bitmap_fault E (ow / f) (oh / f)); run; [eauto|].
  destruct (jpeg_decode E ("/sd/" ++ filename) (gallery_zoom_level w));
    run; eauto.
Qed.

Lemma load_gif_file_pure (E : Env) (filename : string) (w : world) :
  exists r, load_gif_file E filename w = (Ok r, w).
Proof.
  unfold load_gif_file. run.
  destruct (imageload_load E ("/sd/" ++ filename)) as [[b p]|e]; run; eauto.
Qed.

Lemma load_image_file_pure (E : Env) (filename : string) (w : world) :
  exists r, load_image_file E filename w = (Ok r, w).
Proof.
  unfold load_image_file. run.
  destruct (endswith (lower filename) ".jpg" || endswith (lower filename) ".jpeg").
  - destruct (load_jpeg_file_pure E filename w) as [r Hr]. rewrite Hr. eauto.
  - destruct (endswith (lower filename) ".gif").
    + destruct (load_gif_file_pure E filename w) as [r Hr]. rewrite Hr.
      eauto.
    + eauto.
Qed.

(** *** Displaying the current image *)

Lemma show_image_info_fallback_ok (E : Env) (filename : string) (w : world) :
  buffer_ready E w ->
  exists b' text,
    show_image_info_fallback E filename w
    = (Ok tt,
       set_log (log w ++ [EvBlit b'; EvRefresh; EvMessage text 0xFFFFFF])
         (set_gallery_image_buffer (Some b') w))
    /\ camera_width E <= bm_width b' /\ camera_height E <= bm_height b'.
Proof.
  intros Hready. unfold show_image_info_fallback. run.
  destruct (blacken_gallery_image_buffer_ok E w Hready) as [b' [Hrun [Hw Hh]]].
  destruct Hready as [b [Hb _]].
  destruct (fs_stat_size E (instant w) ("/sd/" ++ filename)) as [size|e]; run;
    rewrite Hb; run; rewrite Hrun; run;
    exists b'; eexists; (split; [|auto]);
    world_norm; rewrite <- !app_assoc; reflexivity.
Qed.

(** What the fallback screen consists of: the buffer, kept at its size and
    black over the sensor's area, then a refresh, then the text. *)
Lemma show_image_info_fallback_screen (E : Env) (filename : string)
    (w : world) (b : bitmap) :
  gallery_image_buffer w = Some b ->
  camera_width E <= bm_width b ->
  camera_height E <= bm_height b ->
  let position :=
    str (gallery_index w + 1) ++ "/"
    ++ str (Z.of_nat (List.length (gallery_images w))) in
  let label :=
    if endswith (lower filename) ".jpg" || endswith (lower filename) ".jpeg"
    then "JPEG (load failed)"
    else if endswith (lower filename) ".gif" then "GIF (load failed)"
    else "Unknown format" in
  let text :=
    match fs_stat_size E (instant w) ("/sd/" ++ filename) with
    | Returns size =>
        position ++ newline ++ filename ++ newline ++ label ++ newline
        ++ str (size / 1024) ++ "KB"
    | Raises _ =>
        position ++ newline ++ filename ++ newline ++ "Info unavailable"
    end in
  exists b',
    show_image_info_fallback E filename w
    = (Ok tt,
       set_log (log w ++ [EvBlit b'; EvRefresh; EvMessage text 0xFFFFFF])
         (set_gallery_image_buffer (Some b') w))
    /\ bm_width b' = bm_width b /\ bm_height b' = bm_height b
    /\ (raster_complete b -> black_over E b').
Proof.
  intros Hb Hw Hh position label text. subst position label text.
  assert (Hready : buffer_ready E w) by (exists b; auto).
  destruct (blacken_rows_ok E (range (camera_height E)) b w Hb Hw)
    as [b' [Hrun [Hw' Hh']]].
  { intros y Hy. apply In_range in Hy. lia. }
  fold (blacken_gallery_image_buffer E) in Hrun.
  exists b'. split; [|split; [exact Hw'|split; [exact Hh'|]]].
  - unfold show_image_info_fallback. run.
    destruct (fs_stat_size E (instant w) ("/sd/" ++ filename)) as [size|e];
      run; rewrite Hb; run; rewrite Hrun; run;
      world_norm; rewrite <- !app_assoc; reflexivity.
  - intros Hfull.
    destruct (blacken_gallery_image_buffer_black E w b Hb Hw Hh Hfull)
      as [b'' [Hrun'' [_ [_ Hblack]]]].
    rewrite Hrun in Hrun''.
    assert (Heq : Some b' = Some b'').
    { apply (f_equal (fun r => gallery_image_buffer (snd r))) in Hrun''.
      destruct w; exact Hrun''. }
    injection Heq as ->. exact Hblack.
Qed.

Lemma display_current_image_ok (E : Env) (w : world) :
  buffer_ready E w ->
  0 <= gallery_index w ->
  exists w',
    display_current_image E w = (Ok tt, w')
    /\ same_session w w' /\ buffer_ready E w'.
Proof.
  intros Hready Hidx. unfold display_current_image. run.
  destruct (gallery_images w) as [|f fs] eqn:Himgs.
  { run. eexists. split; [reflexivity|]. split; [|exact Hready].
    unfold same_session; cbn. repeat split. }
  destruct (Z.leb_spec (Z.of_nat (List.length (f :: fs))) (gallery_index w))
    as [Hlen|Hlen].
  { run. eexists. split; [reflexivity|]. split; [|exact Hready].
    unfold same_session; cbn. repeat split. }
  destruct (py_index_in_range (f :: fs) (gallery_index w)) as [cur [Hcur _]];
    [lia|].
  rewrite Hcur. run.
  destruct (load_image_file_pure E cur w) as [[bmp pal] Hload].
  rewrite Hload. destruct bmp as [image|].
  - run. eexists. split; [reflexivity|]. split.
    + unfold same_session; cbn. repeat split; assumption.
    + exact Hready.
  - destruct (show_image_info_fallback_ok E cur w Hready)
      as [b' [text [Hrun [Hw Hh]]]].
    rewrite Hrun. eexists. split; [reflexivity|]. split.
    + unfold same_session; cbn. repeat split; assumption.
    + exists b'. cbn. auto.
Qed.

(* ================================================================= *)
(** ** Gallery zoom *)

Lemma gallery_zoom_in_spec (E : Env) (w : world) :
  buffer_ready E w -> 0 <= gallery_index w ->
  exists w',
    gallery_zoom_in E w = (Ok tt, w')
    /\ gallery_zoom_level w'
       = (if 1 <? gallery_zoom_level w then gallery_zoom_level w - 1
          else gallery_zoom_level w)
    /\ (gallery_zoom_level w <= 1 -> w' = w)
    /\ gallery_index w' = gallery_index w
    /\ gallery_images w' = gallery_images w
    /\ buffer_ready E w'.
Proof.
  intros Hready Hidx. unfold gallery_zoom_in. run.
  destruct (Z.ltb_spec 1 (gallery_zoom_level w)) as [H|H].
  - destruct (display_current_image_ok E
                (set_gallery_zoom_level (gallery_zoom_level w - 1) w))
      as [w' [Hrun [Hsame Hready']]]; [exact Hready | exact Hidx |].
    rewrite Hrun. exists w'.
    destruct Hsame as [_ [Himgs [Hi [Hz _]]]].
    repeat split; try assumption. lia.
  - exists w. repeat split; auto.
Qed.

Lemma gallery_zoom_out_spec (E : Env) (w : world) :
  buffer_ready E w -> 0 <= gallery_index w ->
  exists w',
    gallery_zoom_out E w = (Ok tt, w')
    /\ gallery_zoom_level w'
       = (if gallery_zoom_level w <? 3 then gallery_zoom_level w + 1
          else gallery_zoom_level w)
    /\ (3 <= gallery_zoom_level w -> w' = w)
    /\ gallery_index w' = gallery_index w
    /\ gallery_images w' = gallery_images w
    /\ buffer_ready E w'.
Proof.
  intros Hready Hidx. unfold gallery_zoom_out. run.
  destruct (Z.ltb_spec (gallery_zoom_level w) 3) as [H|H].
  - destruct (display_current_image_ok E
                (set_gallery_zoom_level (gallery_zoom_level w + 1) w))
      as [w' [Hrun [Hsame Hready']]]; [exact Hready | exact Hidx |].
    rewrite Hrun. exists w'.
    destruct Hsame as [_ [Himgs [Hi [Hz _]]]].
    repeat split; try assumption. lia.
  - exists w. repeat split; auto.
Qed.

(** C6.  On a session whose zoom level lies in [1,3], [gallery_zoom_in] and
    [gallery_zoom_out] both return and keep the level in [1,3]; each is a
    no-op at its own bound (1 for zoom-in, 3 for zoom-out); zoom-in followed
    by zoom-out restores the level unless it was 1, and zoom-out followed by
    zoom-in restores it unless it was 3, where the pair lands on 2 because
    the first operation did nothing. *)
Theorem zoom_in_out_roundtrip (E : Env) (w : world) :
  buffer_ready E w ->
  0 <= gallery_index w ->
  1 <= gallery_zoom_level w <= 3 ->
  exists w_in w_out w_in_out w_out_in,
    gallery_zoom_in E w = (Ok tt, w_in)
    /\ gallery_zoom_out E w = (Ok tt, w_out)
    /\ (gallery_zoom_in E ;; gallery_zoom_out E) w = (Ok tt, w_in_out)
    /\ (gallery_zoom_out E ;; gallery_zoom_in E) w = (Ok tt, w_out_in)
    /\ 1 <= gallery_zoom_level w_in <= 3
    /\ 1 <= gallery_zoom_level w_out <= 3
    /\ (gallery_zoom_level w = 1 -> w_in = w)
    /\ (gallery_zoom_level w = 3 -> w_out = w)
    /\ (gallery_zoom_level w <> 1 ->
        gallery_zoom_level w_in_out = gallery_zoom_level w)
    /\ (gallery_zoom_level w <> 3 ->
        gallery_zoom_level w_out_in = gallery_zoom_level w)
    /\ (gallery_zoom_level w = 1 -> gallery_zoom_level w_in_out = 2)
    /\ (gallery_zoom_level w = 3 -> gallery_zoom_level w_out_in = 2).
Proof.
  intros Hready Hidx Hz.
  destruct (gallery_zoom_in_spec E w Hready Hidx)
    as [w_in [Hin [Hzin [Hnop_in [Hi_in [_ Hr_in]]]]]].
  destruct (gallery_zoom_out_spec E w Hready Hidx)
    as [w_out [Hout [Hzout [Hnop_out [Hi_out [_ Hr_out]]]]]].
  destruct (gallery_zoom_out_spec E w_in Hr_in)
    as [w_io [Hio [Hzio _]]]; [lia|].
  destruct (gallery_zoom_in_spec E w_out Hr_out)
    as [w_oi [Hoi [Hzoi _]]]; [lia|].
  exists w_in, w_out, w_io, w_oi.
  assert (Hseq1 : (gallery_zoom_in E ;; gallery_zoom_out E) w = (Ok tt, w_io)).
  { unfold bind. rewrite Hin. exact Hio. }
  assert (Hseq2 : (gallery_zoom_out E ;; gallery_zoom_in E) w = (Ok tt, w_oi)).
  { unfold bind. rewrite Hout. exact Hoi. }
  rewrite Hzio, Hzoi, Hzin, Hzout.
  destruct (Z.ltb_spec 1 (gallery_zoom_level w));
    destruct (Z.ltb_spec (gallery_zoom_level w) 3);
    repeat match goal with
           | |- context [?a <? ?b] => destruct (Z.ltb_spec a b)
           end;
    repeat split; try assumption; try lia;
    try (intros; apply Hnop_in; lia); try (intros; apply Hnop_out; lia).
Qed.

Lemma zoom_in_out_roundtrip_witness :
  let E := bench_env true bench_files (Returns PyNone) (fun _ => true)
             no_buttons None "JPEG" in
  let w := set_gallery_zoom_level 2
             (set_gallery_images ["B.JPG"] (set_gallery_mode true (bench_world E))) in
  exists w_io,
    (gallery_zoom_in E ;; gallery_zoom_out E) w = (Ok tt, w_io)
    /\ gallery_zoom_level w_io = 2.
Proof.
  intros E w.
  assert (Hready : buffer_ready E w).
  { exists (mkBitmap 2 1 [0; 0]). cbn. repeat split; lia. }
  assert (Hidx : 0 <= gallery_index w) by (cbn; lia).
  assert (Hz : 1 <= gallery_zoom_level w <= 3) by (cbn; lia).
  destruct (zoom_in_out_roundtrip E w Hready Hidx Hz)
    as [w_in [w_out [w_io [w_oi [_ [_ [Hio [_ [_ [_ [_ [_ [Hrt _]]]]]]]]]]]]].
  exists w_io. split; [exact Hio|]. apply Hrt. cbn. lia.
Defined.

(* ================================================================= *)
(** ** Gallery navigation *)

Lemma gallery_navigate_spec (E : Env) (direction : Z) (w : world) :
  buffer_ready E w ->
  gallery_images w <> [] ->
  0 <= gallery_index w < Z.of_nat (List.length (gallery_images w)) ->
  direction = 1 \/ direction = -1 ->
  exists w',
    gallery_navigate E direction w = (Ok tt, w')
    /\ gallery_index w'
       = (gallery_index w + direction)
         mod Z.of_nat (List.length (gallery_images w))
    /\ gallery_images w' = gallery_images w
    /\ gallery_zoom_level w' = gallery_zoom_level w
    /\ gallery_mode w' = gallery_mode w
    /\ buffer_ready E w'.
Proof.
  intros Hready Hne Hidx Hdir. unfold gallery_navigate. run.
  destruct (gallery_images w) as [|f fs] eqn:Himgs; [congruence|].
  run. rewrite ?Himgs.
  set (n := Z.of_nat (List.length (f :: fs))) in *.
  assert (Hn : 1 <= n) by (subst n; cbn [List.length]; lia).
  assert (Hfinish : forall w1 q,
            buffer_ready E w1 -> 0 <= gallery_index w1 < n ->
            gallery_index w + direction = n * q + gallery_index w1 ->
            gallery_images w1 = f :: fs ->
            gallery_zoom_level w1 = gallery_zoom_level w ->
            gallery_mode w1 = gallery_mode w ->
            exists w',
              display_current_image E w1 = (Ok tt, w')
              /\ gallery_index w' = (gallery_index w + direction) mod n
              /\ gallery_images w' = f :: fs
              /\ gallery_zoom_level w' = gallery_zoom_level w
              /\ gallery_mode w' = gallery_mode w
              /\ buffer_ready E w').
  { intros w1 q Hr1 Hx1 Hq Hi1 Hz1 Hm1.
    destruct (display_current_image_ok E w1 Hr1) as [w' [Hrun [Hsame Hr]]];
      [lia|].
    exists w'. destruct Hsame as [Hm [Hi [Hx [Hz _]]]].
    repeat split; try congruence.
    rewrite Hx. apply Z.mod_unique with (q := q); [left|]; assumption. }
  destruct (Z.ltb_spec (gallery_index w + direction) 0) as [Hneg|Hnonneg].
  - run. rewrite ?Himgs. fold n.
    apply Hfinish with (q := -1); run; auto; lia.
  - destruct (Z.leb_spec n (gallery_index w + direction)) as [Hover|Hin].
    + run. apply Hfinish with (q := 1); run; auto; lia.
    + run. apply Hfinish with (q := 0); run; auto; lia.
Qed.

Lemma repeat_navigate_next (E : Env) (k : nat) :
  forall w,
    buffer_ready E w ->
    gallery_images w <> [] ->
    0 <= gallery_index w < Z.of_nat (List.length (gallery_images w)) ->
    exists w',
      repeat_m k (gallery_navigate E 1) w = (Ok tt, w')
      /\ gallery_index w'
         = (gallery_index w + Z.of_nat k)
           mod Z.of_nat (List.length (gallery_images w))
      /\ gallery_images w' = gallery_images w.
Proof.
  induction k as [|k IH]; intros w Hready Hne Hidx.
  - exists w. cbn [repeat_m]. run. repeat split.
    rewrite Z.add_0_r. symmetry. apply Z.mod_small. exact Hidx.
  - cbn [repeat_m]. run.
    destruct (gallery_navigate_spec E 1 w Hready Hne Hidx)
      as [w1 [Hrun [Hx [Hi [_ [_ Hr1]]]]]]; [left; reflexivity|].
    rewrite Hrun.
    destruct (IH w1) as [w' [Hrun' [Hx' Hi']]].
    + exact Hr1.
    + rewrite Hi. exact Hne.
    + rewrite Hi, Hx. apply Z.mod_pos_bound. lia.
    + rewrite Hrun'. exists w'. repeat split.
      * rewrite Hx', Hi, Hx.
        rewrite Zplus_mod_idemp_l. f_equal. lia.
      * congruence.
Qed.

(** C5.  In a session with a non-empty file list and an index in range,
    one [gallery_navigate] step in direction +1 or -1 returns and leaves
    index = (index + direction) mod len(files), and len(files) steps in
    direction +1 return the index to where it started. *)
Theorem navigate_wraparound_closure (E : Env) (w : world) :
  buffer_ready E w ->
  gallery_images w <> [] ->
  0 <= gallery_index w < Z.of_nat (List.length (gallery_images w)) ->
  (forall direction, direction = 1 \/ direction = -1 ->
     exists w1,
       gallery_navigate E direction w = (Ok tt, w1)
       /\ gallery_index w1
          = (gallery_index w + direction)
            mod Z.of_nat (List.length (gallery_images w)))
  /\ exists w',
       repeat_m (List.length (gallery_images w)) (gallery_navigate E 1) w
       = (Ok tt, w')
       /\ gallery_index w' = gallery_index w
       /\ gallery_images w' = gallery_images w.
Proof.
  intros Hready Hne Hidx. split.
  - intros d Hd.
    destruct (gallery_navigate_spec E d w Hready Hne Hidx Hd)
      as [w1 [Hrun [Hx _]]].
    exists w1. split; assumption.
  - destruct (repeat_navigate_next E (List.length (gallery_images w)) w
                Hready Hne Hidx) as [w' [Hrun [Hx Hi]]].
    exists w'. repeat split; try assumption.
    rewrite Hx.
    replace (gallery_index w + Z.of_nat (List.length (gallery_images w)))
      with (gallery_index w
            + 1 * Z.of_nat (List.length (gallery_images w))) by lia.
    rewrite Z.mod_add by lia. apply Z.mod_small. exact Hidx.
Qed.

Lemma navigate_wraparound_closure_witness :
  let E := bench_env true bench_files (Returns PyNone) (fun _ => true)
             no_buttons None "JPEG" in
  let w := set_gallery_index 2
             (set_gallery_images ["B.JPG"; "a.gif"; "c.jpeg"; "e.jpg"]
                (set_gallery_mode true (bench_world E))) in
  exists w',
    repeat_m 4 (gallery_navigate E 1) w = (Ok tt, w')
    /\ gallery_index w' = 2.
Proof.
  intros E w.
  assert (Hready : buffer_ready E w).
  { exists (mkBitmap 2 1 [0; 0]). cbn. repeat split; lia. }
  assert (Hne : gallery_images w <> []) by (cbn; discriminate).
  assert (Hidx : 0 <= gallery_index w
                 < Z.of_nat (List.length (gallery_images w))) by (cbn; lia).
  destruct (navigate_wraparound_closure E w Hready Hne Hidx)
    as [_ [w' [Hrun [Hx _]]]].
  exists w'. split; [exact Hrun | exact Hx].
Defined.

(* ================================================================= *)
(** ** Scanning the card for gallery files *)

Lemma string_compare_trans (a : string) :
  forall b c,
    String.compare a b <> Gt -> String.compare b c <> Gt ->
    String.compare a c <> Gt.
Proof.
  induction a as [|x a IH]; intros [|y b] [|z c]; cbn [String.compare];
    try congruence.
  unfold Ascii.compare.
  destruct (N.compare_spec (N_of_ascii x) (N_of_ascii y)) as [Hxy|Hxy|Hxy];
    destruct (N.compare_spec (N_of_ascii y) (N_of_ascii z)) as [Hyz|Hyz|Hyz];
    try congruence; intros Hab Hbc.
  - rewrite Hxy, Hyz, N.compare_refl. apply IH with (b := b); assumption.
  - rewrite Hxy. apply N.compare_lt_iff in Hyz. rewrite Hyz. discriminate.
  - rewrite <- Hyz. apply N.compare_lt_iff in Hxy. rewrite Hxy. discriminate.
  - assert (H : (N_of_ascii x < N_of_ascii z)%N) by lia.
    apply N.compare_lt_iff in H. rewrite H. discriminate.
Qed.

Lemma string_leb_trans : Transitive (fun a b => is_true (String.leb a b)).
Proof.
  intros a b c. unfold is_true, String.leb. intros Hab Hbc.
  pose proof (string_compare_trans a b c) as H.
  destruct (String.compare a b); try discriminate;
    destruct (String.compare b c); try discriminate;
    destruct (String.compare a c); try reflexivity;
    exfalso; apply H; congruence.
Qed.

(** A sorted list is determined by its elements. *)
Lemma sorted_permutation_unique (l1 : list string) :
  forall l2,
    StronglySorted (fun a b => is_true (String.leb a b)) l1 ->
    StronglySorted (fun a b => is_true (String.leb a b)) l2 ->
    Permutation l1 l2 -> l1 = l2.
Proof.
  induction l1 as [|a l1 IH]; intros l2 H1 H2 HP.
  - apply Permutation_nil in HP. congruence.
  - destruct l2 as [|b l2].
    + apply Permutation_sym, Permutation_nil in HP. discriminate.
    + inversion H1 as [|? ? Hs1 Hf1]; subst.
      inversion H2 as [|? ? Hs2 Hf2]; subst.
      assert (Hab : a = b).
      { assert (Ha : In a (b :: l2))
          by (eapply Permutation_in; [exact HP | left; reflexivity]).
        assert (Hb : In b (a :: l1))
          by (eapply Permutation_in;
              [apply Permutation_sym; exact HP | left; reflexivity]).
        destruct Ha as [Ha|Ha]; [congruence|].
        destruct Hb as [Hb|Hb]; [congruence|].
        rewrite Forall_forall in Hf1, Hf2.
        apply String.leb_antisym; [apply Hf1 | apply Hf2]; assumption. }
      subst b. f_equal. apply IH; try assumption.
      eapply Permutation_cons_inv. exact HP.
Qed.

Lemma py_sort_permutation (l1 l2 : list string) :
  Permutation l1 l2 -> py_sort l1 = py_sort l2.
Proof.
  intros HP. unfold py_sort. apply sorted_permutation_unique.
  - apply StringSort.StronglySorted_sort, string_leb_trans.
  - apply StringSort.StronglySorted_sort, string_leb_trans.
  - eapply Permutation_trans; [apply Permutation_sym, StringSort.Permuted_sort|].
    eapply Permutation_trans; [exact HP | apply StringSort.Permuted_sort].
Qed.

Lemma filter_permutation {A : Type} (f : A -> bool) (l1 l2 : list A) :
  Permutation l1 l2 -> Permutation (filter f l1) (filter f l2).
Proof.
  induction 1 as [|x l1 l2 _ IH|x y l|l1 l2 l3 _ IH1 _ IH2]; cbn [filter].
  - constructor.
  - destruct (f x); [constructor|]; exact IH.
  - destruct (f x), (f y); try reflexivity. constructor.
  - eapply Permutation_trans; eassumption.
Qed.

Lemma scan_loop_filter (files : list string) :
  forall w,
    for_each files
      (fun file =>
         when (is_gallery_file file)
           (modify (fun w =>
                      set_gallery_images (gallery_images w ++ [file]) w))) w
    = (Ok tt,
       set_gallery_images (gallery_images w ++ filter is_gallery_file files) w).
Proof.
  induction files as [|file files IH]; intros w.
  - cbn [for_each filter]. run. rewrite app_nil_r. destruct w; reflexivity.
  - cbn [for_each filter]. run.
    destruct (is_gallery_file file); run.
    + rewrite IH. world_norm. rewrite <- app_assoc. reflexivity.
    + apply IH.
Qed.

(** What a scan returns when the card is present and can be listed: the
    supported files, sorted; the same list is left in [gallery_images]. *)
Lemma scan_gallery_images_spec (E : Env) (w : world) (files : list string) :
  storage_available_at E (instant w) = true ->
  fs_listdir E (instant w) "/sd" = Returns files ->
  scan_gallery_images E w
  = (Ok (py_sort (filter is_gallery_file files)),
     set_gallery_images (py_sort (filter is_gallery_file files)) w).
Proof.
  intros Hsd Hls. unfold scan_gallery_images. run.
  rewrite is_sd_card_available_at. run. rewrite Hsd. run. rewrite Hls. run.
  rewrite scan_loop_filter. run. reflexivity.
Qed.

(** *** The extension test *)

Lemma substring_all (s : string) : substring 0 (String.length s) s = s.
Proof. induction s as [|c s IH]; cbn; [reflexivity | rewrite IH; reflexivity]. Qed.

Lemma substring_append_skip (p s : string) (m : nat) :
  substring (String.length p) m (p ++ s) = substring 0 m s.
Proof. induction p as [|c p IH]; cbn; [reflexivity | exact IH]. Qed.

Lemma string_length_append (p s : string) :
  String.length (p ++ s) = (String.length p + String.length s)%nat.
Proof. induction p as [|c p IH]; cbn; [reflexivity | rewrite IH; reflexivity]. Qed.

Lemma substring_split (s : string) :
  forall k,
    (k <= String.length s)%nat ->
    s = substring 0 k s ++ substring k (String.length s - k) s.
Proof.
  induction s as [|c s IH]; intros k Hk.
  - cbn in Hk. assert (k = 0)%nat as -> by lia. reflexivity.
  - destruct k as [|k].
    + cbn [substring append String.length Nat.sub].
      rewrite substring_all. reflexivity.
    + cbn [substring append String.length Nat.sub]. f_equal.
      apply IH. cbn in Hk. lia.
Qed.

(** [s.endswith(suffix)] holds exactly when [s] is something followed by
    [suffix]. *)
Lemma endswith_iff (s suffix : string) :
  endswith s suffix = true <-> exists p, s = p ++ suffix.
Proof.
  unfold endswith. split.
  - destruct (Nat.leb_spec (String.length suffix) (String.length s))
      as [Hle|Hgt]; [|discriminate].
    intros Heq. apply String.eqb_eq in Heq.
    exists (substring 0 (String.length s - String.length suffix) s).
    rewrite <- Heq at 2.
    rewrite (substring_split s (String.length s - String.length suffix))
      at 1 by lia.
    do 2 f_equal. lia.
  - intros [p ->]. rewrite string_length_append.
    destruct (Nat.leb_spec (String.length suffix)
                (String.length p + String.length suffix)) as [_|Hgt]; [|lia].
    replace (String.length p + String.length suffix - String.length suffix)%nat
      with (String.length p) by lia.
    rewrite substring_append_skip, substring_all. apply String.eqb_refl.
Qed.

Lemma lower_append (a b : string) : lower (a ++ b) = lower a ++ lower b.
Proof. induction a as [|c a IH]; cbn; [reflexivity | rewrite IH; reflexivity]. Qed.

Lemma lower_append_inv (p q : string) :
  forall f,
    lower f = p ++ q ->
    exists a b, f = a ++ b /\ lower a = p /\ lower b = q.
Proof.
  induction p as [|c p IH]; intros f Hf.
  - exists "", f. repeat split. exact Hf.
  - destruct f as [|c0 f]; [discriminate|].
    cbn in Hf. injection Hf as Hc Hrest.
    destruct (IH f Hrest) as [a [b [-> [Ha Hb]]]].
    exists (String c0 a), b. cbn. rewrite Ha, Hc. repeat split. exact Hb.
Qed.

Lemma endswith_lower_iff (file suffix : string) :
  endswith (lower file) suffix = true
  <-> exists stem extension,
        file = stem ++ extension /\ lower extension = suffix.
Proof.
  rewrite endswith_iff. split.
  - intros [p Hp]. destruct (lower_append_inv p suffix file Hp)
      as [a [b [Hf [_ Hb]]]].
    exists a, b. split; assumption.
  - intros [stem [extension [-> Hext]]]. exists (lower stem).
    rewrite lower_append, Hext. reflexivity.
Qed.

(** The program's test is the extension test, case aside. *)
Lemma is_gallery_file_iff (file : string) :
  is_gallery_file file = true <-> has_supported_extension file.
Proof.
  unfold is_gallery_file, has_supported_extension.
  rewrite !orb_true_iff, !endswith_lower_iff. split.
  - intros [[H|H]|H]; destruct H as [stem [extension [Hf Hext]]];
      exists stem, extension; auto.
  - intros [stem [extension [Hf [H|[H|H]]]]];
      [left; left | left; right | right]; exists stem, extension; auto.
Qed.

Lemma count_occ_filter (p : string -> bool) (l : list string) (x : string) :
  count_occ string_dec (filter p l) x
  = if p x then count_occ string_dec l x else 0%nat.
Proof.
  induction l as [|a l IH]; cbn [filter count_occ].
  - destruct (p x); reflexivity.
  - destruct (p a) eqn:Hpa; cbn [count_occ];
      destruct (string_dec a x) as [->|Hne]; rewrite ?IH.
    + rewrite Hpa. reflexivity.
    + reflexivity.
    + rewrite Hpa. reflexivity.
    + reflexivity.
Qed.

(** C7.  With the card available, the scan returns (and stores as the
    gallery list) the listed names that have a supported extension, each
    as often as it is listed, and nothing else; a name has a supported
    extension when it ends, letter case aside, in ".jpg", ".jpeg" or
    ".gif".  The result is in ascending lexicographic order.  So when the
    card holds "a.gif", "B.JPG", "c.jpeg", "d.txt" and "e.jpg", listed in
    any order, the scan returns exactly ["B.JPG"; "a.gif"; "c.jpeg";
    "e.jpg"]. *)
Theorem scan_gallery_images_scenario (E : Env) (w : world)
    (files : list string) :
  storage_available_at E (instant w) = true ->
  fs_listdir E (instant w) "/sd" = Returns files ->
  exists found,
    scan_gallery_images E w = (Ok found, set_gallery_images found w)
    /\ (forall file,
          has_supported_extension file ->
          count_occ string_dec found file = count_occ string_dec files file)
    /\ (forall file,
          In file found -> In file files /\ has_supported_extension file)
    /\ StronglySorted (fun a b => String.leb a b = true) found
    /\ (Permutation files ["a.gif"; "B.JPG"; "c.jpeg"; "d.txt"; "e.jpg"] ->
        found = ["B.JPG"; "a.gif"; "c.jpeg"; "e.jpg"]).
Proof.
  intros Hsd Hls.
  exists (py_sort (filter is_gallery_file files)).
  split; [apply (scan_gallery_images_spec E w files Hsd Hls)|].
  assert (Hperm : Permutation (py_sort (filter is_gallery_file files))
                    (filter is_gallery_file files)).
  { apply Permutation_sym. apply StringSort.Permuted_sort. }
  split; [|split; [|split]].
  - intros file Hext. apply is_gallery_file_iff in Hext.
    rewrite (Permutation_count_occ string_dec) in Hperm.
    rewrite Hperm, count_occ_filter, Hext. reflexivity.
  - intros file Hin. apply (Permutation_in _ Hperm) in Hin.
    apply filter_In in Hin. destruct Hin as [Hin Hext].
    split; [exact Hin | apply is_gallery_file_iff; exact Hext].
  - apply StringSort.StronglySorted_sort, string_leb_trans.
  - intros HP.
    rewrite (py_sort_permutation _ _ (filter_permutation is_gallery_file _ _ HP)).
    reflexivity.
Qed.

Lemma scan_gallery_images_scenario_witness :
  let E := bench_env true bench_files (Returns PyNone) (fun _ => true)
             no_buttons None "JPEG" in
  scan_gallery_images E (bench_world E)
  = (Ok ["B.JPG"; "a.gif"; "c.jpeg"; "e.jpg"],
     set_gallery_images ["B.JPG"; "a.gif"; "c.jpeg"; "e.jpg"] (bench_world E)).
Proof.
  intros E.
  destruct (scan_gallery_images_scenario E (bench_world E) bench_files)
    as [found [Hrun [_ [_ [_ Hfive]]]]].
  - reflexivity.
  - reflexivity.
  - rewrite (Hfive (Permutation_refl _)) in Hrun. exact Hrun.
Defined.

(* ================================================================= *)
(** ** Decoding a JPEG at the session's zoom level *)

(** The divisor [load_jpeg_file] applies at a zoom level. *)
Lemma scale_factor_of_zoom (z : Z) :
  1 <= z <= 3 -> py_index scale_factors z = Returns (2 ^ z).
Proof.
  intros Hz. assert (z = 1 \/ z = 2 \/ z = 3) as [->|[->| ->]] by lia;
    reflexivity.
Qed.

(** C1 (as amended).  With the decoder present, a file the decoder can open
    and decode, and enough memory for the raster, [load_jpeg_file] at zoom
    level z in {1,2,3} divides by 2^z, that is by {1->2, 2->4, 3->8}: the
    raster is floor(native/2^z) in each axis, so half the native size at
    zoom 1 and an eighth at zoom 3.  [load_image_file] hands the same raster
    on, without a palette, for a name ending in .jpg or .jpeg in any case. *)
Theorem load_jpeg_file_scaled_dimensions (E : Env) (w : world)
    (filename : string) (native_width native_height : Z) (data : list Z) :
  jpeg_decoder w = true ->
  1 <= gallery_zoom_level w <= 3 ->
  jpeg_open E ("/sd/" ++ filename) = Returns (native_width, native_height) ->
  Bitmap_fault E (native_width / 2 ^ gallery_zoom_level w)
    (native_height / 2 ^ gallery_zoom_level w) = None ->
  jpeg_decode E ("/sd/" ++ filename) (gallery_zoom_level w) = Returns data ->
  let raster := mkBitmap (native_width / 2 ^ gallery_zoom_level w)
                  (native_height / 2 ^ gallery_zoom_level w) data in
  load_jpeg_file E filename w = (Ok (Some raster), w)
  /\ (endswith (lower filename) ".jpg" || endswith (lower filename) ".jpeg"
      = true ->
      load_image_file E filename w = (Ok (Some raster, None), w))
  /\ (gallery_zoom_level w = 1 ->
      bm_width raster = native_width / 2
      /\ bm_height raster = native_height / 2)
  /\ (gallery_zoom_level w = 3 ->
      bm_width raster = native_width / 8
      /\ bm_height raster = native_height / 8).
Proof.
  intros Hdec Hz Hopen Halloc Hdecode raster.
  assert (Hload : load_jpeg_file E filename w = (Ok (Some raster), w)).
  { unfold load_jpeg_file, get_current_scale_factor, displayio_Bitmap. run.
    rewrite Hdec. run. rewrite Hopen. run.
    rewrite (scale_factor_of_zoom _ Hz). run.
    rewrite Halloc. run. rewrite Hdecode. run. reflexivity. }
  split; [exact Hload|]. split; [|split].
  - intros Hext. unfold load_image_file. run. rewrite Hext, Hload. reflexivity.
  - intros H1. subst raster. rewrite H1. cbn. split; reflexivity.
  - intros H3. subst raster. rewrite H3. cbn. split; reflexivity.
Qed.

Lemma load_jpeg_file_scaled_dimensions_witness :
  let E := bench_env true bench_files (Returns PyNone) (fun _ => true)
             no_buttons None "JPEG" in
  let w := set_gallery_zoom_level 3 (bench_world E) in
  load_jpeg_file E "B.JPG" w = (Ok (Some (mkBitmap 80 60 [])), w).
Proof.
  intros E w.
  refine (proj1 (load_jpeg_file_scaled_dimensions E w "B.JPG" 640 480 []
                   _ _ _ _ _)).
  - reflexivity.
  - cbn. lia.
  - reflexivity.
  - reflexivity.
  - reflexivity.
Defined.

(** C1 as stated fails: on a 640x480 file the raster is 320x240 at zoom 1,
    not the native size, and 80x60 at zoom 3, not 160x120. *)
Lemma load_jpeg_file_zoom1_not_native :
  let E := bench_env true bench_files (Returns PyNone) (fun _ => true)
             no_buttons None "JPEG" in
  let w1 := set_gallery_zoom_level 1 (bench_world E) in
  let w3 := set_gallery_zoom_level 3 (bench_world E) in
  jpeg_open E "/sd/B.JPG" = Returns (640, 480)
  /\ load_jpeg_file E "B.JPG" w1 = (Ok (Some (mkBitmap 320 240 [])), w1)
  /\ load_image_file E "B.JPG" w1 = (Ok (Some (mkBitmap 320 240 []), None), w1)
  /\ mkBitmap 320 240 [] <> mkBitmap 640 480 []
  /\ load_jpeg_file E "B.JPG" w3 = (Ok (Some (mkBitmap 80 60 [])), w3)
  /\ mkBitmap 80 60 [] <> mkBitmap (640 / 4) (480 / 4) [].
Proof.
  cbv zeta. repeat split; try reflexivity; discriminate.
Qed.

(* ================================================================= *)
(** ** Capturing without a card *)

(** Without a card the wrapper does not run the capture function at all:
    it shows "Preview Only", waits a second and returns [False]. *)
Lemma safe_capture_operation_without_storage (E : Env)
    (capture_func : M pyval) (w : world) :
  storage_available_at E (instant w) = false ->
  safe_capture_operation E capture_func w
  = (Ok (PyBool false),
     set_instant (S (instant w))
       (set_log (log w ++ [EvMessage "Preview Only" 0xFFFF00; EvSleep 1000])
          w)).
Proof.
  intros Hsd. unfold safe_capture_operation. run.
  rewrite is_sd_card_available_at, Hsd. run.
  world_norm. rewrite <- app_assoc. reflexivity.
Qed.

(** C2 (as amended).  A short shutter press in stop-motion mode while the
    card is unavailable: the guarded capture returns [False] without running
    the capture function, nothing is written to storage, the "Preview Only"
    overlay is shown, and the handler returns.  Before the storage test the
    handler has already stored the live frame in [last_frame] and counted
    it in [stop_motion_frame]. *)
Theorem stop_motion_capture_without_storage (E : Env) (w : world) :
  storage_available_at E (S (instant w)) = false ->
  exists w',
    handle_stop_motion_capture E w = (Ok tt, w')
    /\ (forall capture_func w1,
          instant w1 = S (instant w) ->
          fst (safe_capture_operation E capture_func w1) = Ok (PyBool false))
    /\ emitted w w'
       = [EvMessage "Snap!" 0x0000FF; EvMessage "Preview Only" 0xFFFF00;
          EvSleep 1000; EvLivePreview]
    /\ existsb is_storage_write (emitted w w') = false
    /\ last_frame w' = sensor E (instant w)
    /\ stop_motion_frame (pycam w') = stop_motion_frame (pycam w) + 1.
Proof.
  intros Hsd. unfold handle_stop_motion_capture. run.
  rewrite safe_capture_operation_without_storage by (run; exact Hsd). run.
  eexists. split; [reflexivity|].
  assert (Hlog : emitted w
                   (set_log
                      (((log w ++ [EvMessage "Snap!" 0x0000FF])
                        ++ [EvMessage "Preview Only" 0xFFFF00; EvSleep 1000])
                       ++ [EvLivePreview]) w)
                 = [EvMessage "Snap!" 0x0000FF;
                    EvMessage "Preview Only" 0xFFFF00;
                    EvSleep 1000; EvLivePreview]).
  { apply emitted_app. cbn [log set_log]. rewrite <- !app_assoc. reflexivity. }
  unfold emitted in *. cbn [log set_log] in *.
  split; [|split; [|split; [|split]]].
  - intros capture_func w1 Hw1.
    rewrite safe_capture_operation_without_storage by (rewrite Hw1; exact Hsd).
    reflexivity.
  - exact Hlog.
  - rewrite Hlog. reflexivity.
  - reflexivity.
  - reflexivity.
Qed.

Lemma stop_motion_capture_without_storage_witness :
  let E := bench_env false [] (Returns PyNone) (fun _ => true)
             no_buttons None "STOP" in
  exists w',
    handle_stop_motion_capture E (bench_world E) = (Ok tt, w')
    /\ existsb is_storage_write (emitted (bench_world E) w') = false
    /\ last_frame w' = mkBitmap 2 1 [0; 7].
Proof.
  intros E.
  destruct (stop_motion_capture_without_storage E (bench_world E))
    as [w' [Hrun [_ [_ [Hnone [Hframe _]]]]]].
  - reflexivity.
  - exists w'. repeat split; assumption.
Defined.

(** C2 as stated fails in its last clause: the press overwrites the
    last-frame buffer although no card is present. *)
Lemma stop_motion_capture_overwrites_last_frame :
  let E := bench_env false [] (Returns PyNone) (fun _ => true)
             no_buttons None "STOP" in
  let w := bench_world E in
  storage_available_at E (S (instant w)) = false
  /\ fst (handle_stop_motion_capture E w) = Ok tt
  /\ last_frame w = mkBitmap 2 1 [0; 0]
  /\ last_frame (snd (handle_stop_motion_capture E w)) = mkBitmap 2 1 [0; 7]
  /\ last_frame (snd (handle_stop_motion_capture E w)) <> last_frame w.
Proof.
  cbv zeta. repeat split; try reflexivity. vm_compute. discriminate.
Qed.

(* ================================================================= *)
(** ** A time-lapse fire *)

(** The guarded capture with the card present: the result of the capture
    function when it returns, [False] and a "Failed" overlay when it raises
    one of the three classes the wrapper catches. *)
Lemma safe_capture_jpeg_with_storage (E : Env) (w : world) :
  storage_available_at E (instant w) = true ->
  match capture_jpeg_outcome E (instant w) with
  | Returns v =>
      safe_capture_operation E (capture_jpeg E) w
      = (Ok v,
         set_instant (S (instant w))
           (set_log (log w ++ [EvCaptureJpeg; EvMessage "Saved!" 0x00FF00]) w))
  | Raises e =>
      if except_TypeError_RuntimeError_OSError e then
        safe_capture_operation E (capture_jpeg E) w
        = (Ok (PyBool false),
           set_instant (S (S (instant w)))
             (set_log (log w ++ [EvCaptureJpeg; EvMessage "Failed" 0xFF0000;
                                 EvSleep 500]) w))
      else
        safe_capture_operation E (capture_jpeg E) w
        = (Raise e,
           set_instant (S (instant w))
             (set_log (log w ++ [EvCaptureJpeg]) w))
  end.
Proof.
  intros Hsd. unfold safe_capture_operation, capture_jpeg. run.
  rewrite is_sd_card_available_at, Hsd. run.
  destruct (capture_jpeg_outcome E (instant w)) as [v|e]; run.
  - world_norm. rewrite <- app_assoc. reflexivity.
  - destruct e; run; world_norm; rewrite <- ?app_assoc; reflexivity.
Qed.

(** C8 (as amended).  A time-lapse is running and due.  Whether the capture
    succeeds, finds no card, or raises TypeError, RuntimeError or OSError,
    [handle_timelapse_mode] returns, the time-lapse is still running, the
    next fire time is the clock reading at the end of the fire plus the
    interval plus 1, and a failure has put a "Preview Only" or "Failed"
    message on the display. *)
Theorem timelapse_fire_reschedules (E : Env) (w : world)
    (remaining timestamp interval : Z) :
  timelapse_remaining w = Some remaining ->
  timelapse_timestamp w = Some timestamp ->
  timestamp - clock E (instant w) <= 0 ->
  py_index (timelapse_rates E) (timelapse_rate (pycam w)) = Returns interval ->
  let t_capture :=
    ((if String.eqb (timelapse_submode_label_text (pycam w)) "HiPwr"
      then 2 else 1) + instant w)%nat in
  capture_handled E t_capture ->
  exists w',
    handle_timelapse_mode E w = (Ok tt, w')
    /\ timelapse_remaining w' = Some (timestamp - clock E (instant w))
    /\ timelapse_timestamp w' = Some (clock E (instant w') + interval + 1)
    /\ (capture_fails E t_capture ->
        existsb is_failure_report (emitted w w') = true).
Proof.
  intros Hrem Hts Hdue Hrate t_capture Hhandled.
  unfold handle_timelapse_mode. run. rewrite Hrem, Hts. run.
  destruct (Z.leb_spec (timestamp - clock E (instant w)) 0) as [_|Hlt];
    [|lia].
  unfold capture_handled, capture_fails in *. subst t_capture.
  destruct (String.eqb (timelapse_submode_label_text (pycam w)) "HiPwr");
    destruct (String.eqb (timelapse_submode_label_text (pycam w)) "LowPwr");
    run; cbn [Nat.add] in *;
    match goal with
    | |- context [safe_capture_operation E (capture_jpeg E) ?w1] =>
        destruct (storage_available_at E (instant w1)) eqn:Hsd;
        [ pose proof (safe_capture_jpeg_with_storage E w1 Hsd) as Hcap
        | pose proof (safe_capture_operation_without_storage E
                        (capture_jpeg E) w1 Hsd) as Hcap ];
        revert Hsd Hcap; run; intros Hsd Hcap
    end;
    try (destruct (capture_jpeg_outcome E _) as [v|e] eqn:Hout;
         [|destruct e; try discriminate Hhandled; cbv iota in Hcap]);
    rewrite Hcap; run; rewrite Hrate; run;
    (eexists; split; [reflexivity|]; run;
     split; [reflexivity|]; split; [reflexivity|];
     intros Hfail; unfold emitted; run;
     rewrite <- !app_assoc, skipn_app, skipn_all, Nat.sub_diag;
     cbn [skipn app existsb is_failure_report]);
    try reflexivity;
    destruct Hfail as [Hno|[e' He']]; congruence.
Qed.

Lemma timelapse_fire_reschedules_witness :
  let E := bench_env true bench_files (Raises OSError) (fun _ => true)
             no_buttons None "LAPS" in
  let w := set_timelapse_timestamp (Some 0)
             (set_timelapse_remaining (Some 5) (bench_world E)) in
  exists w',
    handle_timelapse_mode E w = (Ok tt, w')
    /\ timelapse_remaining w' = Some 0
    /\ timelapse_timestamp w' = Some (clock E (instant w') + 5 + 1)
    /\ existsb is_failure_report (emitted w w') = true.
Proof.
  intros E w.
  destruct (timelapse_fire_reschedules E w 5 0 5)
    as [w' [Hrun [Hrem [Hts Hreport]]]].
  - reflexivity.
  - reflexivity.
  - cbn. lia.
  - reflexivity.
  - reflexivity.
  - exists w'. repeat split; try assumption.
    apply Hreport. right. exists OSError. reflexivity.
Defined.

(** C8 as stated fails for a failure the wrapper does not catch: when the
    capture raises MemoryError the exception leaves [handle_timelapse_mode]
    before the reschedule, no message is shown and the fire time is still
    the one that has passed. *)
Lemma timelapse_fire_uncaught_failure :
  let E := bench_env true bench_files (Raises MemoryError) (fun _ => true)
             no_buttons None "LAPS" in
  let w := set_timelapse_timestamp (Some 0)
             (set_timelapse_remaining (Some 5) (bench_world E)) in
  let w' := snd (handle_timelapse_mode E w) in
  fst (handle_timelapse_mode E w) = Raise MemoryError
  /\ timelapse_timestamp w' = Some 0
  /\ timelapse_timestamp w' <> Some (clock E (instant w') + 5 + 1)
  /\ existsb is_failure_report (emitted w w') = false.
Proof.
  cbv zeta. repeat split; try reflexivity. vm_compute. discriminate.
Qed.

(* ================================================================= *)
(** ** Recording an animated GIF *)



(** While the button stays down the loop does not end, whatever the fuel:
    only the release ends a recording. *)
Lemma recording_loop_held (E : Env) (fuel : nat) :
  forall (i : Z) (w : world),
    (forall t, shutter_button_value E t = false) ->
    (forall t, add_frame_fault E t = None) ->
    (forall k, monotonic E k < monotonic E (S k)) ->
    fst (recording_loop E fuel i (monotonic E (instant w)) w) = OutOfFuel.
Proof.
  induction fuel as [|fuel IH]; intros i w Hheld Hadd Hmono;
    cbn [recording_loop]; run; rewrite Hheld, Bool.orb_true_r.
  - reflexivity.
  - run. rewrite Hadd. run.
    pose proof (Hmono (instant w)) as Hstep.
    destruct (Z.eqb_spec (monotonic E (S (instant w)) - monotonic E (instant w)) 0)
      as [Heq|_]; [lia|]. run.
    match goal with
    | |- fst (recording_loop E fuel (i + 1) _ ?w1) = _ =>
        pose proof (IH (i + 1) w1 Hheld Hadd Hmono) as IH1
    end.
    revert IH1. run. intros IH1. exact IH1.
Qed.

Lemma recorded_frames_count (E : Env) (m : nat) :
  forall t,
    List.length (filter is_gif_frame (recorded_frames E t m)) = m
    /\ filter is_file_close (recorded_frames E t m) = [].
Proof.
  unfold recorded_frames.
  induction m as [|m IH]; intros t; cbn [seq flat_map app filter is_gif_frame
                                         is_file_close List.length].
  - split; reflexivity.
  - destruct (IH (S t)) as [H1 H2]. rewrite H1, H2. split; reflexivity.
Qed.


(** With the card present, the shutter action in GIF mode is the recording
    followed by the "Saved!" overlay. *)
Lemma handle_gif_capture_with_storage (E : Env) (fuel : nat) (w w' : world)
    (v : pyval) :
  storage_available_at E (instant w) = true ->
  capture_animated_gif E fuel w = (Ok v, w') ->
  handle_gif_capture E fuel w
  = (Ok tt, set_log (log w' ++ [EvMessage "Saved!" 0x00FF00]) w').
Proof.
  intros Hsd Hrec. unfold handle_gif_capture, safe_capture_operation. run.
  rewrite is_sd_card_available_at, Hsd. run. rewrite Hrec. reflexivity.
Qed.



(* ================================================================= *)
(** ** Entering and leaving the gallery *)

(** A scan always returns, and leaves what it returns in
    [gallery_images]. *)
Lemma scan_gallery_images_total (E : Env) (w : world) :
  scan_gallery_images E w
  = (Ok (scanned_files E (instant w)),
     set_gallery_images (scanned_files E (instant w)) w).
Proof.
  unfold scanned_files, scan_gallery_images. run.
  rewrite !is_sd_card_available_at. run.
  destruct (storage_available_at E (instant w)); run; [|reflexivity].
  destruct (fs_listdir E (instant w) "/sd") as [files|e]; run;
    [|reflexivity].
  rewrite !scan_loop_filter. run. reflexivity.
Qed.

Lemma exit_gallery_mode_spec (E : Env) (w : world) :
  buffer_ready E w ->
  exists w',
    exit_gallery_mode E w = (Ok tt, w')
    /\ gallery_mode w' = false
    /\ gallery_images w' = []
    /\ gallery_index w' = 0
    /\ gallery_zoom_level w' = gallery_zoom_level w
    /\ buffer_ready E w'
    /\ mode_text (pycam w') = mode_text (pycam w)
    /\ keys (pycam w') = keys (pycam w)
    /\ log w'
       = (log w ++ [EvGcCollect; EvLivePreview; EvRefresh; EvSleep 200;
                    EvRefresh; EvSleep 100; EvRefresh;
                    EvMessage "Camera Mode" 0x00FF00; EvSleep 500])%list.
Proof.
  intros Hready. unfold exit_gallery_mode, cleanup_gallery_display. run.
  destruct Hready as [b [Hb [Hw Hh]]]. rewrite Hb.
  match goal with
  | |- context [blacken_gallery_image_buffer E ?w1] =>
      destruct (blacken_gallery_image_buffer_ok E w1)
        as [b' [Hrun [Hw' Hh']]];
      [exists b; run; auto | rewrite Hrun]
  end.
  run.
  destruct (gallery_group (pycam w)); run;
    (eexists; split; [reflexivity|]; run;
     repeat split; try reflexivity;
     [ exists b'; run; auto
     | rewrite <- !app_assoc; reflexivity ]).
Qed.

Lemma enter_gallery_mode_spec (E : Env) (w : world) :
  buffer_ready E w ->
  exists w',
    enter_gallery_mode E w = (Ok tt, w')
    /\ gallery_mode w'
       = match scanned_files E (instant w) with [] => false | _ => true end
    /\ gallery_images w' = scanned_files E (instant w)
    /\ gallery_index w' = 0
    /\ gallery_zoom_level w' = 1
    /\ buffer_ready E w'
    /\ mode_text (pycam w') = mode_text (pycam w)
    /\ keys (pycam w') = keys (pycam w)
    /\ (scanned_files E (instant w) = [] ->
        emitted w w'
        = [EvMessage "No Photos" 0xFFFF00; EvSleep 1000; EvGcCollect;
           EvLivePreview; EvRefresh; EvSleep 200; EvRefresh; EvSleep 100;
           EvRefresh; EvMessage "Camera Mode" 0x00FF00; EvSleep 500]).
Proof.
  intros Hready. unfold enter_gallery_mode. run.
  rewrite scan_gallery_images_total. run.
  destruct (scanned_files E (instant w)) as [|f fs] eqn:Hscan; run.
  - match goal with
    | |- context [exit_gallery_mode E ?w1] =>
        destruct (exit_gallery_mode_spec E w1)
          as [w' [Hrun [Hm [Hi [Hx [Hz [Hr [Hmt [Hk Hlog]]]]]]]]];
        [exact Hready | rewrite Hrun]
    end.
    revert Hz Hmt Hk Hlog. run. intros Hz Hmt Hk Hlog.
    exists w'. repeat split; try assumption.
    intros _. apply emitted_app. rewrite Hlog, <- !app_assoc. reflexivity.
  - match goal with
    | |- context [display_current_image E ?w1] =>
        destruct (display_current_image_ok E w1)
          as [w' [Hrun [Hsame Hr]]];
        [exact Hready | run; lia | rewrite Hrun]
    end.
    destruct Hsame as [Hm [Hi [Hx [Hz [_ [Hmt [Hk _]]]]]]].
    revert Hm Hi Hx Hz Hmt Hk. run. intros Hm Hi Hx Hz Hmt Hk.
    exists w'. repeat split; try assumption. intros H. discriminate H.
Qed.

(** C4.  [enter_gallery_mode] returns.  When the scan finds no eligible
    file it shows "No Photos" and leaves through [exit_gallery_mode], so
    the gallery is off and the list empty; when the scan finds files the
    gallery is on with that list, index 0 and zoom level 1.  Either way
    [gallery_mode] is true afterwards only with a non-empty list. *)
Theorem enter_gallery_mode_never_empty (E : Env) (w : world) :
  buffer_ready E w ->
  exists w',
    enter_gallery_mode E w = (Ok tt, w')
    /\ (gallery_mode w' = true -> gallery_images w' <> [])
    /\ (scanned_files E (instant w) = [] ->
        gallery_mode w' = false
        /\ gallery_images w' = []
        /\ In (EvMessage "No Photos" 0xFFFF00) (emitted w w'))
    /\ (scanned_files E (instant w) <> [] ->
        gallery_mode w' = true
        /\ gallery_images w' = scanned_files E (instant w)
        /\ gallery_index w' = 0
        /\ gallery_zoom_level w' = 1).
Proof.
  intros Hready.
  destruct (enter_gallery_mode_spec E w Hready)
    as [w' [Hrun [Hm [Hi [Hx [Hz [_ [_ [_ Hlog]]]]]]]]].
  exists w'. split; [exact Hrun|].
  destruct (scanned_files E (instant w)) as [|f fs].
  - repeat split; try assumption; try congruence.
    rewrite Hlog by reflexivity. left. reflexivity.
  - repeat split; try assumption; congruence.
Qed.

Lemma enter_gallery_mode_never_empty_witness :
  let E := bench_env true ["d.txt"] (Returns PyNone) (fun _ => true)
             no_buttons None "JPEG" in
  exists w',
    enter_gallery_mode E (bench_world E) = (Ok tt, w')
    /\ gallery_mode w' = false
    /\ gallery_images w' = [].
Proof.
  intros E.
  assert (Hready : buffer_ready E (bench_world E)).
  { exists (mkBitmap 2 1 [0; 0]). cbn. repeat split; lia. }
  destruct (enter_gallery_mode_never_empty E (bench_world E) Hready)
    as [w' [Hrun [_ [Hempty _]]]].
  destruct Hempty as [Hm [Hi _]]; [reflexivity|].
  exists w'. repeat split; assumption.
Defined.

(* ================================================================= *)
(** ** Browsing without a JPEG decoder *)

Lemma py_index_Returns_bound {A : Type} (l : list A) (i : Z) (x : A) :
  py_index l i = Returns x -> i < Z.of_nat (List.length l) /\ l <> [].
Proof.
  unfold py_index. intros H.
  assert (Hn : 0 <= Z.of_nat (List.length l)) by lia.
  destruct ((0 <=? (if i <? 0 then i + Z.of_nat (List.length l) else i))
            && ((if i <? 0 then i + Z.of_nat (List.length l) else i)
                <? Z.of_nat (List.length l))) eqn:Hc; [|discriminate].
  apply andb_prop in Hc. destruct Hc as [H0 H1].
  apply Z.leb_le in H0. apply Z.ltb_lt in H1.
  destruct (Z.ltb_spec i 0); split; try lia;
    intros ->; cbn [List.length Z.of_nat] in *; lia.
Qed.

(** Start-up with a decoder that cannot be constructed: the program goes
    on with [jpeg_decoder = None] and its buffers allocated. *)
Lemma init_camera_system_without_decoder (E : Env) (w0 : world) (e : exn) :
  JpegDecoder_fault E = Some e ->
  Bitmap_fault E (camera_width E) (camera_height E) = None ->
  exists w,
    init_camera_system E w0 = (Ok tt, w)
    /\ jpeg_decoder w = false
    /\ buffer_ready E w.
Proof.
  intros Hdec Halloc. unfold init_camera_system, displayio_Bitmap. run.
  rewrite Halloc, Hdec. run.
  eexists. split; [reflexivity|]. split; [reflexivity|].
  eexists. run. split; [reflexivity|]. cbn. lia.
Qed.

(** C10.  When constructing the decoder failed at start-up the program
    runs with [jpeg_decoder = None].  In such a world, for every file name
    ending in .jpg or .jpeg (in any case), [load_jpeg_file] returns [None]
    and [load_image_file] returns [(None, None)], neither raising nor
    changing anything; and when that file is the current gallery entry
    [display_current_image] returns after doing exactly what
    [show_image_info_fallback] does.  That screen holds no picture: the
    buffer it blits keeps its size and is black over the whole sensor
    area, and the text gives the position in the list, the file name, and
    "JPEG (load failed)" with the size in whole KB, or "Info unavailable"
    when the file cannot be stat'ed. *)
Theorem jpeg_decoder_missing_falls_back (E : Env) (w : world)
    (filename : string) :
  jpeg_decoder w = false ->
  endswith (lower filename) ".jpg" || endswith (lower filename) ".jpeg"
  = true ->
  (forall w0 e,
     JpegDecoder_fault E = Some e ->
     Bitmap_fault E (camera_width E) (camera_height E) = None ->
     exists w1,
       init_camera_system E w0 = (Ok tt, w1)
       /\ jpeg_decoder w1 = false /\ buffer_ready E w1)
  /\ load_jpeg_file E filename w = (Ok None, w)
  /\ load_image_file E filename w = (Ok (None, None), w)
  /\ (forall buffer,
        gallery_image_buffer w = Some buffer ->
        camera_width E <= bm_width buffer ->
        camera_height E <= bm_height buffer ->
        py_index (gallery_images w) (gallery_index w) = Returns filename ->
        let position :=
          str (gallery_index w + 1) ++ "/"
          ++ str (Z.of_nat (List.length (gallery_images w))) in
        let text :=
          match fs_stat_size E (instant w) ("/sd/" ++ filename) with
          | Returns size =>
              position ++ newline ++ filename ++ newline
              ++ "JPEG (load failed)" ++ newline
              ++ str (size / 1024) ++ "KB"
          | Raises _ =>
              position ++ newline ++ filename ++ newline ++ "Info unavailable"
          end in
        display_current_image E w = show_image_info_fallback E filename w
        /\ exists shown,
             display_current_image E w
             = (Ok tt,
                set_log
                  (log w ++ [EvBlit shown; EvRefresh; EvMessage text 0xFFFFFF])
                  (set_gallery_image_buffer (Some shown) w))
             /\ bm_width shown = bm_width buffer
             /\ bm_height shown = bm_height buffer
             /\ (raster_complete buffer -> black_over E shown)).
Proof.
  intros Hdec Hext.
  assert (Hjpeg : load_jpeg_file E filename w = (Ok None, w)).
  { unfold load_jpeg_file. run. rewrite Hdec. reflexivity. }
  assert (Hload : load_image_file E filename w = (Ok (None, None), w)).
  { unfold load_image_file. run. rewrite Hext, Hjpeg. reflexivity. }
  split; [|split; [exact Hjpeg | split; [exact Hload|]]].
  - intros w0 e. apply init_camera_system_without_decoder.
  - intros buffer Hbuf Hw Hh Hcur position text.
    assert (Hdisp : display_current_image E w
                    = show_image_info_fallback E filename w).
    { destruct (py_index_Returns_bound _ _ _ Hcur) as [Hlt Hne].
      unfold display_current_image. run.
      destruct (gallery_images w) as [|f fs] eqn:Himgs; [congruence|].
      destruct (Z.leb_spec (Z.of_nat (List.length (f :: fs))) (gallery_index w));
        [lia|].
      run. rewrite Hcur. run. rewrite Hload. reflexivity. }
    split; [exact Hdisp|].
    destruct (show_image_info_fallback_screen E filename w buffer Hbuf Hw Hh)
      as [shown [Hrun [Hsw [Hsh Hblack]]]].
    rewrite Hext in Hrun.
    exists shown. rewrite Hdisp. repeat split; assumption.
Qed.

Lemma jpeg_decoder_missing_falls_back_witness :
  let E := bench_env true bench_files (Returns PyNone) (fun _ => true)
             no_buttons (Some RuntimeError) "JPEG" in
  let w := set_gallery_image_buffer (Some (mkBitmap 2 1 [9; 9]))
             (set_gallery_images ["B.JPG"; "a.gif"; "c.jpeg"; "e.jpg"]
                (set_gallery_mode true (bench_world E))) in
  jpeg_decoder w = false
  /\ load_image_file E "B.JPG" w = (Ok (None, None), w)
  /\ exists shown,
       display_current_image E w
       = (Ok tt,
          set_log
            (log w ++ [EvBlit shown; EvRefresh;
                       EvMessage ("1/4" ++ newline ++ "B.JPG" ++ newline
                                  ++ "JPEG (load failed)" ++ newline
                                  ++ "4KB") 0xFFFFFF])
            (set_gallery_image_buffer (Some shown) w))
       /\ black_over E shown.
Proof.
  intros E w.
  destruct (jpeg_decoder_missing_falls_back E w "B.JPG")
    as [_ [_ [Hload Hdisp]]].
  - reflexivity.
  - reflexivity.
  - split; [reflexivity|]. split; [exact Hload|].
    destruct (Hdisp (mkBitmap 2 1 [9; 9]))
      as [_ [shown [Hrun [_ [_ Hblack]]]]].
    + reflexivity.
    + cbn. lia.
    + cbn. lia.
    + reflexivity.
    + exists shown. split; [exact Hrun|]. apply Hblack. reflexivity.
Defined.

(* ================================================================= *)
(** ** The Select button *)

Lemma handle_select_button_off_to_gallery (E : Env) (w : world) :
  buffer_ready E w ->
  String.eqb (mode_text (pycam w)) "LAPS" = false ->
  gallery_mode w = false ->
  exists w',
    handle_select_button E w = (Ok tt, w')
    /\ gallery_mode w'
       = match scanned_files E (instant w) with [] => false | _ => true end
    /\ gallery_images w' = scanned_files E (instant w)
    /\ gallery_index w' = 0
    /\ gallery_zoom_level w' = 1
    /\ keys (pycam w') = keys (pycam w).
Proof.
  intros Hready Hmode Hoff. unfold handle_select_button. run.
  rewrite Hmode, Hoff. run.
  match goal with
  | |- context [enter_gallery_mode E ?w1] =>
      destruct (enter_gallery_mode_spec E w1)
        as [w' [Hrun [Hm [Hi [Hx [Hz [_ [_ [Hk _]]]]]]]]];
      [exact Hready | rewrite Hrun]
  end.
  revert Hm Hi Hk. run. intros Hm Hi Hk.
  exists w'. repeat split; assumption.
Qed.

Lemma handle_select_button_gallery_to_off (E : Env) (w : world) :
  buffer_ready E w ->
  String.eqb (mode_text (pycam w)) "LAPS" = false ->
  gallery_mode w = true ->
  exists w',
    handle_select_button E w = (Ok tt, w')
    /\ gallery_mode w' = false
    /\ gallery_images w' = []
    /\ keys (pycam w') = keys (pycam w).
Proof.
  intros Hready Hmode Hon. unfold handle_select_button. run.
  rewrite Hmode, Hon. run.
  match goal with
  | |- context [exit_gallery_mode E ?w1] =>
      destruct (exit_gallery_mode_spec E w1)
        as [w' [Hrun [Hm [Hi [_ [_ [_ [_ [Hk _]]]]]]]]];
      [exact Hready | rewrite Hrun]
  end.
  revert Hk. run. intros Hk.
  exists w'. repeat split; assumption.
Qed.

(** C9 (as amended).  A tick on which only Select was pressed:
    - with the gallery off and a capture mode other than time-lapse, Select
      enters the gallery, which stays on exactly when the scan finds a file
      (then with that list, index 0 and zoom 1);
    - with the gallery off in time-lapse mode, Select steps the time-lapse
      sub-mode and the gallery stays off;
    - with the gallery on (which happens only outside time-lapse mode),
      Select turns it off. *)
Theorem select_press_gallery_toggle (E : Env) (fuel : nat) (w : world) :
  debounced_keys E (instant w) = select_only ->
  buffer_ready E w ->
  (forall v p, keys (pycam_setattr E "timelapse_submode" v p) = keys p) ->
  (gallery_mode w = false ->
   mode_text (pycam w) <> "LAPS" ->
   exists w',
     handle_all_buttons E fuel w = (Ok tt, w')
     /\ gallery_mode w'
        = match scanned_files E (instant w) with [] => false | _ => true end
     /\ gallery_images w' = scanned_files E (instant w)
     /\ gallery_index w' = 0
     /\ gallery_zoom_level w' = 1)
  /\ (gallery_mode w = false ->
      mode_text (pycam w) = "LAPS" ->
      exists w',
        handle_all_buttons E fuel w = (Ok tt, w')
        /\ gallery_mode w' = false
        /\ pycam w'
           = pycam_setattr E "timelapse_submode"
               (pycam_getattr E "timelapse_submode"
                  (set_keys select_only (pycam w)) + 1)
               (set_keys select_only (pycam w)))
  /\ (gallery_mode w = true ->
      mode_text (pycam w) <> "LAPS" ->
      exists w',
        handle_all_buttons E fuel w = (Ok tt, w')
        /\ gallery_mode w' = false).
Proof.
  intros Hkeys Hready Hsetter.
  split; [|split].
  - intros Hoff Hmode. apply String.eqb_neq in Hmode.
    unfold handle_all_buttons, keys_debounce, handle_camera_buttons,
      handle_shutter_button, handle_navigation_buttons. run.
    rewrite Hkeys, Hoff. unfold select_only. run. cbn [Z.eqb negb]. run.
    match goal with
    | |- context [handle_select_button E ?w1] =>
        destruct (handle_select_button_off_to_gallery E w1)
          as [w' [Hrun [Hm [Hi [Hx [Hz Hk]]]]]];
        [ destruct Hready as [b Hb]; exists b; exact Hb
        | exact Hmode | exact Hoff | rewrite Hrun ]
    end.
    revert Hm Hi Hk. run. intros Hm Hi Hk.
    repeat (rewrite Hk; run).
    exists w'. repeat split; assumption.
  - intros Hoff Hmode.
    unfold handle_all_buttons, keys_debounce, handle_camera_buttons,
      handle_shutter_button, handle_navigation_buttons. run.
    rewrite Hkeys, Hoff. unfold select_only. run. cbn [Z.eqb negb]. run.
    unfold handle_select_button, bump_attribute. run.
    rewrite Hmode. cbn [String.eqb Ascii.eqb Bool.eqb]. run.
    rewrite Hsetter. run.
    eexists. split; [reflexivity|]. run. split; [exact Hoff | reflexivity].
  - intros Hon Hmode. apply String.eqb_neq in Hmode.
    unfold handle_all_buttons, keys_debounce, handle_gallery_buttons. run.
    rewrite Hkeys, Hon. unfold select_only. run.
    rewrite is_sd_card_available_at. run.
    destruct (storage_available_at E (instant w)); run.
    + match goal with
      | |- context [handle_select_button E ?w1] =>
          destruct (handle_select_button_gallery_to_off E w1)
            as [w' [Hrun [Hm [Hi Hk]]]];
          [ destruct Hready as [b Hb]; exists b; exact Hb
          | exact Hmode | exact Hon | rewrite Hrun ]
      end.
      revert Hk. run. intros Hk.
      repeat (rewrite Hk; run; cbn [Z.eqb negb]).
      exists w'. split; [reflexivity | exact Hm].
    + match goal with
      | |- context [exit_gallery_mode E ?w1] =>
          destruct (exit_gallery_mode_spec E w1)
            as [w' [Hrun [Hm _]]];
          [ destruct Hready as [b Hb]; exists b; exact Hb | rewrite Hrun ]
      end.
      exists w'. split; [reflexivity | exact Hm].
Qed.

Lemma select_press_gallery_toggle_witness :
  let E := bench_env true bench_files (Returns PyNone) (fun _ => true)
             select_only None "JPEG" in
  exists w',
    handle_all_buttons E 0 (bench_world E) = (Ok tt, w')
    /\ gallery_mode w' = true
    /\ gallery_images w' = ["B.JPG"; "a.gif"; "c.jpeg"; "e.jpg"].
Proof.
  intros E.
  destruct (select_press_gallery_toggle E 0 (bench_world E))
    as [Henter _].
  - reflexivity.
  - exists (mkBitmap 2 1 [0; 0]). cbn. repeat split; lia.
  - intros v p. reflexivity.
  - destruct Henter as [w' [Hrun [Hm [Hi _]]]].
    + reflexivity.
    + discriminate.
    + exists w'. split; [exact Hrun|]. split.
      * rewrite Hm. reflexivity.
      * rewrite Hi. reflexivity.
Defined.

(** C9 as stated fails: with the gallery off, a Select press in time-lapse
    mode leaves it off, and so does a Select press when the card holds no
    supported file. *)
Lemma select_press_does_not_always_toggle :
  let E1 := bench_env true bench_files (Returns PyNone) (fun _ => true)
              select_only None "LAPS" in
  let E2 := bench_env true ["d.txt"] (Returns PyNone) (fun _ => true)
              select_only None "JPEG" in
  (select_fell (debounced_keys E1 (instant (bench_world E1))) = true
   /\ gallery_mode (bench_world E1) = false
   /\ fst (handle_all_buttons E1 0 (bench_world E1)) = Ok tt
   /\ gallery_mode (snd (handle_all_buttons E1 0 (bench_world E1))) = false)
  /\ (select_fell (debounced_keys E2 (instant (bench_world E2))) = true
      /\ gallery_mode (bench_world E2) = false
      /\ fst (handle_all_buttons E2 0 (bench_world E2)) = Ok tt
      /\ gallery_mode (snd (handle_all_buttons E2 0 (bench_world E2))) = false).
Proof.
  cbv zeta. repeat split; vm_compute; reflexivity.
Qed.

(* ================================================================= *)
(** ** Storage availability, case by case *)

(** X1.  [is_sd_card_available] never raises and changes nothing.  It
    answers [True] exactly when the root directory lists "sd", "/sd" can be
    listed, and [os.statvfs] either reports free blocks or is not supported
    (raises OSError or AttributeError).  A mounted card without a free block
    is therefore reported as unavailable. *)
Theorem is_sd_card_available_iff (E : Env) (w : world) :
  exists b,
    is_sd_card_available E w = (Ok b, w)
    /\ (b = true <->
        (exists root, fs_listdir E (instant w) "/" = Returns root
                      /\ In "sd" root)
        /\ (exists files, fs_listdir E (instant w) "/sd" = Returns files)
        /\ ((exists free, fs_statvfs_bavail E (instant w) "/sd" = Returns free
                          /\ 0 < free)
            \/ fs_statvfs_bavail E (instant w) "/sd" = Raises OSError
            \/ fs_statvfs_bavail E (instant w) "/sd" = Raises AttributeError)).
Proof.
  unfold is_sd_card_available. run.
  destruct (fs_listdir E (instant w) "/") as [root|e] eqn:Hroot; run.
  2:{ exists false. split; [reflexivity|]. split; [discriminate|].
      intros [[r [Hr _]] _]. discriminate. }
  destruct (existsb (String.eqb "sd") root) eqn:Hsd; run.
  2:{ exists false. split; [reflexivity|]. split; [discriminate|].
      intros [[r [Hr Hin]] _]. injection Hr as <-.
      assert (existsb (String.eqb "sd") root = true); [|congruence].
      apply existsb_exists. exists "sd". split; [exact Hin|].
      apply String.eqb_refl. }
  assert (Hin : In "sd" root).
  { apply existsb_exists in Hsd. destruct Hsd as [x [Hx Heq]].
    apply String.eqb_eq in Heq. subst x. exact Hx. }
  destruct (fs_listdir E (instant w) "/sd") as [files|e] eqn:Hls; run.
  2:{ exists false. split; [destruct e; reflexivity|]. split; [discriminate|].
      intros [_ [[f Hf] _]]. discriminate. }
  destruct (fs_statvfs_bavail E (instant w) "/sd") as [free|e] eqn:Hst; run.
  - exists (0 <? free). split; [destruct (0 <? free); reflexivity|].
    split.
    + intros Hfree. apply Z.ltb_lt in Hfree. repeat split; eauto.
    + intros [_ [_ [[n [Hn Hpos]]|[H|H]]]]; try discriminate.
      injection Hn as <-. apply Z.ltb_lt. exact Hpos.
  - destruct e; run; rewrite ?Hls; run;
      (eexists; split; [reflexivity|]);
      (split; [try discriminate; intros _; repeat split; eauto
              | try reflexivity;
                intros [_ [_ [[n [Hn _]]|[H|H]]]]; discriminate]).
Qed.

(* ================================================================= *)
(** ** The capture wrapper and the shutter *)

(** X2.  With the card present [safe_capture_operation] runs the capture
    function once and lets exceptions alone decide the report: a returned
    value is passed on as it is after "Saved!", even when it is [None] or
    [False]; TypeError, RuntimeError and OSError become "Failed" and
    [False]; any other exception leaves the wrapper uncaught and
    unreported. *)
Theorem safe_capture_operation_contract (E : Env) (capture_func : M pyval)
    (w : world) :
  storage_available_at E (instant w) = true ->
  (forall v w1,
     capture_func w = (Ok v, w1) ->
     safe_capture_operation E capture_func w
     = (Ok v, set_log (log w1 ++ [EvMessage "Saved!" 0x00FF00]) w1))
  /\ (forall e w1,
        capture_func w = (Raise e, w1) ->
        except_TypeError_RuntimeError_OSError e = true ->
        safe_capture_operation E capture_func w
        = (Ok (PyBool false),
           set_instant (S (instant w1))
             (set_log (log w1 ++ [EvMessage "Failed" 0xFF0000; EvSleep 500])
                w1)))
  /\ (forall e w1,
        capture_func w = (Raise e, w1) ->
        except_TypeError_RuntimeError_OSError e = false ->
        safe_capture_operation E capture_func w = (Raise e, w1)).
Proof.
  intros Hsd. unfold safe_capture_operation. run.
  rewrite is_sd_card_available_at, Hsd. run.
  split; [|split].
  - intros v w1 Hrun. rewrite Hrun. reflexivity.
  - intros e w1 Hrun Hcaught. rewrite Hrun.
    unfold except_TypeError_RuntimeError_OSError in Hcaught.
    destruct e; try discriminate Hcaught;
      world_norm; rewrite <- !app_assoc; reflexivity.
  - intros e w1 Hrun Hcaught. rewrite Hrun.
    unfold except_TypeError_RuntimeError_OSError in Hcaught.
    destruct e; try discriminate Hcaught; reflexivity.
Qed.

Lemma safe_capture_operation_contract_witness :
  let E := bench_env true bench_files (Returns PyNone) (fun _ => true)
             no_buttons None "JPEG" in
  fst (safe_capture_operation E (capture_jpeg E) (bench_world E)) = Ok PyNone
  /\ In (EvMessage "Saved!" 0x00FF00)
        (log (snd (safe_capture_operation E (capture_jpeg E) (bench_world E)))).
Proof.
  intros E.
  destruct (safe_capture_operation_contract E (capture_jpeg E) (bench_world E))
    as [Hok _].
  - reflexivity.
  - rewrite (Hok PyNone (snd (capture_jpeg E (bench_world E)))) by reflexivity.
    split; [reflexivity|]. cbn. auto.
Defined.

(** X3.  While no card is available a shutter event writes nothing, in
    every capture mode and whatever the press (long, short, both): the
    handler returns and none of its events creates, extends or closes a
    file. *)
Theorem shutter_without_card_never_writes (E : Env) (fuel : nat) (w : world) :
  (forall t, storage_available_at E t = false) ->
  exists w',
    handle_shutter_button E fuel w = (Ok tt, w')
    /\ existsb is_storage_write (emitted w w') = false.
Proof.
  intros Hsd.
  assert (Hquiet : forall evs w',
            log w' = (log w ++ evs)%list ->
            existsb is_storage_write evs = false ->
            existsb is_storage_write (emitted w w') = false).
  { intros evs w' Hlog Hq. rewrite (emitted_app w w' evs Hlog). exact Hq. }
  unfold handle_shutter_button, handle_stop_motion_capture,
    handle_gameboy_capture, handle_gif_capture, handle_jpeg_capture.
  run.
  destruct (shutter_long_press (keys (pycam w))); run;
    destruct (shutter_short_count (keys (pycam w)) =? 0); run;
    try destruct (String.eqb (mode_text (pycam w)) "STOP");
    try destruct (String.eqb (mode_text (pycam w)) "GBOY");
    try destruct (String.eqb (mode_text (pycam w)) "GIF");
    try destruct (String.eqb (mode_text (pycam w)) "JPEG");
    run;
    rewrite ?safe_capture_operation_without_storage by apply Hsd;
    run;
    (eexists; split; [reflexivity|]);
    (eapply Hquiet; [run; rewrite <- ?app_assoc; cbn [app]; try reflexivity;
                     rewrite <- (app_nil_r (log w)) at 1; reflexivity
                    | reflexivity]).
Qed.

Lemma shutter_without_card_never_writes_witness :
  let E := bench_env false [] (Returns PyNone) (fun _ => true)
             (mkButtons false false false false false false true 1)
             None "GIF" in
  let w := snd (keys_debounce E (bench_world E)) in
  exists w',
    handle_shutter_button E 0 w = (Ok tt, w')
    /\ existsb is_storage_write (emitted w w') = false.
Proof.
  intros E w. apply (shutter_without_card_never_writes E 0 w).
  intros t. reflexivity.
Defined.

(** X4.  A short shutter press is ignored in a mode that has no capture
    action (time-lapse, for one): with no long press pending the handler
    returns with the world exactly as it was. *)
Theorem shutter_ignored_without_capture_action (E : Env) (fuel : nat)
    (w : world) :
  ~ In (mode_text (pycam w)) ["STOP"; "GBOY"; "GIF"; "JPEG"] ->
  shutter_long_press (keys (pycam w)) = false ->
  handle_shutter_button E fuel w = (Ok tt, w).
Proof.
  intros Hmode Hlong. unfold handle_shutter_button. run. rewrite Hlong. run.
  destruct (shutter_short_count (keys (pycam w)) =? 0); run; [reflexivity|].
  repeat match goal with
         | |- context [String.eqb (mode_text (pycam w)) ?m] =>
             destruct (String.eqb_spec (mode_text (pycam w)) m) as [Heq|_];
             [exfalso; apply Hmode; rewrite Heq; cbn; tauto|]
         end.
  reflexivity.
Qed.

Lemma shutter_ignored_without_capture_action_witness :
  let E := bench_env true bench_files (Returns PyNone) (fun _ => true)
             (mkButtons false false false false false false false 2)
             None "LAPS" in
  let w := snd (keys_debounce E (bench_world E)) in
  shutter_short_count (keys (pycam w)) = 2
  /\ handle_shutter_button E 0 w = (Ok tt, w).
Proof.
  intros E w. split; [reflexivity|].
  apply (shutter_ignored_without_capture_action E 0 w).
  - cbn. intros [H|[H|[H|[H|[]]]]]; discriminate H.
  - reflexivity.
Defined.

(** X5.  The Game Boy shutter action with the card present writes a GIF of
    exactly one frame, the current [last_frame], shown for one second: the
    file is opened, the writer entered, the frame added, the writer left,
    "Saved!" shown.  The handler leaves the file to the writer and never
    calls [close] on it. *)
Theorem gameboy_capture_single_frame (E : Env) (w : world) :
  storage_available_at E (instant w) = true ->
  open_next_image_fault E (instant w) = None ->
  add_frame_fault E (instant w) = None ->
  exists w',
    handle_gameboy_capture E w = (Ok tt, w')
    /\ emitted w w'
       = [EvOpenNextImage "gif"; EvGifBegin; EvGifFrame (last_frame w) 100;
          EvGifEnd; EvMessage "Saved!" 0x00FF00]
    /\ existsb is_file_close (emitted w w') = false
    /\ last_frame w' = last_frame w.
Proof.
  intros Hsd Hopen Hadd.
  unfold handle_gameboy_capture, safe_capture_operation, capture_gameboy_gif.
  run. rewrite is_sd_card_available_at, Hsd. run.
  rewrite Hopen. run. rewrite Hadd. run.
  eexists. split; [reflexivity|].
  assert (Hem : forall w', log w' = (log w ++ [EvOpenNextImage "gif"; EvGifBegin;
                              EvGifFrame (last_frame w) 100; EvGifEnd;
                              EvMessage "Saved!" 0x00FF00])%list ->
                emitted w w' = [EvOpenNextImage "gif"; EvGifBegin;
                              EvGifFrame (last_frame w) 100; EvGifEnd;
                              EvMessage "Saved!" 0x00FF00]).
  { intros w'. apply emitted_app. }
  rewrite Hem by (run; rewrite <- !app_assoc; reflexivity).
  repeat split.
Qed.

Lemma gameboy_capture_single_frame_witness :
  let E := bench_env true bench_files (Returns PyNone) (fun _ => true)
             no_buttons None "GBOY" in
  exists w',
    handle_gameboy_capture E (bench_world E) = (Ok tt, w')
    /\ List.length (filter is_gif_frame (emitted (bench_world E) w')) = 1%nat.
Proof.
  intros E.
  destruct (gameboy_capture_single_frame E (bench_world E))
    as [w' [Hrun [Hem _]]].
  - reflexivity.
  - reflexivity.
  - reflexivity.
  - exists w'. split; [exact Hrun|]. rewrite Hem. reflexivity.
Defined.

(** The recording loop when appending frame [k] fails: [k] frames are on
    file and shown, the failing frame has been taken from the sensor, and
    the exception leaves the loop. *)
Lemma recording_loop_fails (E : Env) (e : exn) (k : nat) :
  forall (fuel : nat) (i : Z) (w : world),
    (k < fuel)%nat ->
    i + Z.of_nat k < 15 ->
    0 <= i ->
    (forall j, (j < k)%nat -> add_frame_fault E (S (j + instant w)) = None) ->
    add_frame_fault E (S (k + instant w)) = Some e ->
    (forall j, monotonic E j < monotonic E (S j)) ->
    recording_loop E fuel i (monotonic E (instant w)) w
    = (Raise e,
       set_instant (S (k + instant w))
         (set_log (log w ++ recorded_frames E (instant w) k) w)).
Proof.
  induction k as [|k IH]; intros fuel i w Hfuel Hi Hi0 Hadd Hfail Hmono;
    (destruct fuel as [|fuel]; [lia|]); cbn [recording_loop]; run;
    (destruct (Z.ltb_spec i 15) as [_|Hge]; [|lia]); run.
  - cbn [Nat.add] in Hfail. rewrite Hfail. run.
    unfold recorded_frames. cbn [seq flat_map]. rewrite app_nil_r.
    world_norm. reflexivity.
  - pose proof (Hadd O ltac:(lia)) as Hadd0. cbn [Nat.add] in Hadd0.
    rewrite Hadd0. run.
    pose proof (Hmono (instant w)) as Hstep.
    destruct (Z.eqb_spec (monotonic E (S (instant w)) - monotonic E (instant w)) 0)
      as [Heq|_]; [lia|]. run.
    match goal with
    | |- recording_loop E fuel (i + 1) _ ?w1 = _ =>
        pose proof (IH fuel (i + 1) w1) as IH1
    end.
    revert IH1. run. intros IH1. rewrite IH1.
    + rewrite !Nat.add_succ_r. cbn [Nat.add].
      world_norm. unfold recorded_frames. cbn [seq flat_map app].
      rewrite <- !app_assoc. reflexivity.
    + lia.
    + lia.
    + lia.
    + intros j Hj. rewrite Nat.add_succ_r. apply (Hadd (S j)). lia.
    + rewrite Nat.add_succ_r. exact Hfail.
    + exact Hmono.
Qed.

(** X6.  A recording cut short by a write error.  If appending frame [k]
    (one of the first 15) raises OSError, the shutter action still returns:
    the [k] frames before it are on file, the writer is left, "Failed" is
    shown.  But the handler's own tail is skipped: the file is not closed
    and the mode label still reads "RECORDING". *)
Theorem gif_capture_write_error (E : Env) (fuel k : nat) (w : world) :
  storage_available_at E (instant w) = true ->
  open_next_image_fault E (instant w) = None ->
  (k < 15)%nat ->
  (k < fuel)%nat ->
  (forall j, (j < k)%nat -> add_frame_fault E (S (j + instant w)) = None) ->
  add_frame_fault E (S (k + instant w)) = Some OSError ->
  (forall j, monotonic E j < monotonic E (S j)) ->
  exists w',
    handle_gif_capture E fuel w = (Ok tt, w')
    /\ emitted w w'
       = ([EvOpenNextImage "gif"; EvRefresh; EvGifBegin]
          ++ recorded_frames E (instant w) k
          ++ [EvGifEnd; EvMessage "Failed" 0xFF0000; EvSleep 500])%list
    /\ existsb is_file_close (emitted w w') = false
    /\ mode_label_text (pycam w') = "RECORDING".
Proof.
  intros Hsd Hopen Hk Hfuel Hadd Hfail Hmono.
  unfold handle_gif_capture, safe_capture_operation, capture_animated_gif.
  run. rewrite is_sd_card_available_at, Hsd. run. rewrite Hopen. run.
  match goal with
  | |- context [recording_loop E fuel 0 _ ?w1] =>
      pose proof (recording_loop_fails E OSError k fuel 0 w1) as Hloop
  end.
  revert Hloop. run. intros Hloop.
  rewrite Hloop by (try assumption; lia). run.
  eexists. split; [reflexivity|].
  assert (Hem : forall w',
            log w' = (log w ++ [EvOpenNextImage "gif"; EvRefresh; EvGifBegin]
                      ++ recorded_frames E (instant w) k
                      ++ [EvGifEnd; EvMessage "Failed" 0xFF0000; EvSleep 500])%list ->
            emitted w w'
            = ([EvOpenNextImage "gif"; EvRefresh; EvGifBegin]
               ++ recorded_frames E (instant w) k
               ++ [EvGifEnd; EvMessage "Failed" 0xFF0000; EvSleep 500])%list).
  { intros w'. apply emitted_app. }
  rewrite Hem by (run; rewrite <- !app_assoc; reflexivity).
  split; [reflexivity|]. split; [|reflexivity].
  cbn [app existsb is_file_close orb]. rewrite existsb_app.
  cbn [existsb is_file_close orb]. rewrite Bool.orb_false_r.
  destruct (recorded_frames_count E k (instant w)) as [_ Hnone].
  destruct (existsb is_file_close (recorded_frames E (instant w) k)) eqn:Hex;
    [|reflexivity].
  apply existsb_exists in Hex. destruct Hex as [x [Hin Hx]].
  assert (In x (filter is_file_close (recorded_frames E (instant w) k)))
    by (apply filter_In; auto).
  rewrite Hnone in H. destruct H.
Qed.

Lemma gif_capture_write_error_witness :
  let E0 := bench_env true bench_files (Returns PyNone) (fun _ => true)
              no_buttons None "GIF" in
  let E := mkEnv (camera_width E0) (camera_height E0) (display_width E0)
             (display_height E0) (timelapse_rates E0) (sensor E0) (clock E0)
             (monotonic E0) (shutter_button_value E0) (debounced_keys E0)
             (fs_listdir E0) (fs_statvfs_bavail E0) (fs_stat_size E0)
             (capture_jpeg_outcome E0) (open_next_image_fault E0)
             (fun t => if (t =? 3)%nat then Some OSError else None)
             (JpegDecoder_fault E0) (jpeg_open E0) (jpeg_decode E0)
             (imageload_load E0) (Bitmap_fault E0) (pycam_getattr E0)
             (pycam_setattr E0) (get_battery_percent E0) (pycam_initial E0) in
  exists w',
    handle_gif_capture E 20 (bench_world E) = (Ok tt, w')
    /\ existsb is_file_close (emitted (bench_world E) w') = false
    /\ mode_label_text (pycam w') = "RECORDING".
Proof.
  intros E0 E.
  destruct (gif_capture_write_error E 20 2 (bench_world E))
    as [w' [Hrun [_ [Hclose Hlabel]]]].
  - reflexivity.
  - reflexivity.
  - lia.
  - lia.
  - intros j Hj. assert (j = 0 \/ j = 1)%nat as [-> | ->] by lia; reflexivity.
  - reflexivity.
  - intros j. cbn. lia.
  - exists w'. repeat split; assumption.
Defined.

(* ================================================================= *)
(** ** Starting, idling and stopping a time-lapse *)

(** X7.  In time-lapse mode the OK button starts a stopped time-lapse and
    stops a running one.  Starting arms the first fire at now + interval + 1
    and locks exposure, gain and white balance; stopping hands them back to
    automatic.  After a start and a stop the world is as before, apart
    from the log and the fire time, which stopping does not clear. *)
Theorem ok_button_start_then_stop (E : Env) (w : world) (interval : Z) :
  mode_text (pycam w) = "LAPS" ->
  timelapse_remaining w = None ->
  py_index (timelapse_rates E) (timelapse_rate (pycam w)) = Returns interval ->
  exists w1 w2,
    handle_ok_button E w = (Ok tt, w1)
    /\ timelapse_remaining w1 = Some interval
    /\ timelapse_timestamp w1 = Some (clock E (instant w) + interval + 1)
    /\ emitted w w1 = [EvLockExposure]
    /\ handle_ok_button E w1 = (Ok tt, w2)
    /\ emitted w1 w2 = [EvAutoExposure]
    /\ w2 = set_log (log w ++ [EvLockExposure; EvAutoExposure])
              (set_timelapse_timestamp
                 (Some (clock E (instant w) + interval + 1)) w).
Proof.
  intros Hmode Hstopped Hrate.
  assert (Hstart : handle_ok_button E w
                   = (Ok tt,
                      set_log (log w ++ [EvLockExposure])
                        (set_timelapse_timestamp
                           (Some (clock E (instant w) + interval + 1))
                           (set_timelapse_remaining (Some interval) w)))).
  { unfold handle_ok_button. run. rewrite Hmode, Hstopped.
    cbn [String.eqb Ascii.eqb Bool.eqb]. run. rewrite Hrate. run.
    reflexivity. }
  eexists. eexists. split; [exact Hstart|]. run.
  split; [reflexivity|]. split; [reflexivity|].
  split; [apply emitted_app; reflexivity|].
  assert (Hstop : forall w1,
            mode_text (pycam w1) = "LAPS" ->
            timelapse_remaining w1 = Some interval ->
            handle_ok_button E w1
            = (Ok tt, set_log (log w1 ++ [EvAutoExposure])
                        (set_timelapse_remaining None w1))).
  { intros w1 Hm Hr. unfold handle_ok_button. run. rewrite Hm, Hr.
    cbn [String.eqb Ascii.eqb Bool.eqb]. run. reflexivity. }
  rewrite Hstop by (run; auto). run.
  split; [reflexivity|]. split; [apply emitted_app; reflexivity|].
  world_norm. rewrite <- !app_assoc, <- Hstopped. destruct w; reflexivity.
Qed.

Lemma ok_button_start_then_stop_witness :
  let E := bench_env true bench_files (Returns PyNone) (fun _ => true)
             no_buttons None "LAPS" in
  exists w1 w2,
    handle_ok_button E (bench_world E) = (Ok tt, w1)
    /\ timelapse_remaining w1 = Some 5
    /\ handle_ok_button E w1 = (Ok tt, w2)
    /\ timelapse_remaining w2 = None.
Proof.
  intros E.
  destruct (ok_button_start_then_stop E (bench_world E) 5)
    as [w1 [w2 [H1 [Hr [_ [_ [H2 [_ Hw2]]]]]]]].
  - reflexivity.
  - reflexivity.
  - reflexivity.
  - exists w1, w2. repeat split; try assumption. rewrite Hw2. reflexivity.
Defined.

(** X8.  A tick of a stopped time-lapse is a plain preview: the status
    label reads "STOP", one sensor frame is shown at full brightness, and
    nothing is captured, scheduled or written. *)
Theorem timelapse_stopped_tick (E : Env) (w : world) :
  timelapse_remaining w = None ->
  exists w',
    handle_timelapse_mode E w = (Ok tt, w')
    /\ emitted w w'
       = [EvBlit (sensor E (instant w)); EvBrightness 100; EvRefresh]
    /\ timelapsestatus_label_text (pycam w') = "STOP"
    /\ timelapse_remaining w' = None
    /\ timelapse_timestamp w' = timelapse_timestamp w.
Proof.
  intros Hstopped. unfold handle_timelapse_mode. run. rewrite Hstopped. run.
  rewrite Hstopped. run.
  destruct (String.eqb (timelapse_submode_label_text (pycam w)) "LowPwr"); run;
    (eexists; split; [reflexivity|]; run; split;
     [apply emitted_app; run; rewrite <- !app_assoc; reflexivity
     | repeat split; assumption]).
Qed.

Lemma timelapse_stopped_tick_witness :
  let E := bench_env true bench_files (Returns PyNone) (fun _ => true)
             no_buttons None "LAPS" in
  exists w',
    handle_timelapse_mode E (bench_world E) = (Ok tt, w')
    /\ existsb is_storage_write (emitted (bench_world E) w') = false.
Proof.
  intros E.
  destruct (timelapse_stopped_tick E (bench_world E)) as [w' [Hrun [Hem _]]].
  - reflexivity.
  - exists w'. split; [exact Hrun|]. rewrite Hem. reflexivity.
Defined.

(** X9.  A tick of a running time-lapse that is not yet due only counts
    down: the remaining time becomes fire time minus now, the fire time
    stays, nothing is captured.  In "LowPwr" the display is dimmed to 5%
    and no sensor frame is fetched; in "HiPwr" one frame is shown at full
    brightness. *)
Theorem timelapse_waiting_tick (E : Env) (w : world)
    (remaining timestamp : Z) :
  timelapse_remaining w = Some remaining ->
  timelapse_timestamp w = Some timestamp ->
  0 < timestamp - clock E (instant w) ->
  exists w',
    handle_timelapse_mode E w = (Ok tt, w')
    /\ timelapse_remaining w' = Some (timestamp - clock E (instant w))
    /\ timelapse_timestamp w' = Some timestamp
    /\ existsb is_storage_write (emitted w w') = false
    /\ (timelapse_submode_label_text (pycam w) = "LowPwr" ->
        emitted w w' = [EvBrightness 5; EvRefresh]
        /\ instant w' = instant w)
    /\ (timelapse_submode_label_text (pycam w) = "HiPwr" ->
        emitted w w'
        = [EvBlit (sensor E (instant w)); EvBrightness 100; EvRefresh]).
Proof.
  intros Hrem Hts Hwait. unfold handle_timelapse_mode. run.
  rewrite Hrem, Hts. run.
  destruct (Z.leb_spec (timestamp - clock E (instant w)) 0) as [Hle|_]; [lia|].
  destruct (String.eqb_spec (timelapse_submode_label_text (pycam w)) "HiPwr")
    as [Hhi|Hhi];
    destruct (String.eqb_spec (timelapse_submode_label_text (pycam w)) "LowPwr")
      as [Hlo|Hlo];
    run;
    (eexists; split; [reflexivity|]; run;
     split; [reflexivity|]; split; [assumption|]);
    match goal with
    | |- context [emitted w ?w1] =>
        let evs := fresh "evs" in
        evar (evs : list event);
        assert (Hem : emitted w w1 = evs)
          by (apply emitted_app; run; rewrite <- ?app_assoc;
              subst evs; reflexivity);
        subst evs; rewrite !Hem
    end;
    (split; [reflexivity|]);
    (split; intros H; try congruence; try (split; reflexivity);
     try reflexivity).
Qed.

Lemma timelapse_waiting_tick_witness :
  let E := bench_env true bench_files (Returns PyNone) (fun _ => true)
             no_buttons None "LAPS" in
  let w := set_timelapse_timestamp (Some 6)
             (set_timelapse_remaining (Some 5) (bench_world E)) in
  exists w',
    handle_timelapse_mode E w = (Ok tt, w')
    /\ timelapse_remaining w' = Some 6
    /\ timelapse_timestamp w' = Some 6.
Proof.
  intros E w.
  destruct (timelapse_waiting_tick E w 5 6) as [w' [Hrun [Hr [Ht _]]]].
  - reflexivity.
  - reflexivity.
  - cbn. lia.
  - exists w'. repeat split; assumption.
Defined.

(* ================================================================= *)
(** ** The settings cursor *)

Lemma settle_after_move (w : world) (c : Z) :
  0 <= c < 7 ->
  exists key,
    py_index SETTINGS (settle_cursor (mode_text (pycam w)) c) = Returns key
    /\ skip_timelapse_rate (set_curr_setting c w)
       = (Ok tt, set_curr_setting (settle_cursor (mode_text (pycam w)) c) w)
    /\ select_current_setting
         (set_curr_setting (settle_cursor (mode_text (pycam w)) c) w)
       = (Ok tt,
          set_log (log w ++ [EvSelectSetting key])
            (set_curr_setting (settle_cursor (mode_text (pycam w)) c) w)).
Proof.
  intros Hc. unfold skip_timelapse_rate, select_current_setting, settle_cursor.
  run.
  assert (c = 0 \/ c = 1 \/ c = 2 \/ c = 3 \/ c = 4 \/ c = 5 \/ c = 6)
    as [->|[->|[->|[->|[->|[->| ->]]]]]] by lia;
    destruct (String.eqb (mode_text (pycam w)) "LAPS");
    (eexists; repeat split; reflexivity).
Qed.

(** A press of Right or Left alone: where the cursor goes and what is
    selected. *)
Lemma navigation_press (E : Env) (w : world) :
  (keys (pycam w) = right_only \/ keys (pycam w) = left_only) ->
  exists key,
    py_index SETTINGS
      (settle_cursor (mode_text (pycam w))
         (if right_fell (keys (pycam w)) then (curr_setting w + 1) mod 7
          else (curr_setting w - 1 + 7) mod 7)) = Returns key
    /\ handle_navigation_buttons E w
       = (Ok tt,
          set_log (log w ++ [EvSelectSetting key])
            (set_curr_setting
               (settle_cursor (mode_text (pycam w))
                  (if right_fell (keys (pycam w))
                   then (curr_setting w + 1) mod 7
                   else (curr_setting w - 1 + 7) mod 7)) w)).
Proof.
  intros Hkeys.
  set (moved := if right_fell (keys (pycam w)) then (curr_setting w + 1) mod 7
                else (curr_setting w - 1 + 7) mod 7).
  assert (Hmoved : 0 <= moved < 7).
  { subst moved. destruct (right_fell (keys (pycam w)));
      apply Z.mod_pos_bound; lia. }
  destruct (settle_after_move w moved Hmoved) as [key [Hkey [Hskip Hsel]]].
  exists key. split; [exact Hkey|].
  unfold handle_navigation_buttons. subst moved.
  destruct Hkeys as [Hk|Hk];
    rewrite Hk in Hskip, Hsel |- *;
    unfold right_only, left_only in Hskip, Hsel |- *;
    cbn [right_fell] in Hskip, Hsel |- *; run;
    repeat (rewrite Hk; unfold right_only, left_only; run);
    change len_SETTINGS with 7;
    rewrite Hskip; run; rewrite Hsel; run;
    repeat (rewrite Hk; unfold right_only, left_only; run);
    reflexivity.
Qed.

(** X10.  One press of Right or Left moves the settings cursor by one
    around the seven entries and then lets it settle: it always ends in
    0..6, and outside time-lapse mode never on the time-lapse rate
    (entry 6).  Both directions pass over that entry forwards, so outside
    time-lapse mode Left at entry 0 goes to 6 and settles back on 0. *)
Theorem settings_cursor_step (E : Env) (w : world) :
  (keys (pycam w) = right_only \/ keys (pycam w) = left_only) ->
  let moved :=
    if right_fell (keys (pycam w)) then (curr_setting w + 1) mod 7
    else (curr_setting w - 1 + 7) mod 7 in
  exists w' key,
    handle_navigation_buttons E w = (Ok tt, w')
    /\ curr_setting w' = settle_cursor (mode_text (pycam w)) moved
    /\ 0 <= curr_setting w' < 7
    /\ (mode_text (pycam w) <> "LAPS" -> curr_setting w' <> 6)
    /\ (mode_text (pycam w) <> "LAPS" ->
        keys (pycam w) = left_only -> curr_setting w = 0 ->
        curr_setting w' = 0)
    /\ py_index SETTINGS (curr_setting w') = Returns key
    /\ w' = set_log (log w ++ [EvSelectSetting key])
              (set_curr_setting (curr_setting w') w).
Proof.
  intros Hkeys moved.
  assert (Hmoved : 0 <= moved < 7).
  { subst moved. destruct (right_fell (keys (pycam w)));
      apply Z.mod_pos_bound; lia. }
  destruct (navigation_press E w Hkeys) as [key [Hkey Hstep]].
  fold moved in Hkey, Hstep.
  exists (set_log (log w ++ [EvSelectSetting key])
            (set_curr_setting (settle_cursor (mode_text (pycam w)) moved) w)),
    key.
  split; [exact Hstep|]. run.
  assert (Hrange : 0 <= settle_cursor (mode_text (pycam w)) moved < 7).
  { unfold settle_cursor.
    destruct (negb (String.eqb (mode_text (pycam w)) "LAPS") && (moved =? 6));
      lia. }
  split; [reflexivity|]. split; [exact Hrange|].
  split; [|split; [|split; [exact Hkey | world_norm; reflexivity]]].
  - intros Hmode. apply String.eqb_neq in Hmode. unfold settle_cursor.
    rewrite Hmode. cbn [negb andb].
    destruct (Z.eqb_spec moved 6); lia.
  - intros Hmode Hleft H0. apply String.eqb_neq in Hmode.
    unfold settle_cursor. rewrite Hmode. subst moved.
    rewrite Hleft, H0. reflexivity.
Qed.

Lemma settings_cursor_step_witness :
  let E := bench_env true bench_files (Returns PyNone) (fun _ => true)
             left_only None "JPEG" in
  let w := snd (keys_debounce E (bench_world E)) in
  exists w',
    handle_navigation_buttons E w = (Ok tt, w')
    /\ curr_setting w = 0 /\ curr_setting w' = 0.
Proof.
  intros E w.
  destruct (settings_cursor_step E w) as [w' [key [Hrun [_ [_ [_ [Hstuck _]]]]]]].
  - right. reflexivity.
  - exists w'. split; [exact Hrun|]. split; [reflexivity|].
    apply Hstuck; [discriminate | reflexivity | reflexivity].
Defined.

Lemma repeat_right_presses (E : Env) (k : nat) :
  forall w,
    keys (pycam w) = right_only ->
    let period := if String.eqb (mode_text (pycam w)) "LAPS" then 7 else 6 in
    0 <= curr_setting w < period ->
    exists w',
      repeat_m k (handle_navigation_buttons E) w = (Ok tt, w')
      /\ curr_setting w' = (curr_setting w + Z.of_nat k) mod period
      /\ pycam w' = pycam w.
Proof.
  induction k as [|k IH]; intros w Hk period Hc.
  - exists w. cbn [repeat_m]. run. repeat split.
    rewrite Z.add_0_r. symmetry. apply Z.mod_small. exact Hc.
  - cbn [repeat_m]. run.
    destruct (navigation_press E w (or_introl Hk)) as [key [_ Hstep]].
    rewrite Hstep. rewrite Hk in *. cbn [right_fell right_only] in *.
    match goal with
    | |- context [repeat_m k _ ?w1] =>
        destruct (IH w1) as [w' [Hrun [Hx Hp]]]; [exact Hk | |]
    end.
    + run. fold period. unfold settle_cursor. subst period.
      destruct (String.eqb (mode_text (pycam w)) "LAPS"); cbn [negb andb].
      * apply Z.mod_pos_bound. lia.
      * destruct (Z.eqb_spec ((curr_setting w + 1) mod 7) 6) as [H6|H6];
          [lia|].
        pose proof (Z.mod_pos_bound (curr_setting w + 1) 7 ltac:(lia)).
        lia.
    + rewrite Hrun. exists w'. split; [reflexivity|].
      revert Hx Hp. run. fold period. intros Hx Hp. split; [|exact Hp].
      rewrite Hx. unfold settle_cursor. subst period.
      destruct (String.eqb (mode_text (pycam w)) "LAPS"); cbn [negb andb].
      * rewrite Zplus_mod_idemp_l. f_equal. lia.
      * rewrite (Z.mod_small (curr_setting w + 1) 7) by lia.
        destruct (Z.eqb_spec (curr_setting w + 1) 6) as [H6|H6].
        -- replace (curr_setting w + Z.of_nat (S k))
             with (Z.of_nat k + 1 * 6) by lia.
           rewrite Z.mod_add by lia. reflexivity.
        -- f_equal. lia.
Qed.

(** X11.  Right walks a closed cycle: outside time-lapse mode six presses
    bring the cursor back to where it was (the time-lapse rate is not on
    the round), in time-lapse mode seven do. *)
Theorem settings_right_cycle (E : Env) (w : world) :
  keys (pycam w) = right_only ->
  let period := if String.eqb (mode_text (pycam w)) "LAPS" then 7 else 6 in
  0 <= curr_setting w < period ->
  exists w',
    repeat_m (Z.to_nat period) (handle_navigation_buttons E) w = (Ok tt, w')
    /\ curr_setting w' = curr_setting w.
Proof.
  intros Hk period Hc.
  destruct (repeat_right_presses E (Z.to_nat period) w Hk Hc)
    as [w' [Hrun [Hx _]]].
  exists w'. split; [exact Hrun|]. rewrite Hx. fold period.
  assert (Hp : 0 < period)
    by (subst period; destruct (String.eqb (mode_text (pycam w)) "LAPS"); lia).
  rewrite Z2Nat.id by lia.
  replace (curr_setting w + period) with (curr_setting w + 1 * period) by lia.
  rewrite Z.mod_add by lia. apply Z.mod_small. exact Hc.
Qed.

Lemma settings_right_cycle_witness :
  let E := bench_env true bench_files (Returns PyNone) (fun _ => true)
             right_only None "JPEG" in
  let w := set_curr_setting 3 (snd (keys_debounce E (bench_world E))) in
  exists w',
    repeat_m 6 (handle_navigation_buttons E) w = (Ok tt, w')
    /\ curr_setting w' = 3.
Proof.
  intros E w. apply (settings_right_cycle E w).
  - reflexivity.
  - cbn. lia.
Defined.

(* ================================================================= *)
(** ** What browsing never does *)

Lemma display_only_refl (w : world) : display_only w w.
Proof.
  unfold display_only. repeat split.
  exists []. rewrite app_nil_r. split; reflexivity.
Qed.

Lemma display_only_trans (w1 w2 w3 : world) :
  display_only w1 w2 -> display_only w2 w3 -> display_only w1 w3.
Proof.
  unfold display_only.
  intros [[e1 [Hl1 Hq1]] H1] [[e2 [Hl2 Hq2]] H2]. split.
  - exists (e1 ++ e2)%list. rewrite Hl2, Hl1, app_assoc. split; [reflexivity|].
    rewrite existsb_app, Hq1, Hq2. reflexivity.
  - intuition congruence.
Qed.

Lemma browses_ret {A : Type} (a : A) : browses (ret a).
Proof. intros w. apply display_only_refl. Qed.

Lemma browses_raise {A : Type} (e : exn) : browses (@raise A e).
Proof. intros w. apply display_only_refl. Qed.

Lemma browses_get : browses get.
Proof. intros w. apply display_only_refl. Qed.

Lemma browses_lift {A : Type} (r : outcome A) : browses (lift r).
Proof. intros w. destruct r; apply display_only_refl. Qed.

Lemma browses_bind {A B : Type} (m : M A) (k : A -> M B) :
  browses m -> (forall a, browses (k a)) -> browses (bind m k).
Proof.
  intros Hm Hk w. unfold bind. specialize (Hm w).
  destruct (m w) as [[a|e|] w1]; cbn [snd] in *; try exact Hm.
  eapply display_only_trans; [exact Hm | apply Hk].
Qed.

Lemma browses_try_except {A : Type} (body : M A) (catches : exn -> bool)
    (handler : M A) :
  browses body -> browses handler -> browses (try_except body catches handler).
Proof.
  intros Hb Hh w. unfold try_except. specialize (Hb w).
  destruct (body w) as [[a|e|] w1]; cbn [snd] in *; try exact Hb.
  destruct (catches e); cbn [snd]; [|exact Hb].
  eapply display_only_trans; [exact Hb | apply Hh].
Qed.

Lemma browses_when (c : bool) (m : M unit) : browses m -> browses (when c m).
Proof. intros Hm. destruct c; [exact Hm | apply browses_ret]. Qed.

Lemma browses_for_each {A : Type} (l : list A) (body : A -> M unit) :
  (forall x, browses (body x)) -> browses (for_each l body).
Proof.
  intros Hb. induction l as [|x l IH]; cbn [for_each].
  - apply browses_ret.
  - apply browses_bind; [apply Hb | intros _; exact IH].
Qed.

Lemma browses_emit (e : event) :
  is_storage_write e = false -> browses (emit e).
Proof.
  intros He w. unfold emit. run. unfold display_only. run. repeat split.
  exists [e]. split; [reflexivity|]. cbn [existsb]. rewrite He. reflexivity.
Qed.

(** An update of the gallery session, of [pycam] or of the clock is
    display activity. *)
Lemma browses_modify (f : world -> world) :
  (forall w, log (f w) = log w /\ last_frame (f w) = last_frame w
             /\ onionskin (f w) = onionskin w
             /\ timelapse_remaining (f w) = timelapse_remaining w
             /\ timelapse_timestamp (f w) = timelapse_timestamp w
             /\ curr_setting (f w) = curr_setting w
             /\ jpeg_decoder (f w) = jpeg_decoder w) ->
  browses (modify f).
Proof.
  intros Hf w. unfold modify. cbn [snd]. destruct (Hf w) as [Hl H].
  unfold display_only. split; [|exact H].
  exists []. rewrite app_nil_r. split; [exact Hl | reflexivity].
Qed.

Ltac browse_step :=
  match goal with
  | |- browses (bind _ _) => apply browses_bind; [|intro]
  | |- browses (ret _) => apply browses_ret
  | |- browses (raise _) => apply browses_raise
  | |- browses get => apply browses_get
  | |- browses (lift _) => apply browses_lift
  | |- browses (when _ _) => apply browses_when
  | |- browses (try_except _ _ _) => apply browses_try_except
  | |- browses (for_each _ _) => apply browses_for_each; intro
  | |- browses (emit _) => apply browses_emit; reflexivity
  | |- browses (modify _) =>
      apply browses_modify; intro; cbn; repeat split; reflexivity
  | |- browses (if ?c then _ else _) => destruct c
  | |- browses (match ?x with _ => _ end) => destruct x
  end.

Ltac browse := repeat browse_step.

Lemma browses_is_sd_card_available (E : Env) : browses (is_sd_card_available E).
Proof. intros w. rewrite is_sd_card_available_at. apply display_only_refl. Qed.

Lemma browses_load_image_file (E : Env) (filename : string) :
  browses (load_image_file E filename).
Proof.
  intros w. destruct (load_image_file_pure E filename w) as [r Hr].
  rewrite Hr. apply display_only_refl.
Qed.

Lemma browses_scan_gallery_images (E : Env) : browses (scan_gallery_images E).
Proof.
  intros w. rewrite scan_gallery_images_total. cbn [snd].
  unfold display_only. cbn. repeat split.
  exists []. rewrite app_nil_r. split; reflexivity.
Qed.

Lemma browses_time_sleep (ms : Z) : browses (time_sleep ms).
Proof. unfold time_sleep, advance. browse. Qed.

Lemma browses_display_message (text : string) (color : Z) :
  browses (display_message text color).
Proof. unfold display_message. browse. Qed.

Lemma browses_blacken (E : Env) : browses (blacken_gallery_image_buffer E).
Proof.
  unfold blacken_gallery_image_buffer, blacken_pixel. browse.
Qed.

Ltac browse_known :=
  match goal with
  | |- browses (is_sd_card_available _) => apply browses_is_sd_card_available
  | |- browses (load_image_file _ _) => apply browses_load_image_file
  | |- browses (scan_gallery_images _) => apply browses_scan_gallery_images
  | |- browses (time_sleep _) => apply browses_time_sleep
  | |- browses (display_message _ _) => apply browses_display_message
  | |- browses (blacken_gallery_image_buffer _) => apply browses_blacken
  | |- browses display_refresh => unfold display_refresh
  | |- browses live_preview_mode => unfold live_preview_mode
  | |- browses (blit _) => unfold blit
  | |- browses (os_stat_size _ _) => unfold os_stat_size
  | |- browses (displayio_Bitmap _ _ _) => unfold displayio_Bitmap
  | |- browses (bump_attribute _ _ _) => unfold bump_attribute
  | _ => browse_step
  end.

Lemma browses_exit_gallery_mode (E : Env) : browses (exit_gallery_mode E).
Proof.
  unfold exit_gallery_mode, cleanup_gallery_display. repeat browse_known.
Qed.

Lemma browses_show_image_info_fallback (E : Env) (filename : string) :
  browses (show_image_info_fallback E filename).
Proof. unfold show_image_info_fallback. repeat browse_known. Qed.

Lemma browses_display_current_image (E : Env) :
  browses (display_current_image E).
Proof.
  unfold display_current_image.
  repeat match goal with
         | |- browses (show_image_info_fallback _ _) =>
             apply browses_show_image_info_fallback
         | _ => browse_known
         end.
Qed.

Lemma browses_enter_gallery_mode (E : Env) : browses (enter_gallery_mode E).
Proof.
  unfold enter_gallery_mode.
  repeat match goal with
         | |- browses (display_current_image _) =>
             apply browses_display_current_image
         | |- browses (exit_gallery_mode _) => apply browses_exit_gallery_mode
         | _ => browse_known
         end.
Qed.

Lemma browses_handle_select_button (E : Env) : browses (handle_select_button E).
Proof.
  unfold handle_select_button.
  repeat match goal with
         | |- browses (enter_gallery_mode _) => apply browses_enter_gallery_mode
         | |- browses (exit_gallery_mode _) => apply browses_exit_gallery_mode
         | _ => browse_known
         end.
Qed.

Lemma browses_handle_gallery_buttons (E : Env) :
  browses (handle_gallery_buttons E).
Proof.
  unfold handle_gallery_buttons, gallery_navigate, gallery_zoom_in,
    gallery_zoom_out.
  repeat match goal with
         | |- browses (handle_select_button _) =>
             apply browses_handle_select_button
         | |- browses (display_current_image _) =>
             apply browses_display_current_image
         | |- browses (exit_gallery_mode _) => apply browses_exit_gallery_mode
         | _ => browse_known
         end.
Qed.

(** X12.  A tick spent in the gallery is display activity only.  Whatever
    buttons are down, whatever the card and the codecs do, and however the
    tick ends, [handle_all_buttons] started in gallery mode adds no event
    that creates, extends or closes a file, and leaves the frame buffers,
    the time-lapse state, the settings cursor and the decoder as they
    were. *)
Theorem gallery_tick_is_display_only (E : Env) (fuel : nat) (w : world) :
  gallery_mode w = true ->
  display_only w (snd (handle_all_buttons E fuel w)).
Proof.
  intros Hon.
  assert (H : browses (keys_debounce E ;; handle_gallery_buttons E)).
  { unfold keys_debounce. browse. apply browses_handle_gallery_buttons. }
  specialize (H w). revert H.
  unfold handle_all_buttons, keys_debounce. run. rewrite Hon. run.
  intros H. exact H.
Qed.

Lemma gallery_tick_is_display_only_witness :
  let E := bench_env true bench_files (Returns PyNone) (fun _ => true)
             (mkButtons true true true true true true true 1)
             None "JPEG" in
  let w := set_gallery_images ["B.JPG"; "a.gif"]
             (set_gallery_mode true (bench_world E)) in
  display_only w (snd (handle_all_buttons E 0 w)).
Proof.
  intros E w. apply (gallery_tick_is_display_only E 0 w). reflexivity.
Defined.

(* ================================================================= *)
(** ** Leaving the gallery *)

(** X13.  When the card has gone while the gallery is open, the next tick
    ends the session whatever buttons are down: it shows "SD Card Removed",
    leaves through [exit_gallery_mode] and handles no button. *)
Theorem gallery_card_removed_forces_exit (E : Env) (fuel : nat) (w : world) :
  gallery_mode w = true ->
  storage_available_at E (instant w) = false ->
  buffer_ready E w ->
  exists w',
    handle_all_buttons E fuel w = (Ok tt, w')
    /\ gallery_mode w' = false
    /\ gallery_images w' = []
    /\ gallery_index w' = 0
    /\ gallery_zoom_level w' = gallery_zoom_level w
    /\ emitted w w'
       = [EvMessage ("SD Card" ++ newline ++ "Removed") 0xFF0000; EvSleep 1000;
          EvGcCollect; EvLivePreview; EvRefresh; EvSleep 200; EvRefresh;
          EvSleep 100; EvRefresh; EvMessage "Camera Mode" 0x00FF00;
          EvSleep 500].
Proof.
  intros Hon Hsd Hready.
  unfold handle_all_buttons, keys_debounce, handle_gallery_buttons. run.
  rewrite Hon. run. rewrite is_sd_card_available_at. run. rewrite Hsd. run.
  match goal with
  | |- context [exit_gallery_mode E ?w1] =>
      destruct (exit_gallery_mode_spec E w1)
        as [w' [Hrun [Hm [Hi [Hx [Hz [_ [_ [_ Hlog]]]]]]]]];
      [ destruct Hready as [b Hb]; exists b; exact Hb | rewrite Hrun ]
  end.
  revert Hz Hlog. run. intros Hz Hlog.
  exists w'. repeat split; try assumption.
  apply emitted_app. rewrite Hlog, <- !app_assoc. reflexivity.
Qed.

Lemma gallery_card_removed_forces_exit_witness :
  let E := bench_env false [] (Returns PyNone) (fun _ => true)
             (mkButtons true true true true false true true 3)
             None "JPEG" in
  let w := set_gallery_index 1
             (set_gallery_images ["B.JPG"; "a.gif"]
                (set_gallery_mode true (bench_world E))) in
  exists w',
    handle_all_buttons E 0 w = (Ok tt, w')
    /\ gallery_mode w' = false /\ gallery_images w' = [].
Proof.
  intros E w.
  destruct (gallery_card_removed_forces_exit E 0 w)
    as [w' [Hrun [Hm [Hi _]]]].
  - reflexivity.
  - reflexivity.
  - exists (mkBitmap 2 1 [0; 0]). cbn. repeat split; lia.
  - exists w'. repeat split; assumption.
Defined.

(** X14.  With the card present, a short shutter press in the gallery
    (and no other button) closes it: the session is off and empty
    afterwards, and nothing is captured. *)
Theorem gallery_shutter_exits (E : Env) (fuel : nat) (w : world) (count : Z) :
  gallery_mode w = true ->
  storage_available_at E (instant w) = true ->
  buffer_ready E w ->
  count <> 0 ->
  debounced_keys E (instant w)
  = mkButtons false false false false false false false count ->
  exists w',
    handle_all_buttons E fuel w = (Ok tt, w')
    /\ gallery_mode w' = false
    /\ gallery_images w' = []
    /\ existsb is_storage_write (emitted w w') = false
    /\ last_frame w' = last_frame w.
Proof.
  intros Hon Hsd Hready Hcount Hkeys.
  unfold handle_all_buttons, keys_debounce, handle_gallery_buttons. run.
  rewrite Hon, Hkeys. run. rewrite is_sd_card_available_at. run.
  rewrite Hsd. run.
  destruct (Z.eqb_spec count 0) as [H0|_]; [contradiction|]. run.
  match goal with
  | |- context [exit_gallery_mode E ?w1] =>
      destruct (exit_gallery_mode_spec E w1)
        as [w' [Hrun [Hm [Hi [_ [_ [_ [_ [Hk Hlog]]]]]]]]];
      [ destruct Hready as [b Hb]; exists b; exact Hb | rewrite Hrun ]
  end.
  revert Hk Hlog. run. intros Hk Hlog.
  repeat (rewrite Hk; run).
  pose proof (browses_exit_gallery_mode E
                (set_pycam
                   (set_keys
                      (mkButtons false false false false false false false
                         count) (pycam w)) w)) as Hq.
  rewrite Hrun in Hq. cbn [snd] in Hq.
  destruct Hq as [_ [Hlast _]].
  exists w'. repeat split; try assumption.
  rewrite (emitted_app w w' _ Hlog). reflexivity.
Qed.

Lemma gallery_shutter_exits_witness :
  let E := bench_env true bench_files (Returns PyNone) (fun _ => true)
             (mkButtons false false false false false false false 1)
             None "JPEG" in
  let w := set_gallery_images ["B.JPG"; "a.gif"]
             (set_gallery_mode true (bench_world E)) in
  exists w',
    handle_all_buttons E 0 w = (Ok tt, w') /\ gallery_mode w' = false.
Proof.
  intros E w.
  destruct (gallery_shutter_exits E 0 w 1) as [w' [Hrun [Hm _]]].
  - reflexivity.
  - reflexivity.
  - exists (mkBitmap 2 1 [0; 0]). cbn. repeat split; lia.
  - discriminate.
  - reflexivity.
  - exists w'. split; assumption.
Defined.

(* ================================================================= *)
(** ** Placing a decoded image *)

(** X15.  When the current file decodes, [display_current_image] puts
    exactly one tile in the gallery overlay, carrying the raster and (for
    a non-empty palette only) its palette, and refreshes.  Both branches of
    the placement compute floor((display - image) / 2) on each axis: an
    image that fits lies wholly on the display, centred to within a pixel;
    a larger one gets a negative offset, so its centre is what shows.  The
    fallback buffer is not touched. *)
Theorem display_current_image_centred (E : Env) (w : world)
    (filename : string) (image : bitmap) (loaded_palette : option palette) :
  py_index (gallery_images w) (gallery_index w) = Returns filename ->
  load_image_file E filename w = (Ok (Some image, loaded_palette), w) ->
  exists w' tile,
    display_current_image E w = (Ok tt, w')
    /\ gallery_group (pycam w') = Some [tile]
    /\ tg_bitmap tile = image
    /\ tg_palette tile
       = match loaded_palette with
         | Some (c :: p) => Some (c :: p)
         | _ => None
         end
    /\ tg_x tile = (display_width E - bm_width image) / 2
    /\ tg_y tile = (display_height E - bm_height image) / 2
    /\ (bm_width image <= display_width E ->
        0 <= tg_x tile /\ tg_x tile + bm_width image <= display_width E)
    /\ (display_width E < bm_width image -> tg_x tile < 0)
    /\ emitted w w' = [EvRefresh]
    /\ gallery_image_buffer w' = gallery_image_buffer w.
Proof.
  intros Hcur Hload.
  destruct (py_index_Returns_bound _ _ _ Hcur) as [Hlt Hne].
  unfold display_current_image. run.
  destruct (gallery_images w) as [|f fs] eqn:Himgs; [congruence|].
  destruct (Z.leb_spec (Z.of_nat (List.length (f :: fs))) (gallery_index w));
    [lia|].
  run. rewrite Hcur. run. rewrite Hload. run.
  eexists. eexists. split; [reflexivity|]. run.
  split; [reflexivity|]. cbn [tg_bitmap tg_palette tg_x tg_y].
  assert (Hx : (if bm_width image <=? display_width E
                then (display_width E - bm_width image) / 2
                else - (bm_width image - display_width E) / 2)
               = (display_width E - bm_width image) / 2).
  { destruct (bm_width image <=? display_width E); [reflexivity|].
    f_equal. lia. }
  assert (Hy : (if bm_height image <=? display_height E
                then (display_height E - bm_height image) / 2
                else - (bm_height image - display_height E) / 2)
               = (display_height E - bm_height image) / 2).
  { destruct (bm_height image <=? display_height E); [reflexivity|].
    f_equal. lia. }
  rewrite Hx, Hy.
  pose proof (Z.div_mod (display_width E - bm_width image) 2 ltac:(lia)).
  pose proof (Z.mod_pos_bound (display_width E - bm_width image) 2 ltac:(lia)).
  repeat split; try reflexivity; try lia.
  apply emitted_app. reflexivity.
Qed.

Lemma display_current_image_centred_witness :
  let E0 := bench_env true bench_files (Returns PyNone) (fun _ => true)
              no_buttons None "JPEG" in
  let E := mkEnv (camera_width E0) (camera_height E0) (display_width E0)
             (display_height E0) (timelapse_rates E0) (sensor E0) (clock E0)
             (monotonic E0) (shutter_button_value E0) (debounced_keys E0)
             (fs_listdir E0) (fs_statvfs_bavail E0) (fs_stat_size E0)
             (capture_jpeg_outcome E0) (open_next_image_fault E0)
             (add_frame_fault E0) (JpegDecoder_fault E0) (jpeg_open E0)
             (jpeg_decode E0)
             (fun _ => Returns (mkBitmap 401 100 [], [0; 0xFFFFFF]))
             (Bitmap_fault E0) (pycam_getattr E0) (pycam_setattr E0)
             (get_battery_percent E0) (pycam_initial E0) in
  let w := set_gallery_images ["a.gif"]
             (set_gallery_mode true (bench_world E)) in
  exists w' tile,
    display_current_image E w = (Ok tt, w')
    /\ gallery_group (pycam w') = Some [tile]
    /\ tg_x tile = -81 /\ tg_y tile = 70.
Proof.
  intros E0 E w.
  destruct (display_current_image_centred E w "a.gif" (mkBitmap 401 100 [])
              (Some [0; 0xFFFFFF]))
    as [w' [tile [Hrun [Hg [_ [_ [Hx [Hy _]]]]]]]].
  - reflexivity.
  - reflexivity.
  - exists w', tile. repeat split; assumption.
Defined.

(* ================================================================= *)
(** ** What the decode pipeline does with files it cannot show *)

(** X16.  [load_image_file] never raises and never changes the world.  It
    answers [(None, None)] for a name that ends in none of .jpg, .jpeg,
    .gif; for a JPEG when there is no decoder, the decoder cannot open the
    file, the zoom level has no divisor, the raster of the scaled size
    cannot be allocated, or decoding fails, whatever the exception; and for
    a GIF whose loader raises.  A GIF that loads is handed on with its
    palette at its own size, whatever the zoom level. *)
Theorem load_image_file_failures (E : Env) (w : world) (filename : string) :
  let is_jpeg := endswith (lower filename) ".jpg"
                 || endswith (lower filename) ".jpeg" in
  let is_gif := endswith (lower filename) ".gif" in
  let path := "/sd/" ++ filename in
  (exists r, load_image_file E filename w = (Ok r, w))
  /\ (is_jpeg = false -> is_gif = false ->
      load_image_file E filename w = (Ok (None, None), w))
  /\ (is_jpeg = true ->
      jpeg_decoder w = false
      \/ (exists e, jpeg_open E path = Raises e)
      \/ (exists e, py_index scale_factors (gallery_zoom_level w) = Raises e)
      \/ (exists width height scale_factor e,
            jpeg_open E path = Returns (width, height)
            /\ py_index scale_factors (gallery_zoom_level w)
               = Returns scale_factor
            /\ Bitmap_fault E (width / scale_factor) (height / scale_factor)
               = Some e)
      \/ (exists e, jpeg_decode E path (gallery_zoom_level w) = Raises e) ->
      load_image_file E filename w = (Ok (None, None), w))
  /\ (is_jpeg = false -> is_gif = true ->
      match imageload_load E path with
      | Returns (image, colours) =>
          load_image_file E filename w = (Ok (Some image, Some colours), w)
      | Raises _ => load_image_file E filename w = (Ok (None, None), w)
      end).
Proof.
  intros is_jpeg is_gif path. subst is_jpeg is_gif path.
  split; [apply load_image_file_pure|]. split; [|split].
  - intros Hj Hg. unfold load_image_file. run. rewrite Hj, Hg. reflexivity.
  - intros Hj Hbad. unfold load_image_file. run. rewrite Hj.
    assert (Hnone : load_jpeg_file E filename w = (Ok None, w)).
    { unfold load_jpeg_file, get_current_scale_factor, displayio_Bitmap. run.
      destruct (jpeg_decoder w) eqn:Hdecoder; run; [|reflexivity].
      destruct (jpeg_open E ("/sd/" ++ filename)) as [[ow oh]|e] eqn:Hopen;
        run; [|reflexivity].
      destruct (py_index scale_factors (gallery_zoom_level w)) as [f|e]
        eqn:Hscale; run; [|reflexivity].
      destruct (Bitmap_fault E (ow / f) (oh / f)) as [e|] eqn:Halloc; run;
        [reflexivity|].
      destruct (jpeg_decode E ("/sd/" ++ filename) (gallery_zoom_level w))
        as [px|e] eqn:Hdec; run; [|reflexivity].
      destruct Hbad as [Hno|[[e He]|[[e He]|[Hraster|[e He]]]]];
        try discriminate.
      destruct Hraster as [width [height [factor [e [Ho [Hs Hf]]]]]].
      injection Ho as <- <-. injection Hs as <-.
      rewrite Halloc in Hf. discriminate Hf. }
    rewrite Hnone. reflexivity.
  - intros Hj Hg. unfold load_image_file, load_gif_file. run.
    rewrite Hj, Hg.
    destruct (imageload_load E ("/sd/" ++ filename)) as [[image colours]|e];
      reflexivity.
Qed.

(* ================================================================= *)
(** ** The information screen *)

(** X17.  The fallback screen always comes up, also when the file cannot
    be stat'ed: it blackens the buffer, blits it, refreshes and shows
    "<index+1>/<count>", the file name and then either the format label
    with the size in whole KB, or "Info unavailable" when [os.stat]
    raises (whatever it raises).  The buffer shown keeps its size, and
    every pixel of the sensor's area in it reads 0. *)
Theorem show_image_info_fallback_text (E : Env) (w : world)
    (filename : string) (buffer : bitmap) :
  gallery_image_buffer w = Some buffer ->
  camera_width E <= bm_width buffer ->
  camera_height E <= bm_height buffer ->
  raster_complete buffer ->
  let position :=
    str (gallery_index w + 1) ++ "/"
    ++ str (Z.of_nat (List.length (gallery_images w))) in
  let label :=
    if endswith (lower filename) ".jpg" || endswith (lower filename) ".jpeg"
    then "JPEG (load failed)"
    else if endswith (lower filename) ".gif" then "GIF (load failed)"
    else "Unknown format" in
  let text :=
    match fs_stat_size E (instant w) ("/sd/" ++ filename) with
    | Returns size =>
        position ++ newline ++ filename ++ newline ++ label ++ newline
        ++ str (size / 1024) ++ "KB"
    | Raises _ =>
        position ++ newline ++ filename ++ newline ++ "Info unavailable"
    end in
  exists shown,
    show_image_info_fallback E filename w
    = (Ok tt,
       set_log (log w ++ [EvBlit shown; EvRefresh; EvMessage text 0xFFFFFF])
         (set_gallery_image_buffer (Some shown) w))
    /\ bm_width shown = bm_width buffer
    /\ bm_height shown = bm_height buffer
    /\ forall x y,
         0 <= x < camera_width E -> 0 <= y < camera_height E ->
         bitmap_getitem shown x y = Some 0.
Proof.
  intros Hbuf Hw Hh Hfull position label text.
  destruct (show_image_info_fallback_screen E filename w buffer Hbuf Hw Hh)
    as [shown [Hrun [Hsw [Hsh Hblack]]]].
  exists shown. split; [exact Hrun|]. split; [exact Hsw|].
  split; [exact Hsh|]. exact (Hblack Hfull).
Qed.

Lemma show_image_info_fallback_text_witness :
  let E := bench_env false [] (Returns PyNone) (fun _ => true)
             no_buttons None "JPEG" in
  let w := set_gallery_image_buffer (Some (mkBitmap 2 1 [9; 9]))
             (set_gallery_index 1
                (set_gallery_images ["B.JPG"; "c.jpeg"] (bench_world E))) in
  exists shown,
    show_image_info_fallback E "c.jpeg" w
    = (Ok tt,
       set_log (log w ++ [EvBlit shown; EvRefresh;
                          EvMessage ("2/2" ++ newline ++ "c.jpeg" ++ newline
                                     ++ "Info unavailable") 0xFFFFFF])
         (set_gallery_image_buffer (Some shown) w))
    /\ bitmap_getitem shown 0 0 = Some 0
    /\ bitmap_getitem shown 1 0 = Some 0.
Proof.
  intros E w.
  destruct (show_image_info_fallback_text E w "c.jpeg" (mkBitmap 2 1 [9; 9]))
    as [shown [Hrun [_ [_ Hblack]]]].
  - reflexivity.
  - cbn. lia.
  - cbn. lia.
  - reflexivity.
  - exists shown. split; [exact Hrun|].
    split; apply Hblack; cbn; lia.
Defined.

(* ================================================================= *)
(** ** Start-up *)

(** X18.  [init_camera_system] needs its three frame buffers and nothing
    else.  When a raster of the sensor's size can be allocated it returns
    with [last_frame], [onionskin] and the gallery buffer zeroed at that
    size, the decoder present exactly when its constructor did not raise,
    the battery timer set to now, and the gallery session as it was.  When
    the raster cannot be allocated the exception leaves start-up
    uncaught. *)
Theorem init_camera_system_buffers (E : Env) (w0 : world) :
  let blank :=
    mkBitmap (camera_width E) (camera_height E)
      (repeat 0 (Z.to_nat (camera_width E * camera_height E))) in
  match Bitmap_fault E (camera_width E) (camera_height E) with
  | None =>
      exists w,
        init_camera_system E w0 = (Ok tt, w)
        /\ last_frame w = blank
        /\ onionskin w = blank
        /\ gallery_image_buffer w = Some blank
        /\ buffer_ready E w
        /\ jpeg_decoder w
           = match JpegDecoder_fault E with None => true | Some _ => false end
        /\ last_recorded_time w = clock E (instant w0)
        /\ gallery_mode w = gallery_mode w0
        /\ gallery_images w = gallery_images w0
        /\ log w = log w0
  | Some e => fst (init_camera_system E w0) = Raise e
  end.
Proof.
  intros blank. unfold init_camera_system, displayio_Bitmap. run.
  destruct (Bitmap_fault E (camera_width E) (camera_height E)) as [e|];
    run; [reflexivity|].
  destruct (JpegDecoder_fault E) as [e|]; run;
    (eexists; split; [reflexivity|]; run; repeat split;
     exists blank; subst blank; cbn; repeat split; lia).
Qed.

(* ================================================================= *)
(** ** Scanning, in general *)

Lemma lower_ascii_idempotent (c : ascii) :
  lower_ascii (lower_ascii c) = lower_ascii c.
Proof. destruct c as [[] [] [] [] [] [] [] []]; reflexivity. Qed.

Lemma lower_idempotent (s : string) : lower (lower s) = lower s.
Proof.
  induction s as [|c s IH]; cbn [lower]; [reflexivity|].
  rewrite lower_ascii_idempotent, IH. reflexivity.
Qed.

(** X19.  Whatever is on the card, [scan_gallery_images] returns and
    leaves its result in [gallery_images].  The result is empty when no
    card is available or "/sd" cannot be listed; otherwise it is a
    rearrangement of the listed names that pass the extension test, in
    ascending order.  The test does not look at case: a name passes exactly
    when its lower-case form does. *)
Theorem scan_gallery_images_sorted_supported (E : Env) (w : world) :
  exists found,
    scan_gallery_images E w = (Ok found, set_gallery_images found w)
    /\ StronglySorted (fun a b => String.leb a b = true) found
    /\ (forall file, In file found -> is_gallery_file file = true)
    /\ (forall file, is_gallery_file (lower file) = is_gallery_file file)
    /\ (storage_available_at E (instant w) = false -> found = [])
    /\ (forall e, fs_listdir E (instant w) "/sd" = Raises e -> found = [])
    /\ (forall files,
          storage_available_at E (instant w) = true ->
          fs_listdir E (instant w) "/sd" = Returns files ->
          Permutation found (filter is_gallery_file files)).
Proof.
  exists (scanned_files E (instant w)).
  split; [apply scan_gallery_images_total|].
  assert (Hcase : forall file,
            is_gallery_file (lower file) = is_gallery_file file).
  { intros file. unfold is_gallery_file. rewrite lower_idempotent.
    reflexivity. }
  pose proof (scan_gallery_images_total E w) as Htotal.
  unfold scan_gallery_images in Htotal. revert Htotal. run.
  rewrite is_sd_card_available_at. run.
  destruct (storage_available_at E (instant w)) eqn:Hsd; run.
  - destruct (fs_listdir E (instant w) "/sd") as [files|e] eqn:Hls; run.
    + rewrite scan_loop_filter. run. intros Htotal.
      injection Htotal as Hfound _. rewrite <- Hfound.
      assert (Hperm : Permutation (py_sort (filter is_gallery_file files))
                        (filter is_gallery_file files)).
      { apply Permutation_sym. apply StringSort.Permuted_sort. }
      repeat split.
      * apply StringSort.StronglySorted_sort, string_leb_trans.
      * intros file Hin.
        apply (Permutation_in _ Hperm) in Hin.
        apply filter_In in Hin. apply Hin.
      * exact Hcase.
      * discriminate.
      * discriminate.
      * intros files' _ Hfiles'. injection Hfiles' as <-. exact Hperm.
    + intros Htotal. injection Htotal as Hfound _. rewrite <- Hfound.
      repeat split; try constructor; try discriminate; try exact Hcase.
      intros file [].
  - intros Htotal. injection Htotal as Hfound _. rewrite <- Hfound.
    repeat split; try constructor; try discriminate; try exact Hcase.
    intros file [].
Qed.

(* ================================================================= *)
(** ** A recording that is never released *)

(** X20.  Only the release ends a recording: there is no frame limit and
    no time-out.  If the shutter pin reads pressed at every instant then,
    writes succeeding and the clock advancing, the recording is still
    running after any number of frames. *)
Theorem gif_recording_needs_release (E : Env) (fuel : nat) (w : world) :
  (forall t, shutter_button_value E t = false) ->
  (forall t, open_next_image_fault E t = None) ->
  (forall t, add_frame_fault E t = None) ->
  (forall k, monotonic E k < monotonic E (S k)) ->
  fst (capture_animated_gif E fuel w) = OutOfFuel.
Proof.
  intros Hheld Hopen Hadd Hmono.
  unfold capture_animated_gif. run. rewrite Hopen. run.
  match goal with
  | |- context [recording_loop E fuel 0 _ ?w1] =>
      pose proof (recording_loop_held E fuel 0 w1 Hheld Hadd Hmono) as Hloop
  end.
  revert Hloop. run.
  match goal with
  | |- context [recording_loop E fuel 0 ?t ?w1] =>
      destruct (recording_loop E fuel 0 t w1) as [[[i t1]|e|] w2]
  end; cbn [fst]; try discriminate.
  intros _. reflexivity.
Qed.

Lemma gif_recording_needs_release_witness :
  let E := bench_env true bench_files (Returns PyNone) (fun _ => false)
             no_buttons None "GIF" in
  fst (capture_animated_gif E 40 (bench_world E)) = OutOfFuel.
Proof.
  intros E. apply (gif_recording_needs_release E 40 (bench_world E)).
  - intros t. reflexivity.
  - intros t. reflexivity.
  - intros t. reflexivity.
  - intros k. cbn. lia.
Defined.

(* ================================================================= *)
(** ** The live preview *)

(** X21.  Outside time-lapse mode the preview of one tick takes exactly
    one sensor frame and is display activity only, also when a
    [bitmaptools] call raises: no file is touched, and the gallery
    session, the time-lapse state and the settings cursor stay as they
    are.  [last_frame] is rewritten in Game Boy mode only, and [onionskin]
    in stop-motion mode only. *)
Theorem preview_tick_touches_no_file (E : Env) (P : Periphery) (w : world) :
  mode_text (pycam w) <> "LAPS" ->
  let w' := snd (handle_camera_modes E P w) in
  existsb is_storage_write (emitted w w') = false
  /\ instant w' = S (instant w)
  /\ same_session w (set_instant (instant w) w')
  /\ timelapse_remaining w' = timelapse_remaining w
  /\ timelapse_timestamp w' = timelapse_timestamp w
  /\ curr_setting w' = curr_setting w
  /\ pycam w' = pycam w
  /\ (mode_text (pycam w) <> "GBOY" -> last_frame w' = last_frame w)
  /\ (mode_text (pycam w) <> "STOP" -> onionskin w' = onionskin w).
Proof.
  intros Hlaps w'. subst w'. apply String.eqb_neq in Hlaps.
  assert (Hq0 : emitted w w = []).
  { apply emitted_app. rewrite app_nil_r. reflexivity. }
  assert (Hq1 : forall e l i p lf os,
            is_storage_write e = false ->
            existsb is_storage_write
              (emitted w
                 (set_log (log w ++ [e])
                    (mkWorld p lf os (timelapse_remaining w)
                       (timelapse_timestamp w) (last_recorded_time w)
                       (curr_setting w) (jpeg_decoder w) (gallery_mode w)
                       (gallery_images w) (gallery_index w)
                       (gallery_image_buffer w) (gallery_zoom_level w) i l)))
            = false).
  { intros e l i p lf os He.
    rewrite (emitted_app w _ [e]) by reflexivity.
    cbn [existsb]. rewrite He. reflexivity. }
  unfold handle_camera_modes, handle_stop_motion_mode, handle_gameboy_mode.
  run.
  destruct (String.eqb_spec (mode_text (pycam w)) "STOP") as [Hstop|Hstop].
  - destruct (stop_motion_frame (pycam w) =? 0); run.
    + rewrite (emitted_app w _ [EvBlit (sensor E (instant w))])
        by reflexivity.
      unfold same_session. run. repeat split; congruence.
    + destruct (bitmaptools_alphablend P (onionskin w) (last_frame w)
                  (sensor E (instant w))) as [b|e]; run.
      * rewrite (emitted_app w _ [EvBlit b]) by reflexivity.
        unfold same_session. run. repeat split; congruence.
      * rewrite (emitted_app w _ []) by (run; rewrite app_nil_r; reflexivity).
        unfold same_session. run. repeat split; congruence.
  - destruct (String.eqb_spec (mode_text (pycam w)) "GBOY") as [Hgb|Hgb].
    + run.
      destruct (bitmaptools_dither P (last_frame w) (sensor E (instant w)))
        as [b|e]; run.
      * rewrite (emitted_app w _ [EvBlit b]) by reflexivity.
        unfold same_session. run. repeat split; congruence.
      * rewrite (emitted_app w _ []) by (run; rewrite app_nil_r; reflexivity).
        unfold same_session. run. repeat split; congruence.
    + rewrite Hlaps. run.
      rewrite (emitted_app w _ [EvBlit (sensor E (instant w))])
        by reflexivity.
      unfold same_session. run. repeat split; congruence.
Qed.

Lemma preview_tick_touches_no_file_witness :
  let E := bench_env true bench_files (Returns PyNone) (fun _ => true)
             no_buttons None "GBOY" in
  let w' := snd (handle_camera_modes E bench_periphery (bench_world E)) in
  existsb is_storage_write (emitted (bench_world E) w') = false
  /\ onionskin w' = onionskin (bench_world E)
  /\ last_frame w' = mkBitmap 2 1 [0; 3].
Proof.
  intros E w'.
  destruct (preview_tick_touches_no_file E bench_periphery (bench_world E))
    as [Hq [_ [_ [_ [_ [_ [_ [_ Hos]]]]]]]].
  - discriminate.
  - split; [exact Hq|]. split; [apply Hos; discriminate | reflexivity].
Defined.

(** X22.  Onion skin.  After a stop-motion shutter press, with or without
    a card, the next preview blends the live frame over the frame that
    press captured: [bitmaptools.alphablend] receives the frame taken at
    the press as its first source and the new live frame as its second,
    and its result is both stored in [onionskin] and shown. *)
Theorem onion_skin_follows_capture (E : Env) (P : Periphery) (w : world) :
  0 <= stop_motion_frame (pycam w) ->
  mode_text (pycam w) = "STOP" ->
  forall w1,
    handle_stop_motion_capture E w = (Ok tt, w1) ->
    last_frame w1 = sensor E (instant w)
    /\ onionskin w1 = onionskin w
    /\ match bitmaptools_alphablend P (onionskin w) (sensor E (instant w))
               (sensor E (instant w1)) with
       | Returns blended =>
           exists w2,
             handle_camera_modes E P w1 = (Ok tt, w2)
             /\ onionskin w2 = blended
             /\ emitted w1 w2 = [EvBlit blended]
             /\ last_frame w2 = sensor E (instant w)
       | Raises e => fst (handle_camera_modes E P w1) = Raise e
       end.
Proof.
  intros Hcount Hmode w1.
  unfold handle_stop_motion_capture. run.
  destruct (safe_capture_operation E (capture_jpeg E) _) as [[v|e|] w'] eqn:Hcap;
    try discriminate.
  intros Hrun. injection Hrun as <-.
  assert (Hkeep : last_frame w' = sensor E (instant w)
                  /\ onionskin w' = onionskin w
                  /\ pycam w'
                     = set_stop_motion_frame (stop_motion_frame (pycam w) + 1)
                         (pycam w)).
  { revert Hcap. unfold safe_capture_operation, capture_jpeg. run.
    rewrite is_sd_card_available_at. run.
    destruct (storage_available_at E (S (instant w))); run.
    - destruct (capture_jpeg_outcome E (S (instant w))) as [v'|e']; run.
      + intros H. injection H as _ <-. repeat split.
      + destruct e'; run; intros H; try discriminate H;
          injection H as _ <-; repeat split.
    - intros H. injection H as _ <-. repeat split. }
  destruct Hkeep as [Hlf [Hos Hpy]].
  run. split; [exact Hlf|]. split; [exact Hos|].
  unfold handle_camera_modes, handle_stop_motion_mode. run.
  rewrite Hpy. run. rewrite Hmode.
  cbn [String.eqb Ascii.eqb Bool.eqb]. run. rewrite Hpy. run.
  destruct (Z.eqb_spec (stop_motion_frame (pycam w) + 1) 0) as [H0|_]; [lia|].
  run. rewrite Hlf, Hos.
  destruct (bitmaptools_alphablend P (onionskin w) (sensor E (instant w))
              (sensor E (instant w'))) as [blended|e]; run.
  - eexists. split; [reflexivity|]. run. repeat split.
    + apply emitted_app. reflexivity.
    + exact Hlf.
  - reflexivity.
Qed.

Lemma onion_skin_follows_capture_witness :
  let E := bench_env false [] (Returns PyNone) (fun _ => true)
             no_buttons None "STOP" in
  let w1 := snd (handle_stop_motion_capture E (bench_world E)) in
  exists w2,
    handle_camera_modes E bench_periphery w1 = (Ok tt, w2)
    /\ last_frame w2 = mkBitmap 2 1 [0; 7]
    /\ onionskin w2 = sensor E (instant w1).
Proof.
  intros E w1.
  destruct (onion_skin_follows_capture E bench_periphery (bench_world E))
    with (w1 := w1) as [_ [_ Hnext]].
  - cbn. lia.
  - reflexivity.
  - reflexivity.
  - cbn [bench_periphery bitmaptools_alphablend] in Hnext.
    destruct Hnext as [w2 [Hrun [Hos [_ Hlf]]]].
    exists w2. repeat split; assumption.
Defined.

(** X23.  Game Boy mode saves what it shows.  The preview dithers the
    live frame into [last_frame] and blits it; a shutter press right after
    writes that very raster as the single frame of the GIF. *)
Theorem gameboy_saves_what_it_shows (E : Env) (P : Periphery) (w : world)
    (dithered : bitmap) :
  mode_text (pycam w) = "GBOY" ->
  bitmaptools_dither P (last_frame w) (sensor E (instant w)) = Returns dithered ->
  storage_available_at E (S (instant w)) = true ->
  open_next_image_fault E (S (instant w)) = None ->
  add_frame_fault E (S (instant w)) = None ->
  exists w1 w2,
    handle_camera_modes E P w = (Ok tt, w1)
    /\ emitted w w1 = [EvBlit dithered]
    /\ handle_gameboy_capture E w1 = (Ok tt, w2)
    /\ filter is_gif_frame (emitted w1 w2) = [EvGifFrame dithered 100].
Proof.
  intros Hmode Hdither Hsd Hopen Hadd.
  unfold handle_camera_modes, handle_gameboy_mode. run. rewrite Hmode.
  cbn [String.eqb Ascii.eqb Bool.eqb]. run. rewrite Hdither. run.
  eexists. eexists. split; [reflexivity|].
  split; [apply emitted_app; reflexivity|].
  unfold handle_gameboy_capture, safe_capture_operation, capture_gameboy_gif.
  run. rewrite is_sd_card_available_at. run. rewrite Hsd. run.
  rewrite Hopen. run. rewrite Hadd. run.
  split; [reflexivity|].
  erewrite emitted_app by (run; rewrite <- !app_assoc; reflexivity).
  reflexivity.
Qed.

Lemma gameboy_saves_what_it_shows_witness :
  let E := bench_env true bench_files (Returns PyNone) (fun _ => true)
             no_buttons None "GBOY" in
  exists w1 w2,
    handle_camera_modes E bench_periphery (bench_world E) = (Ok tt, w1)
    /\ handle_gameboy_capture E w1 = (Ok tt, w2)
    /\ filter is_gif_frame (emitted w1 w2)
       = [EvGifFrame (mkBitmap 2 1 [0; 3]) 100].
Proof.
  intros E.
  destruct (gameboy_saves_what_it_shows E bench_periphery (bench_world E)
              (mkBitmap 2 1 [0; 3]))
    as [w1 [w2 [H1 [_ [H2 H3]]]]]; try reflexivity.
  exists w1, w2. repeat split; assumption.
Defined.

(* ================================================================= *)
(** ** The main loop *)

Ltac runS :=
  cbv beta iota zeta delta
      [Loop.bindS Loop.retS Loop.raiseS Loop.getS Loop.modifyS Loop.liftS
       Loop.whenS Loop.set_core Loop.set_card_log Loop.set_voltage_history];
  run;
  cbn [Loop.core Loop.card_log Loop.voltage_history fst snd];
  run.

(** One sample: the reading joins the history, which then loses its
    oldest entry if it has more than ten. *)
Lemma get_battery_voltage_spec (P : Periphery) (s : Loop.system P) :
  let reading :=
    voltage_of_reading P (battery_pin_value P (instant (Loop.core s))) in
  let h := (Loop.voltage_history s ++ [reading])%list in
  let h' := if (10 <? Z.of_nat (List.length h)) then tl h else h in
  Loop.get_battery_voltage P s
  = (Ok (mean P h'), Loop.mkSystem (Loop.core s) (Loop.card_log s) h').
Proof.
  intros reading h h'. subst h' h reading.
  unfold Loop.get_battery_voltage. runS.
  destruct (10 <? Z.of_nat (List.length _)); runS; reflexivity.
Qed.

Lemma tl_skipn_1 {A : Type} (l : list A) : tl l = skipn 1 l.
Proof. destruct l; reflexivity. Qed.

(** X24.  Battery sampling.  [update_battery_status] takes a sample only
    when ten seconds have passed since the last one; then the history
    holds the newest readings, at most ten of them, the function returns
    their mean and restarts the ten seconds.  Otherwise it returns [None]
    and changes nothing. *)
Theorem update_battery_status_contract (E : Env) (P : Periphery)
    (s : Loop.system P) :
  (List.length (Loop.voltage_history s) <= 10)%nat ->
  let now := clock E (instant (Loop.core s)) in
  let reading :=
    voltage_of_reading P (battery_pin_value P (instant (Loop.core s))) in
  let h := (Loop.voltage_history s ++ [reading])%list in
  let h' := skipn (List.length h - 10) h in
  (List.length h' <= 10)%nat
  /\ Loop.update_battery_status E P s
     = if 10 <=? now - last_recorded_time (Loop.core s)
       then (Ok (Some (mean P h')),
             Loop.mkSystem (set_last_recorded_time now (Loop.core s))
               (Loop.card_log s) h')
       else (Ok None, s).
Proof.
  intros Hlen now reading h h'.
  assert (Hh : List.length h = S (List.length (Loop.voltage_history s))).
  { subst h. rewrite length_app. cbn. lia. }
  assert (Hh' : (if (10 <? Z.of_nat (List.length h)) then tl h else h) = h').
  { subst h'. destruct (Z.ltb_spec 10 (Z.of_nat (List.length h))) as [Hgt|Hle].
    - replace (List.length h - 10)%nat with 1%nat by lia. apply tl_skipn_1.
    - replace (List.length h - 10)%nat with 0%nat by lia. reflexivity. }
  split.
  - subst h'. rewrite length_skipn. lia.
  - destruct s as [c cards hist].
    cbn [Loop.core Loop.card_log Loop.voltage_history] in *.
    pose proof (get_battery_voltage_spec P (Loop.mkSystem c cards hist))
      as Hget.
    cbn [Loop.core Loop.card_log Loop.voltage_history] in Hget.
    fold reading in Hget. fold h in Hget. rewrite Hh' in Hget.
    unfold Loop.update_battery_status. subst now. runS.
    destruct (10 <=? clock E (instant c) - last_recorded_time c); runS;
      [|reflexivity].
    rewrite Hget. runS. reflexivity.
Qed.

Lemma update_battery_status_contract_witness :
  let E := bench_env true bench_files (Returns PyNone) (fun _ => true)
             no_buttons None "JPEG" in
  let s := Loop.mkSystem (P := bench_periphery)
             (set_instant 12 (bench_world E)) []
             [4000; 4001; 4002; 4003; 4004; 4005; 4006; 4007; 4008; 4009] in
  Loop.update_battery_status E bench_periphery s
  = (Ok (Some 4007),
     Loop.mkSystem (P := bench_periphery)
       (set_last_recorded_time 12 (set_instant 12 (bench_world E))) []
       [4001; 4002; 4003; 4004; 4005; 4006; 4007; 4008; 4009; 4028]).
Proof.
  intros E s.
  destruct (update_battery_status_contract E bench_periphery s) as [_ Hrun].
  - cbn. lia.
  - vm_compute in Hrun. vm_compute. exact Hrun.
Defined.

(** *** Relations kept along a computation *)

Section Tracking.

Variable P : Periphery.
Variable R : Loop.system P -> Loop.system P -> Prop.
Hypothesis R_refl : forall s, R s s.
Hypothesis R_trans : forall a b c, R a b -> R b c -> R a c.

Lemma tracks_ret {A : Type} (a : A) : tracks R (Loop.retS a).
Proof. intros s. apply R_refl. Qed.

Lemma tracks_raise {A : Type} (e : exn) : tracks R (@Loop.raiseS P A e).
Proof. intros s. apply R_refl. Qed.

Lemma tracks_get : tracks R Loop.getS.
Proof. intros s. apply R_refl. Qed.

Lemma tracks_bind {A B : Type} (m : Loop.MS P A) (k : A -> Loop.MS P B) :
  tracks R m -> (forall a, tracks R (k a)) -> tracks R (Loop.bindS m k).
Proof.
  intros Hm Hk s. unfold Loop.bindS. specialize (Hm s).
  destruct (m s) as [[a|e|] s1]; cbn [snd] in *; try exact Hm.
  eapply R_trans; [exact Hm | apply Hk].
Qed.

Lemma tracks_when (c : bool) (m : Loop.MS P unit) :
  tracks R m -> tracks R (Loop.whenS c m).
Proof. intros Hm. destruct c; [exact Hm | apply tracks_ret]. Qed.

End Tracking.

Lemma liftS_frame {P : Periphery} {A : Type} (m : M A) (s : Loop.system P) :
  Loop.card_log (snd (Loop.liftS m s)) = Loop.card_log s
  /\ Loop.voltage_history (snd (Loop.liftS m s)) = Loop.voltage_history s
  /\ Loop.core (snd (Loop.liftS m s)) = snd (m (Loop.core s))
  /\ fst (Loop.liftS m s) = fst (m (Loop.core s)).
Proof.
  unfold Loop.liftS. destruct (m (Loop.core s)) as [r w]. repeat split.
Qed.

(** *** The voltage history *)

Lemma keeps_history_bounded_refl {P : Periphery} (s : Loop.system P) :
  keeps_history_bounded s s.
Proof. intros H. exact H. Qed.

Lemma keeps_history_bounded_trans {P : Periphery} (a b c : Loop.system P) :
  keeps_history_bounded a b -> keeps_history_bounded b c ->
  keeps_history_bounded a c.
Proof. intros Hab Hbc H. apply Hbc, Hab, H. Qed.

Lemma bounded_liftS {P : Periphery} {A : Type} (m : M A) :
  tracks (P := P) keeps_history_bounded (Loop.liftS m).
Proof.
  intros s H. unfold history_bounded.
  destruct (liftS_frame m s) as [_ [Hh _]]. rewrite Hh. exact H.
Qed.

Lemma bounded_modify_card_log {P : Periphery}
    (f : list card_event -> list card_event) :
  tracks (P := P) keeps_history_bounded
    (Loop.modifyS (fun s => Loop.set_card_log (f (Loop.card_log s)) s)).
Proof. intros s H. exact H. Qed.

Lemma bounded_get_battery_voltage (P : Periphery) :
  tracks keeps_history_bounded (Loop.get_battery_voltage P).
Proof.
  intros s H. rewrite get_battery_voltage_spec. cbn [snd].
  unfold history_bounded in *. cbn [Loop.voltage_history].
  destruct (Z.ltb_spec 10
              (Z.of_nat (List.length (Loop.voltage_history s ++
                 [voltage_of_reading P
                    (battery_pin_value P (instant (Loop.core s)))]))))
    as [Hgt|Hle].
  - rewrite tl_skipn_1, length_skipn, length_app. cbn [List.length]. lia.
  - lia.
Qed.

Ltac track_step :=
  match goal with
  | |- tracks _ (Loop.bindS _ _) =>
      apply (tracks_bind _ _ keeps_history_bounded_trans); [|intro]
  | |- tracks _ (Loop.retS _) =>
      apply (tracks_ret _ _ keeps_history_bounded_refl)
  | |- tracks _ (Loop.raiseS _) =>
      apply (tracks_raise _ _ keeps_history_bounded_refl)
  | |- tracks _ Loop.getS => apply (tracks_get _ _ keeps_history_bounded_refl)
  | |- tracks _ (Loop.whenS _ _) =>
      apply (tracks_when _ _ keeps_history_bounded_refl)
  | |- tracks _ (Loop.liftS _) => apply bounded_liftS
  | |- tracks _ (Loop.modifyS (fun s => Loop.set_card_log _ s)) =>
      apply (bounded_modify_card_log (fun l => (l ++ _)%list))
  | |- tracks _ (Loop.get_battery_voltage _) => apply bounded_get_battery_voltage
  | |- tracks _ (if ?c then _ else _) => destruct c
  | |- tracks _ (match ?c with Some _ => _ | None => _ end) => destruct c
  end.

Lemma bounded_update_battery_status (E : Env) (P : Periphery) :
  tracks keeps_history_bounded (Loop.update_battery_status E P).
Proof. unfold Loop.update_battery_status. repeat track_step. Qed.

Lemma bounded_mount_with_retries (P : Periphery) (attempts : nat) :
  tracks keeps_history_bounded (Loop.mount_with_retries P attempts).
Proof.
  induction attempts as [|n IH]; cbn [Loop.mount_with_retries].
  - repeat track_step.
  - repeat track_step. exact IH.
Qed.

Lemma bounded_handle_sd_card_events (P : Periphery) :
  tracks keeps_history_bounded (Loop.handle_sd_card_events P).
Proof.
  unfold Loop.handle_sd_card_events.
  repeat first [apply bounded_mount_with_retries | track_step].
Qed.

Lemma bounded_handle_all_buttons (E : Env) (P : Periphery) (fuel : nat) :
  tracks keeps_history_bounded (Loop.handle_all_buttons E P fuel).
Proof.
  unfold Loop.handle_all_buttons, Loop.handle_camera_buttons,
    Loop.handle_ok_button.
  repeat track_step.
Qed.

Lemma bounded_main_iteration (E : Env) (P : Periphery) (fuel : nat) :
  tracks keeps_history_bounded (Loop.main_iteration E P fuel).
Proof.
  unfold Loop.main_iteration.
  repeat match goal with
         | |- tracks _ (Loop.update_battery_status _ _) =>
             apply bounded_update_battery_status
         | |- tracks _ (Loop.handle_all_buttons _ _ _) =>
             apply bounded_handle_all_buttons
         | |- tracks _ (Loop.handle_sd_card_events _) =>
             apply bounded_handle_sd_card_events
         | _ => track_step
         end.
Qed.

(** X25.  However long [main] runs and whatever the buttons, the card and
    the sensor do, the voltage history never holds more than ten
    readings: both the ten-second sampling and the OK button's read-out
    go through [get_battery_voltage], which drops the oldest one. *)
Theorem voltage_history_never_exceeds_ten (E : Env) (P : Periphery)
    (fuel iterations : nat) :
  (List.length
     (Loop.voltage_history
        (snd (Loop.main E P fuel iterations (Loop.module_state E P))))
   <= 10)%nat.
Proof.
  assert (Hloop : tracks keeps_history_bounded
                    (Loop.main_loop E P fuel iterations)).
  { induction iterations as [|n IH]; cbn [Loop.main_loop].
    - track_step.
    - track_step; [apply bounded_main_iteration | exact IH]. }
  assert (Hmain : tracks keeps_history_bounded
                    (Loop.main E P fuel iterations)).
  { unfold Loop.main. track_step; [track_step | exact Hloop]. }
  apply (Hmain (Loop.module_state E P)).
  unfold history_bounded. cbn. lia.
Qed.

(** *** Mounting the card *)

Lemma after_mounting_step {P : Periphery} (n m : nat) (s : Loop.system P) :
  after_mounting n m (after_mounting 1 1 s) = after_mounting (S n) (S m) s.
Proof.
  destruct s as [c cards hist]. destruct c.
  unfold after_mounting. cbn [Loop.core Loop.card_log Loop.voltage_history].
  world_norm. rewrite <- !app_assoc. cbn [repeat app].
  rewrite Nat.add_succ_r. reflexivity.
Qed.

(** A failed attempt costs one call and one wait. *)
Lemma mount_with_retries_retry (P : Periphery) (rest : nat)
    (s : Loop.system P) :
  mount_sd_card_fault P (instant (Loop.core s)) = Some OSError ->
  Loop.mount_with_retries P (S rest) s
  = Loop.mount_with_retries P rest (after_mounting 1 1 s).
Proof.
  intros Hfault. cbn [Loop.mount_with_retries]. runS. rewrite Hfault. runS.
  reflexivity.
Qed.

Lemma mount_with_retries_success (P : Periphery) (rest : nat)
    (s : Loop.system P) :
  mount_sd_card_fault P (instant (Loop.core s)) = None ->
  Loop.mount_with_retries P (S rest) s = (Ok true, after_mounting 0 1 s).
Proof.
  intros Hfault. cbn [Loop.mount_with_retries]. runS. rewrite Hfault. runS.
  unfold after_mounting. cbn [repeat Nat.add]. rewrite app_nil_r.
  destruct s as [c cards hist]. destruct c. reflexivity.
Qed.

Lemma mount_with_retries_escape (P : Periphery) (rest : nat)
    (s : Loop.system P) (e : exn) :
  mount_sd_card_fault P (instant (Loop.core s)) = Some e ->
  e <> OSError ->
  Loop.mount_with_retries P (S rest) s = (Raise e, after_mounting 0 1 s).
Proof.
  intros Hfault He. cbn [Loop.mount_with_retries]. runS. rewrite Hfault.
  unfold after_mounting. cbn [repeat Nat.add]. rewrite app_nil_r.
  destruct s as [c cards hist]. destruct c.
  destruct e; runS; try reflexivity. contradiction He. reflexivity.
Qed.

(** The attempts up to and including the [k]-th, the earlier ones having
    failed with [OSError]. *)
Lemma mount_with_retries_prefix (P : Periphery) (k rest : nat)
    (s : Loop.system P) :
  (forall i, (i < k)%nat ->
     mount_sd_card_fault P (i + instant (Loop.core s)) = Some OSError) ->
  Loop.mount_with_retries P (k + rest) s
  = Loop.mount_with_retries P rest (after_mounting k k s).
Proof.
  revert s. induction k as [|k IH]; intros s Hfail.
  - cbn [Nat.add]. f_equal. unfold after_mounting. cbn [repeat Nat.add].
    rewrite !app_nil_r. destruct s as [c cards hist]. destruct c. reflexivity.
  - cbn [Nat.add]. rewrite mount_with_retries_retry by (apply (Hfail 0%nat); lia).
    rewrite IH.
    + rewrite after_mounting_step. reflexivity.
    + intros i Hi. unfold after_mounting. cbn [Loop.core]. run.
      cbn [Nat.add]. rewrite Nat.add_succ_r. apply (Hfail (S i)). lia.
Qed.

(** X26.  When a card is inserted, mounting is tried until it succeeds:
    if the first [k] attempts (at most two) fail with [OSError] and the
    next one succeeds, there are exactly [k + 1] calls of [mount_sd_card]
    with a half-second wait after each failure, no failure message, and
    the display is refreshed at the end. *)
Theorem card_mount_retried_until_success (P : Periphery)
    (s : Loop.system P) (k : nat) :
  (k < 3)%nat ->
  card_detect_fell P (instant (Loop.core s)) = false ->
  card_detect_rose P (instant (Loop.core s)) = true ->
  (forall i, (i < k)%nat ->
     mount_sd_card_fault P (i + instant (Loop.core s)) = Some OSError) ->
  mount_sd_card_fault P (k + instant (Loop.core s)) = None ->
  exists s',
    Loop.handle_sd_card_events P s = (Ok tt, s')
    /\ Loop.card_log s' = (Loop.card_log s ++ repeat MountCard (S k))%list
    /\ emitted (Loop.core s) (Loop.core s')
       = (EvMessage ("Mounting" ++ newline ++ "SD Card") 0xFFFFFF
          :: repeat (EvSleep 500) k ++ [EvRefresh])%list
    /\ instant (Loop.core s') = (k + instant (Loop.core s))%nat.
Proof.
  intros Hk Hfell Hrose Hfail Hok.
  unfold Loop.handle_sd_card_events. runS. rewrite Hfell. runS.
  rewrite Hrose. runS.
  replace 3%nat with (k + S (2 - k))%nat by lia.
  match goal with
  | |- context [Loop.mount_with_retries P _ ?s0] =>
      rewrite (mount_with_retries_prefix P k (S (2 - k)) s0)
        by (cbn [Loop.core]; run; exact Hfail);
      rewrite (mount_with_retries_success P (2 - k) (after_mounting k k s0))
        by (unfold after_mounting; cbn [Loop.core]; run; exact Hok)
  end.
  unfold after_mounting. runS.
  eexists. split; [reflexivity|]. runS. repeat split.
  - rewrite <- app_assoc. f_equal. cbn [repeat]. symmetry. apply repeat_cons.
  - apply emitted_app. run. rewrite app_nil_r, <- !app_assoc. reflexivity.
Qed.

Lemma card_mount_retried_until_success_witness :
  let P := mkPeriphery Z (fun raw => raw) (fun _ => 0) (fun _ => 0)
             (fun _ _ live => Returns live) (fun _ live => Returns live)
             (fun _ => false) (fun _ => true)
             (fun t => if (t <? 2)%nat then Some OSError else None)
             (fun _ => 0) in
  let s := Loop.mkSystem (P := P) (module_globals
             (bench_env true bench_files (Returns PyNone) (fun _ => true)
                no_buttons None "JPEG")) [] [] in
  exists s',
    Loop.handle_sd_card_events P s = (Ok tt, s')
    /\ Loop.card_log s' = [MountCard; MountCard; MountCard]
    /\ instant (Loop.core s') = 2%nat.
Proof.
  intros P s.
  destruct (card_mount_retried_until_success P s 2) as [s' [Hrun [Hc [_ Hi]]]].
  - lia.
  - reflexivity.
  - reflexivity.
  - intros i Hi. destruct i as [|[|i]]; [reflexivity | reflexivity | lia].
  - reflexivity.
  - exists s'. repeat split; assumption.
Defined.

(** X27.  After three attempts that fail with [OSError] the loop gives
    up: [mount_sd_card] has been called exactly three times, the failure
    message is shown for half a second, and [handle_sd_card_events]
    returns normally. *)
Theorem card_mount_gives_up_after_three (P : Periphery) (s : Loop.system P) :
  card_detect_fell P (instant (Loop.core s)) = false ->
  card_detect_rose P (instant (Loop.core s)) = true ->
  (forall i, (i < 3)%nat ->
     mount_sd_card_fault P (i + instant (Loop.core s)) = Some OSError) ->
  exists s',
    Loop.handle_sd_card_events P s = (Ok tt, s')
    /\ Loop.card_log s'
       = (Loop.card_log s ++ [MountCard; MountCard; MountCard])%list
    /\ emitted (Loop.core s) (Loop.core s')
       = [EvMessage ("Mounting" ++ newline ++ "SD Card") 0xFFFFFF;
          EvSleep 500; EvSleep 500; EvSleep 500;
          EvMessage ("SD Card" ++ newline ++ "Failed!") 0xFF0000;
          EvSleep 500; EvRefresh]
    /\ Loop.voltage_history s' = Loop.voltage_history s.
Proof.
  intros Hfell Hrose Hfail.
  unfold Loop.handle_sd_card_events. runS. rewrite Hfell. runS.
  rewrite Hrose. runS.
  change 3%nat with (3 + 0)%nat at 1.
  match goal with
  | |- context [Loop.mount_with_retries P _ ?s0] =>
      rewrite (mount_with_retries_prefix P 3 0 s0)
        by (cbn [Loop.core]; run; exact Hfail)
  end.
  cbn [Loop.mount_with_retries]. unfold after_mounting. runS.
  eexists. split; [reflexivity|]. runS. repeat split.
  apply emitted_app. run. rewrite <- !app_assoc. reflexivity.
Qed.

Lemma card_mount_gives_up_after_three_witness :
  let P := mkPeriphery Z (fun raw => raw) (fun _ => 0) (fun _ => 0)
             (fun _ _ live => Returns live) (fun _ live => Returns live)
             (fun _ => false) (fun _ => true)
             (fun _ => Some OSError)
             (fun _ => 0) in
  let s := Loop.mkSystem (P := P) (module_globals
             (bench_env true bench_files (Returns PyNone) (fun _ => true)
                no_buttons None "JPEG")) [] [] in
  exists s',
    Loop.handle_sd_card_events P s = (Ok tt, s')
    /\ Loop.card_log s' = [MountCard; MountCard; MountCard]
    /\ instant (Loop.core s') = 4%nat.
Proof.
  intros P s.
  destruct (card_mount_gives_up_after_three P s) as [s' [Hrun [Hc _]]].
  - reflexivity.
  - reflexivity.
  - intros i _. reflexivity.
  - exists s'. split; [exact Hrun|]. split; [exact Hc|].
    revert Hrun. vm_compute. intros Hrun. injection Hrun as <-. reflexivity.
Defined.

(** X28.  Only [OSError] is retried.  Any other exception of
    [mount_sd_card] leaves [handle_sd_card_events] at once: no further
    attempt, no failure message and no final refresh of the display. *)
Theorem card_mount_other_error_escapes (P : Periphery) (s : Loop.system P)
    (k : nat) (e : exn) :
  (k < 3)%nat ->
  e <> OSError ->
  card_detect_fell P (instant (Loop.core s)) = false ->
  card_detect_rose P (instant (Loop.core s)) = true ->
  (forall i, (i < k)%nat ->
     mount_sd_card_fault P (i + instant (Loop.core s)) = Some OSError) ->
  mount_sd_card_fault P (k + instant (Loop.core s)) = Some e ->
  let s' := snd (Loop.handle_sd_card_events P s) in
  fst (Loop.handle_sd_card_events P s) = Raise e
  /\ Loop.card_log s' = (Loop.card_log s ++ repeat MountCard (S k))%list
  /\ emitted (Loop.core s) (Loop.core s')
     = (EvMessage ("Mounting" ++ newline ++ "SD Card") 0xFFFFFF
        :: repeat (EvSleep 500) k)%list.
Proof.
  intros Hk He Hfell Hrose Hfail Hbad s'. subst s'.
  unfold Loop.handle_sd_card_events. runS. rewrite Hfell. runS.
  rewrite Hrose. runS.
  replace 3%nat with (k + S (2 - k))%nat by lia.
  match goal with
  | |- context [Loop.mount_with_retries P _ ?s0] =>
      rewrite (mount_with_retries_prefix P k (S (2 - k)) s0)
        by (cbn [Loop.core]; run; exact Hfail);
      rewrite (mount_with_retries_escape P (2 - k) (after_mounting k k s0) e)
        by (first [exact He
                  | unfold after_mounting; cbn [Loop.core]; run; exact Hbad])
  end.
  unfold after_mounting. runS. repeat split.
  - rewrite <- app_assoc. f_equal. cbn [repeat]. symmetry. apply repeat_cons.
  - apply emitted_app. run. rewrite app_nil_r, <- !app_assoc. reflexivity.
Qed.

Lemma card_mount_other_error_escapes_witness :
  let P := mkPeriphery Z (fun raw => raw) (fun _ => 0) (fun _ => 0)
             (fun _ _ live => Returns live) (fun _ live => Returns live)
             (fun _ => false) (fun _ => true)
             (fun t => if (t <? 1)%nat then Some OSError else Some RuntimeError)
             (fun _ => 0) in
  let s := Loop.mkSystem (P := P) (module_globals
             (bench_env true bench_files (Returns PyNone) (fun _ => true)
                no_buttons None "JPEG")) [] [] in
  fst (Loop.handle_sd_card_events P s) = Raise RuntimeError
  /\ Loop.card_log (snd (Loop.handle_sd_card_events P s))
     = [MountCard; MountCard].
Proof.
  intros P s.
  destruct (card_mount_other_error_escapes P s 1 RuntimeError)
    as [Hrun [Hc _]].
  - lia.
  - discriminate.
  - reflexivity.
  - reflexivity.
  - intros i Hi. destruct i as [|i]; [reflexivity | lia].
  - reflexivity.
  - split; assumption.
Defined.

(** *** One pass of the loop *)

Lemma update_battery_status_frame (E : Env) (P : Periphery)
    (s : Loop.system P) :
  exists r t h,
    Loop.update_battery_status E P s
    = (Ok r, Loop.mkSystem (set_last_recorded_time t (Loop.core s))
               (Loop.card_log s) h).
Proof.
  destruct s as [c cards hist].
  unfold Loop.update_battery_status. runS.
  destruct (10 <=? clock E (instant c) - last_recorded_time c); runS.
  - rewrite get_battery_voltage_spec. runS.
    eexists. eexists. eexists. reflexivity.
  - exists None, (last_recorded_time c), hist. destruct c. reflexivity.
Qed.

Lemma core_display_only_refl {P : Periphery} (s : Loop.system P) :
  core_display_only s s.
Proof. split; [apply display_only_refl | reflexivity]. Qed.

Lemma core_display_only_trans {P : Periphery} (a b c : Loop.system P) :
  core_display_only a b -> core_display_only b c -> core_display_only a c.
Proof.
  intros [Hab Gab] [Hbc Gbc]. split.
  - eapply display_only_trans; eassumption.
  - congruence.
Qed.

Lemma core_display_only_emit {P : Periphery} (e : event) :
  is_storage_write e = false ->
  tracks (P := P) core_display_only (Loop.liftS (emit e)).
Proof.
  intros He s. split.
  - destruct (liftS_frame (emit e) s) as [_ [_ [Hc _]]]. rewrite Hc.
    apply browses_emit, He.
  - destruct s as [c cards hist]. reflexivity.
Qed.

Lemma core_display_only_time_sleep {P : Periphery} (ms : Z) :
  tracks (P := P) core_display_only (Loop.liftS (time_sleep ms)).
Proof.
  intros s. split.
  - destruct (liftS_frame (time_sleep ms) s) as [_ [_ [Hc _]]]. rewrite Hc.
    apply browses_time_sleep.
  - destruct s as [c cards hist]. reflexivity.
Qed.

Lemma core_display_only_modify_card_log {P : Periphery}
    (f : list card_event -> list card_event) :
  tracks (P := P) core_display_only
    (Loop.modifyS (fun s => Loop.set_card_log (f (Loop.card_log s)) s)).
Proof. intros s. split; [apply display_only_refl | reflexivity]. Qed.

Lemma core_display_only_mount (P : Periphery) (attempts : nat) :
  tracks core_display_only (Loop.mount_with_retries P attempts).
Proof.
  induction attempts as [|n IH]; cbn [Loop.mount_with_retries].
  - apply (tracks_ret _ _ core_display_only_refl).
  - apply (tracks_bind _ _ core_display_only_trans);
      [apply (tracks_get _ _ core_display_only_refl)|intro s0].
    apply (tracks_bind _ _ core_display_only_trans);
      [apply (core_display_only_modify_card_log (fun l => (l ++ _)%list))
      |intros _].
    destruct (mount_sd_card_fault P (instant (Loop.core s0))) as [e|].
    + destruct (except_OSError e).
      * apply (tracks_bind _ _ core_display_only_trans);
          [apply core_display_only_time_sleep | intros _; exact IH].
      * apply (tracks_raise _ _ core_display_only_refl).
    + apply (tracks_ret _ _ core_display_only_refl).
Qed.

Lemma core_display_only_sd_card_events (P : Periphery) :
  tracks core_display_only (Loop.handle_sd_card_events P).
Proof.
  unfold Loop.handle_sd_card_events, display_message, display_refresh.
  repeat match goal with
         | |- tracks _ (Loop.bindS _ _) =>
             apply (tracks_bind _ _ core_display_only_trans); [|intro]
         | |- tracks _ (Loop.retS _) =>
             apply (tracks_ret _ _ core_display_only_refl)
         | |- tracks _ Loop.getS =>
             apply (tracks_get _ _ core_display_only_refl)
         | |- tracks _ (Loop.whenS _ _) =>
             apply (tracks_when _ _ core_display_only_refl)
         | |- tracks _ (Loop.modifyS _) =>
             apply (core_display_only_modify_card_log
                      (fun l => (l ++ _)%list))
         | |- tracks _ (Loop.mount_with_retries _ _) =>
             apply core_display_only_mount
         | |- tracks _ (Loop.liftS (emit _)) =>
             apply core_display_only_emit; reflexivity
         | |- tracks _ (Loop.liftS (time_sleep _)) =>
             apply core_display_only_time_sleep
         end.
Qed.

(** X29.  A pass of the loop that starts in the gallery runs neither the
    preview nor a capture: the handlers' state sees display activity only
    (no file is written, [last_frame], [onionskin], the time-lapse state
    and the settings cursor stay), and unless the gallery was left during
    the pass, card insertion and removal are not acted upon. *)
Theorem gallery_pass_is_display_only (E : Env) (P : Periphery) (fuel : nat)
    (s : Loop.system P) :
  gallery_mode (Loop.core s) = true ->
  let s' := snd (Loop.main_iteration E P fuel s) in
  display_only (Loop.core s) (Loop.core s')
  /\ (gallery_mode (Loop.core s') = true ->
      Loop.card_log s' = Loop.card_log s).
Proof.
  intros Hgallery s'. subst s'.
  destruct (update_battery_status_frame E P s) as [r [t [h Hupd]]].
  remember (Loop.main_iteration E P fuel s) as out eqn:Hout.
  unfold Loop.main_iteration in Hout.
  unfold Loop.bindS at 1 in Hout. rewrite Hupd in Hout.
  unfold Loop.handle_all_buttons, keys_debounce in Hout.
  revert Hout. runS. repeat (rewrite Hgallery; runS).
  match goal with
  | |- context [handle_gallery_buttons E ?w1] =>
      pose proof (browses_handle_gallery_buttons E w1) as Hb;
      assert (H1 : display_only (Loop.core s) w1)
        by (unfold display_only; run; repeat split;
            exists []; rewrite app_nil_r; split; reflexivity);
      destruct (handle_gallery_buttons E w1) as [[[]|e|] w2]
  end; cbn [snd] in Hb; runS;
    try (intros ->; split; [eapply display_only_trans; eassumption
                           | reflexivity]).
  destruct (gallery_mode w2) eqn:Hg2; runS.
  - intros ->. split; [eapply display_only_trans; eassumption | reflexivity].
  - intros ->.
    match goal with
    | |- context [Loop.handle_sd_card_events P ?s2] =>
        destruct (core_display_only_sd_card_events P s2) as [Hsd Hgm]
    end.
    cbn [Loop.core] in Hsd, Hgm. split.
    + apply (display_only_trans _ _ _ H1).
      apply (display_only_trans _ _ _ Hb). exact Hsd.
    + intros Hback. rewrite Hgm, Hg2 in Hback. discriminate Hback.
Qed.

Lemma gallery_pass_is_display_only_witness :
  let E := bench_env true bench_files (Returns PyNone) (fun _ => true)
             right_only None "JPEG" in
  let s := Loop.mkSystem (P := bench_periphery)
             (snd (enter_gallery_mode E
                     (set_gallery_mode true (bench_world E)))) [] [] in
  let s' := snd (Loop.main_iteration E bench_periphery 0 s) in
  display_only (Loop.core s) (Loop.core s')
  /\ gallery_index (Loop.core s') = 1
  /\ Loop.card_log s' = [].
Proof.
  intros E s s'.
  destruct (gallery_pass_is_display_only E bench_periphery 0 s) as [Hd Hc].
  - reflexivity.
  - split; [exact Hd|]. split; [reflexivity|]. apply Hc. reflexivity.
Defined.

(** X30.  An idle pass in camera mode.  Outside the stop-motion, Game Boy
    and time-lapse modes, with no button pressed and the card-detect
    switch quiet, a pass of the loop shows one sensor frame and does
    nothing else: nothing is captured or written, no card call is made,
    and the frame buffers, the cursor and the mode stay as they are. *)
Theorem idle_camera_pass (E : Env) (P : Periphery) (fuel : nat)
    (s : Loop.system P) :
  gallery_mode (Loop.core s) = false ->
  mode_text (pycam (Loop.core s)) <> "STOP" ->
  mode_text (pycam (Loop.core s)) <> "GBOY" ->
  mode_text (pycam (Loop.core s)) <> "LAPS" ->
  debounced_keys E (S (instant (Loop.core s))) = no_buttons ->
  card_detect_fell P (S (instant (Loop.core s))) = false ->
  card_detect_rose P (S (instant (Loop.core s))) = false ->
  exists s',
    Loop.main_iteration E P fuel s = (Ok tt, s')
    /\ emitted (Loop.core s) (Loop.core s')
       = [EvBlit (sensor E (instant (Loop.core s)))]
    /\ instant (Loop.core s') = S (instant (Loop.core s))
    /\ Loop.card_log s' = Loop.card_log s
    /\ last_frame (Loop.core s') = last_frame (Loop.core s)
    /\ onionskin (Loop.core s') = onionskin (Loop.core s)
    /\ curr_setting (Loop.core s') = curr_setting (Loop.core s)
    /\ gallery_mode (Loop.core s') = false
    /\ mode_text (pycam (Loop.core s')) = mode_text (pycam (Loop.core s)).
Proof.
  intros Hgallery Hstop Hgboy Hlaps Hkeys Hfell Hrose.
  apply String.eqb_neq in Hstop, Hgboy, Hlaps.
  destruct (update_battery_status_frame E P s) as [r [t [h Hupd]]].
  unfold Loop.main_iteration.
  unfold Loop.bindS at 1. rewrite Hupd.
  unfold Loop.handle_all_buttons, keys_debounce, handle_camera_modes,
    Loop.handle_camera_buttons, handle_shutter_button,
    handle_navigation_buttons, Loop.handle_sd_card_events.
  runS. repeat (rewrite Hgallery; runS).
  rewrite Hstop, Hgboy, Hlaps. runS.
  repeat (rewrite ?Hgallery, ?Hkeys; unfold no_buttons; runS;
          cbn [Z.eqb negb]; runS).
  rewrite Hfell. runS. rewrite Hrose. runS.
  eexists. split; [reflexivity|]. runS. repeat split; try assumption.
  apply emitted_app. reflexivity.
Qed.

Lemma idle_camera_pass_witness :
  let E := bench_env true bench_files (Returns PyNone) (fun _ => true)
             no_buttons None "JPEG" in
  let s := Loop.mkSystem (P := bench_periphery) (bench_world E) [] [] in
  exists s',
    Loop.main_iteration E bench_periphery 0 s = (Ok tt, s')
    /\ emitted (Loop.core s) (Loop.core s') = [EvBlit (mkBitmap 2 1 [0; 7])]
    /\ Loop.card_log s' = [].
Proof.
  intros E s.
  destruct (idle_camera_pass E bench_periphery 0 s)
    as [s' [Hrun [Hq [_ [Hc _]]]]];
    try reflexivity; try discriminate.
  exists s'. repeat split; assumption.
Defined.

(** The OK button's battery read-out.  Outside time-lapse mode the
    OK button takes a battery sample of its own (the history grows by the
    reading, the oldest of eleven being dropped) and shows the percentage
    of the mean; in time-lapse mode it leaves the history alone.  On the
    handlers' state it acts exactly as [handle_ok_button] with the
    percentage given from outside, whenever that percentage is the one
    computed here. *)
Theorem ok_button_takes_battery_sample (E : Env) (P : Periphery)
    (s : Loop.system P) :
  let reading :=
    voltage_of_reading P (battery_pin_value P (instant (Loop.core s))) in
  let h := (Loop.voltage_history s ++ [reading])%list in
  let h' := if (10 <? Z.of_nat (List.length h)) then tl h else h in
  (mode_text (pycam (Loop.core s)) <> "LAPS" ->
   get_battery_percent E (instant (Loop.core s))
   = battery_percentage P (mean P h')) ->
  let out := Loop.handle_ok_button E P s in
  fst out = fst (handle_ok_button E (Loop.core s))
  /\ Loop.core (snd out) = snd (handle_ok_button E (Loop.core s))
  /\ Loop.card_log (snd out) = Loop.card_log s
  /\ Loop.voltage_history (snd out)
     = if String.eqb (mode_text (pycam (Loop.core s))) "LAPS"
       then Loop.voltage_history s else h'.
Proof.
  intros reading h h' Hpercent out. subst out.
  unfold Loop.handle_ok_button. runS.
  destruct (String.eqb_spec (mode_text (pycam (Loop.core s))) "LAPS")
    as [Hlaps|Hlaps].
  - destruct (liftS_frame (handle_ok_button E) s) as [Hc [Hh [Hw Hr]]].
    repeat split; assumption.
  - specialize (Hpercent Hlaps).
    pose proof (get_battery_voltage_spec P s) as Hget. cbv zeta in Hget.
    fold reading in Hget. fold h in Hget. fold h' in Hget.
    runS. rewrite Hget. runS.
    unfold handle_ok_button. run.
    apply String.eqb_neq in Hlaps. rewrite Hlaps. run.
    rewrite Hpercent. repeat split.
Qed.

Lemma ok_button_takes_battery_sample_witness :
  let P := mkPeriphery Z (fun raw => raw) (fun _ => 0) (fun _ => 50)
             (fun _ _ live => Returns live) (fun _ live => Returns live)
             (fun _ => false) (fun _ => false) (fun _ => None)
             (fun _ => 40000) in
  let E := bench_env true bench_files (Returns PyNone) (fun _ => true)
             no_buttons None "JPEG" in
  let s := Loop.mkSystem (P := P) (bench_world E) [] [1; 2; 3] in
  Loop.core (snd (Loop.handle_ok_button E P s))
  = snd (handle_ok_button E (bench_world E))
  /\ Loop.voltage_history (snd (Loop.handle_ok_button E P s))
     = [1; 2; 3; 40000].
Proof.
  intros P E s.
  destruct (ok_button_takes_battery_sample E P s) as [_ [Hc [_ Hh]]].
  - intros _. reflexivity.
  - split; [exact Hc | exact Hh].
Defined.
